(** * The Humanize bridge (scripts/notion-bridge.ts, scripts/humanize.ts)

    A shallow embedding of the ticket synchronisation code: the property
    extractors, the ticket normaliser, the paginated fetch, the queue
    builder, the snapshot store and the mutation operations, followed by
    the properties established about them. *)

From Stdlib Require Import String Ascii List ZArith Lia Bool Arith.
From Stdlib Require Import Sorting.Sorted Sorting.Permutation.
From Stdlib Require Import DecimalString.
From Stdlib Require DecimalNat OrderedTypeEx.
From Equations Require Import Equations.
Import ListNotations.
Open Scope string_scope.
Set Warnings "-register-all".

(* ===================================================================== *)
(** ** Run-time values

    The bridge handles what [res.json()] and [JSON.parse] give it, typed
    [any].  Values are the JSON values plus [undefined], which reading an
    absent property yields.  A number is kept as the text [String(n)]
    gives for it: the bridge only ever tests a number for truthiness or
    renders it.  A string is a sequence of code units, one character per
    unit.  An object is the list of its own properties; the first binding
    of a key is the one read. *)

Module Js.

Inductive value : Type :=
| Undefined
| Null
| Bool (b : bool)
| Num (repr : string)
| Str (s : string)
| Arr (items : list value)
| Obj (fields : list (string * value)).

(** What a [throw] carries: a [TypeError] or a [SyntaxError] raised by
    the language itself, or an [Error] built by the bridge with its
    message. *)
Inductive exn : Type :=
| TypeError
| SyntaxError
| Error (message : string).

Inductive completion (A : Type) : Type :=
| Normal (a : A)
| Throw (e : exn).
Arguments Normal {A} a.
Arguments Throw {A} e.

Definition bind {A B} (c : completion A) (k : A -> completion B) : completion B :=
  match c with
  | Normal a => k a
  | Throw e => Throw e
  end.

Definition returns {A} (c : completion A) : bool :=
  match c with Normal _ => true | Throw _ => false end.

(** [!v] is [negb (truthy v)]. *)
Definition truthy (v : value) : bool :=
  match v with
  | Undefined | Null => false
  | Bool b => b
  | Num r => negb (String.eqb r "0" || String.eqb r "NaN")
  | Str s => negb (String.eqb s "")
  | Arr _ | Obj _ => true
  end.

Definition nullish (v : value) : bool :=
  match v with Undefined | Null => true | _ => false end.

(** [v ?? d] *)
Definition coalesce (v d : value) : value := if nullish v then d else v.

(** [v || d] *)
Definition or_else (v d : value) : value := if truthy v then v else d.

(** [v === 0] *)
Definition is_zero (v : value) : bool :=
  match v with Num r => String.eqb r "0" | _ => false end.

(** [v === "lit"] *)
Definition is_str (v : value) (lit : string) : bool :=
  match v with Str s => String.eqb s lit | _ => false end.

Fixpoint own (fields : list (string * value)) (k : string) : option value :=
  match fields with
  | [] => None
  | (k', v) :: rest => if String.eqb k' k then Some v else own rest k
  end.

Definition of_nat (n : nat) : value := Num (NilEmpty.string_of_uint (Nat.to_uint n)).

(** [v.k] and [v[k]], for the property names the bridge reads: none of
    them is a member of a built-in prototype, except [length]. *)
Definition get (v : value) (k : string) : completion value :=
  match v with
  | Undefined | Null => Throw TypeError
  | Obj fields => Normal (match own fields k with Some x => x | None => Undefined end)
  | Arr items => Normal (if String.eqb k "length" then of_nat (List.length items) else Undefined)
  | Str s => Normal (if String.eqb k "length" then of_nat (String.length s) else Undefined)
  | Bool _ | Num _ => Normal Undefined
  end.

(** [v?.k] *)
Definition opt_get (v : value) (k : string) : completion value :=
  if nullish v then Normal Undefined else get v k.

(** [String(v)], the conversion a template literal and [join] apply.  An
    array renders as its elements joined by commas; an object renders as
    ["[object Object]"] unless it has an own [toString] property, which,
    coming from JSON, is not callable, and then the conversion throws. *)
Fixpoint toString (v : value) : completion string :=
  match v with
  | Undefined => Normal "undefined"
  | Null => Normal "null"
  | Bool true => Normal "true"
  | Bool false => Normal "false"
  | Num r => Normal r
  | Str s => Normal s
  | Arr items =>
      (fix commas (l : list value) : completion string :=
         match l with
         | [] => Normal ""
         | x :: rest =>
             bind (match x with
                   | Undefined | Null => Normal ""
                   | _ => toString x
                   end)
               (fun s =>
                  match rest with
                  | [] => Normal s
                  | _ => bind (commas rest) (fun r => Normal (s ++ "," ++ r))
                  end)
         end) items
  | Obj fields =>
      match own fields "toString" with
      | Some _ => Throw TypeError
      | None => Normal "[object Object]"
      end
  end.

(** [items.join(sep)]: [undefined] and [null] elements render as the
    empty string. *)
Fixpoint join (items : list value) (sep : string) : completion string :=
  match items with
  | [] => Normal ""
  | x :: rest =>
      bind (if nullish x then Normal "" else toString x)
        (fun s =>
           match rest with
           | [] => Normal s
           | _ => bind (join rest sep) (fun r => Normal (s ++ sep ++ r))
           end)
  end.

(** [f] applied to each element in order, stopping at the first throw. *)
Fixpoint traverse {A B} (f : A -> completion B) (l : list A) : completion (list B) :=
  match l with
  | [] => Normal []
  | x :: rest =>
      bind (f x) (fun y => bind (traverse f rest) (fun ys => Normal (y :: ys)))
  end.

(** [v.map(f)]: only an array has a [map] method; on anything else the
    call is a [TypeError]. *)
Definition map_method (v : value) (f : value -> completion value) : completion (list value) :=
  match v with
  | Arr items => traverse f items
  | _ => Throw TypeError
  end.

Definition value_eq_str (s : string) (v : value) : bool := is_str v s.

(** [ids.includes(s)] on an array, for a string [s]. *)
Definition includes_str (ids : list value) (s : string) : bool :=
  existsb (value_eq_str s) ids.

(** [strings.includes(v)] on an array of strings. *)
Definition includes_value (strings : list string) (v : value) : bool :=
  existsb (is_str v) strings.

(** [l[0]] on an array. *)
Definition first (l : list value) : value :=
  match l with [] => Undefined | x :: _ => x end.

(** [v[0]] *)
Definition item0 (v : value) : completion value :=
  match v with
  | Undefined | Null => Throw TypeError
  | Arr items => Normal (first items)
  | Str (String c _) => Normal (Str (String c EmptyString))
  | Obj fields => Normal (match own fields "0" with Some x => x | None => Undefined end)
  | _ => Normal Undefined
  end.

End Js.

Import Js.

Declare Scope js_scope.
Delimit Scope js_scope with js.
Notation "x <- c ;; k" := (Js.bind c (fun x => k))
  (at level 100, c at next level, right associativity) : js_scope.
Open Scope js_scope.

(* ===================================================================== *)
(** ** Property extraction helpers *)

Definition extractPlainText (prop : value) : completion value :=
  if negb (truthy prop) then Normal Null else
  ty <- get prop "type" ;;
  if is_str ty "rich_text" then
    spans <- get prop "rich_text" ;;
    if nullish spans then Normal Null else
    parts <- map_method spans (fun t => get t "plain_text") ;;
    text <- join parts "" ;;
    Normal (or_else (Str text) Null)
  else if is_str ty "title" then
    spans <- get prop "title" ;;
    if nullish spans then Normal Null else
    parts <- map_method spans (fun t => get t "plain_text") ;;
    text <- join parts "" ;;
    Normal (or_else (Str text) Null)
  else Normal Null.

Definition extractSelect (prop : value) : completion value :=
  if negb (truthy prop) then Normal Null else
  ty <- get prop "type" ;;
  if is_str ty "select" then
    sel <- get prop "select" ;;
    name <- opt_get sel "name" ;;
    Normal (coalesce name Null)
  else if is_str ty "status" then
    st <- get prop "status" ;;
    name <- opt_get st "name" ;;
    Normal (coalesce name Null)
  else Normal Null.

Definition extractMultiSelect (prop : value) : completion (list value) :=
  if negb (truthy prop) then Normal [] else
  ty <- get prop "type" ;;
  if is_str ty "multi_select" then
    opts <- get prop "multi_select" ;;
    map_method (coalesce opts (Arr [])) (fun o => get o "name")
  else if is_str ty "select" then
    (* Fallback: if it was converted to select *)
    sel <- get prop "select" ;;
    name <- opt_get sel "name" ;;
    if truthy name then Normal [name] else Normal []
  else Normal [].

Definition extractUrl (prop : value) : completion value :=
  if negb (truthy prop) then Normal Null else
  ty <- get prop "type" ;;
  if is_str ty "url" then
    u <- get prop "url" ;;
    Normal (coalesce u Null)
  else Normal Null.

Definition extractDate (prop : value) : completion value :=
  if negb (truthy prop) then Normal Null else
  ty <- get prop "type" ;;
  if is_str ty "date" then
    d <- get prop "date" ;;
    start <- opt_get d "start" ;;
    Normal (coalesce start Null)
  else Normal Null.

Definition extractRelationIds (prop : value) : completion (list value) :=
  if negb (truthy prop) then Normal [] else
  ty <- get prop "type" ;;
  if negb (is_str ty "relation") then Normal [] else
  rel <- get prop "relation" ;;
  map_method (coalesce rel (Arr [])) (fun r => get r "id").

Definition extractAssigneeIds (prop : value) : completion (list value) :=
  if negb (truthy prop) then Normal [] else
  ty <- get prop "type" ;;
  if negb (is_str ty "people") then Normal [] else
  people <- get prop "people" ;;
  map_method (coalesce people (Arr [])) (fun p => get p "id").

(* ===================================================================== *)
(** ** Tickets, queue items and the persisted snapshot
    (shared/types/shipyard.ts)

    The interfaces declare strings and closed unions; at run time a field
    holds whatever the extractor returned, so the fields are values. *)

Module Ticket.
Record t : Type := make {
  id : value;
  title : value;
  status : value;
  summary : value;
  spec_url : value;
  due : value;
  branch : value;
  commit : value;
  feature : value;
  resolved_at : value;
  area : value;
  application : value;
  type : value;
  priority : value;
  blocked_by : list value;
  blocks : list value;
  created_at : value;
  updated_at : value;
  assigned_to_ai_squad : bool
}.
End Ticket.

Module QueueItem.
Record t : Type := make {
  ticket_id : value;
  title : value;
  area : value;
  status : value;
  priority : value;
  blocked_by : list value;
  blocks : list value;
  branch : value
}.
End QueueItem.

Module HistoryItem.
Record t : Type := make {
  ticket_id : string;
  title : string;
  action : string;
  timestamp : string
}.
End HistoryItem.

(** [HumanizeState].  [history] is what [prev.history ?? []] evaluated
    to, which is whatever the snapshot file held under that key. *)
Module HumanizeState.
Record t : Type := make {
  last_synced : string;
  queue : list QueueItem.t;
  history : value
}.
End HumanizeState.

Definition ShipyardStatus : list string :=
  ["Open"; "In Progress"; "On hold"; "In Review"; "Review AI Fix"; "Done";
   "Blocked by human"].

Definition ShipyardPriority : list string := ["P0"; "P1"; "P2"; "P3"; "P4"].

(** [JSON.parse(JSON.stringify(v))], what a reader finds of a value that
    was written: a property whose value is [undefined] is left out, an
    [undefined] element of an array is written as [null], and so is a
    number that is not finite.  A value that came out of [JSON.parse] is
    written back as it is. *)
Fixpoint jsonOf (v : value) : value :=
  match v with
  | Num r =>
      if String.eqb r "NaN" || String.eqb r "Infinity" || String.eqb r "-Infinity"
      then Null else Num r
  | Arr items =>
      Arr (map (fun x => match x with Undefined => Null | _ => jsonOf x end) items)
  | Obj fields =>
      Obj ((fix props (l : list (string * value)) : list (string * value) :=
              match l with
              | [] => []
              | (k, Undefined) :: rest => props rest
              | (k, x) :: rest => (k, jsonOf x) :: props rest
              end) fields)
  | other => other
  end.

(** The object a record is, before it is written. *)
Definition queueItem_json (q : QueueItem.t) : value :=
  Obj [("ticket_id", QueueItem.ticket_id q);
       ("title", QueueItem.title q);
       ("area", QueueItem.area q);
       ("status", QueueItem.status q);
       ("priority", QueueItem.priority q);
       ("blocked_by", Arr (QueueItem.blocked_by q));
       ("blocks", Arr (QueueItem.blocks q));
       ("branch", QueueItem.branch q)].

Definition historyItem_json (h : HistoryItem.t) : value :=
  Obj [("ticket_id", Str (HistoryItem.ticket_id h));
       ("title", Str (HistoryItem.title h));
       ("action", Str (HistoryItem.action h));
       ("timestamp", Str (HistoryItem.timestamp h))].

(** What [JSON.stringify(state, null, 2)] leaves on disk, as the value
    the text parses to.  The items of the queue hold what the extractors
    returned and are written as [jsonOf] says; the history is a value
    [JSON.parse] gave, or the empty array, and is written back as it
    is. *)
Definition state_json (s : HumanizeState.t) : value :=
  Obj [("last_synced", Str (HumanizeState.last_synced s));
       ("queue", Arr (map (fun q => jsonOf (queueItem_json q)) (HumanizeState.queue s)));
       ("history", HumanizeState.history s)].

(* ===================================================================== *)
(** ** The world the bridge runs in

    The remote transport is a script of parsed responses, handed out one
    per request; the snapshot file is absent, or holds text that
    [JSON.parse] rejects, or holds the text of a JSON value, kept as the
    value [JSON.parse] gives for it. *)

Inductive Event : Type :=
| Request (method path : string) (body : value)
| Sleep (ms : nat).

Inductive File : Type :=
| Unparsable (text : string)
| Json (v : value).

Record World : Type := mkWorld {
  remote : list value;          (* responses still to be served *)
  dataSourceId : value;         (* _dataSourceId, null until resolved *)
  stateFile : option File;      (* humanize_state.json *)
  now : string;                 (* new Date().toISOString() *)
  trace : list Event            (* what was done, oldest first *)
}.

Definition M (A : Type) : Type := World -> completion A * World.

Definition ret {A} (a : A) : M A := fun w => (Normal a, w).

Definition throw {A} (e : exn) : M A := fun w => (Throw e, w).

Definition bindM {A B} (m : M A) (k : A -> M B) : M B :=
  fun w =>
    match m w with
    | (Normal a, w') => k a w'
    | (Throw e, w') => (Throw e, w')
    end.

Definition lift {A} (c : completion A) : M A := fun w => (c, w).

Notation "x <~ m ;; k" := (bindM m (fun x => k))
  (at level 100, m at next level, right associativity) : js_scope.

Definition emit (e : Event) : M unit :=
  fun w => (Normal tt,
            mkWorld (remote w) (dataSourceId w) (stateFile w) (now w) (trace w ++ [e])).

Definition RATE_LIMIT_DELAY : nat := 350.

Definition sleep (ms : nat) : M unit := emit (Sleep ms).

(** [notionFetch(urlPath, options)]: the request is recorded and the next
    scripted response is its parsed body; with no response left the
    request fails, which [fetch] reports as a [TypeError]. *)
Definition notionFetch (urlPath method : string) (body : value) : M value :=
  _ <~ emit (Request method urlPath body) ;;
  fun w =>
    match remote w with
    | [] => (Throw TypeError, w)
    | data :: rest =>
        (Normal data,
         mkWorld rest (dataSourceId w) (stateFile w) (now w) (trace w))
    end.

Definition setDataSourceId (v : value) : M unit :=
  fun w => (Normal tt, mkWorld (remote w) v (stateFile w) (now w) (trace w)).

Definition writeStateFile (f : File) : M unit :=
  fun w => (Normal tt, mkWorld (remote w) (dataSourceId w) (Some f) (now w) (trace w)).

Definition requests (t : list Event) : list Event :=
  filter (fun e => match e with Request _ _ _ => true | Sleep _ => false end) t.

(* ===================================================================== *)
(** ** Platform functions the bridge calls *)

(** [s.includes(pat)] on a string. *)
Definition str_includes (s pat : string) : bool :=
  match String.index 0 pat s with Some _ => true | None => false end.

(** [for (const x of v)]: an array yields its elements, a string its
    characters; nothing else the transport can return is iterable. *)
Definition iterate (v : value) : completion (list value) :=
  match v with
  | Arr items => Normal items
  | Str s => Normal (map (fun c => Str (String c EmptyString)) (list_ascii_of_string s))
  | _ => Throw TypeError
  end.

(** [arr.find(pred)] *)
Fixpoint find_first (pred : value -> completion bool) (l : list value) : completion value :=
  match l with
  | [] => Normal Undefined
  | x :: rest =>
      b <- pred x ;;
      if b then Normal x else find_first pred rest
  end.

Definition find_method (v : value) (pred : value -> completion bool) : completion value :=
  match v with
  | Arr items => find_first pred items
  | _ => Throw TypeError
  end.

(** [v.includes("lit")]: strings and arrays have the method. *)
Definition includes_method (v : value) (lit : string) : completion bool :=
  match v with
  | Str s => Normal (str_includes s lit)
  | Arr items => Normal (includes_str items lit)
  | _ => Throw TypeError
  end.

(** [arr.sort(cmp)].  For a consistent comparator the language fixes the
    result: the stable arrangement in ascending order.  It is computed
    here by insertion from the right, an element staying in front of the
    later elements it does not compare greater than.  A throw of the
    comparator ends the sort.  Which pairs are compared, and in which
    order, the language leaves to the engine, and the engine's choice is
    not the one made here: on a list for which the comparator throws on
    some pair, whether the sort returns or throws is not determined by
    this definition.  The comparator of the bridge throws only on a
    priority that is neither absent nor a string. *)
Section Sort.

Context {A : Type} (cmp : A -> A -> completion Z).

Fixpoint insert (x : A) (sorted : list A) : completion (list A) :=
  match sorted with
  | [] => Normal [x]
  | y :: rest =>
      c <- cmp x y ;;
      if (c <=? 0)%Z then Normal (x :: y :: rest)
      else (r <- insert x rest ;; Normal (y :: r))
  end.

Fixpoint sort (l : list A) : completion (list A) :=
  match l with
  | [] => Normal []
  | x :: rest => s <- sort rest ;; insert x s
  end.

End Sort.

(* ===================================================================== *)
(** ** scripts/notion-bridge.ts *)

Definition TARGET_APP : string := "Retail Intelligence Insights".

Definition TEAM_USERS : list (string * string) :=
  [("Marco Lanzi", "72881aba-e6de-4b18-8673-4f51f5de1eec");
   ("Davide Bolognini", "2bed872b-594c-8136-8470-0002b1b2076b");
   ("Mara Pescione", "2c6d872b-594c-811d-b980-0002f2ae5bf1")].

Fixpoint lookup (table : list (string * string)) (k : string) : option string :=
  match table with
  | [] => None
  | (k', v) :: rest => if String.eqb k' k then Some v else lookup rest k
  end.

(** The names every object literal answers to besides its own keys: the
    members of [Object.prototype].  All of them are functions, but
    [__proto__], which is the prototype object itself. *)
Definition inherited : list string :=
  ["constructor"; "hasOwnProperty"; "isPrototypeOf"; "propertyIsEnumerable";
   "toLocaleString"; "toString"; "valueOf"; "__proto__";
   "__defineGetter__"; "__defineSetter__"; "__lookupGetter__"; "__lookupSetter__"].

(** [TEAM_USERS[name]], when it is truthy, as the [{ id: userId }] that
    [JSON.stringify] writes: the table is an object literal, so the read
    gives a string of the table or an inherited member; a function-valued
    property is left out of the text, the prototype object is written as
    an empty object. *)
Definition personOf (team : list (string * string)) (name : string) : option value :=
  match lookup team name with
  | Some userId => if String.eqb userId "" then None else Some (Obj [("id", Str userId)])
  | None =>
      if String.eqb name "__proto__" then Some (Obj [("id", Obj [])])
      else if existsb (String.eqb name) inherited then Some (Obj [])
      else None
  end.

Section Bridge.

(** [process.env.NOTION_AI_SQUAD_USER_ID ?? ""] and
    [process.env.NOTION_SHIPYARD_DB_ID ?? ""]. *)
Variable AI_SQUAD_ID : string.
Variable DB_ID : string.

(** [String.prototype.localeCompare], the collation of the host's locale:
    negative, zero or positive. *)
Variable localeCompare : string -> string -> Z.

(** [JSON.stringify], as text; it only ever fills an error message. *)
Variable JSON_stringify : value -> string.

Definition resolveDataSourceId : M value :=
  fun w =>
    if truthy (dataSourceId w) then (Normal (dataSourceId w), w) else
    (data <~ notionFetch ("/databases/" ++ DB_ID) "GET" Undefined ;;
     obj <~ lift (get data "object") ;;
     if is_str obj "error" then
       msg <~ lift (m <- get data "message" ;; toString m) ;;
       throw (Error ("Failed to resolve data sources: " ++ msg))
     else
     found <~ lift (get data "data_sources") ;;
     let sources := coalesce found (Arr []) in
     len <~ lift (get sources "length") ;;
     if is_zero len
     then throw (Error "No data sources found on Shipyard database")
     else
       (* Prefer "Capabl OS • Tickets", fall back to the first source *)
       tickets <~ lift (find_method sources
                          (fun s => name <- get s "name" ;; includes_method name "Tickets")) ;;
       picked <~ lift (opt_get tickets "id") ;;
       id <~ (if nullish picked
              then lift (s0 <- item0 sources ;; get s0 "id")
              else ret picked) ;;
       _ <~ setDataSourceId id ;;
       ret id) w.

Definition isAssignedToAISquad (prop : value) : completion bool :=
  (* If AI Squad user not configured, accept all tickets (backwards compat) *)
  if String.eqb AI_SQUAD_ID "" then Normal true else
  ids <- extractAssigneeIds prop ;;
  Normal (includes_str ids AI_SQUAD_ID).

Definition extractTicket (page : value) : completion Ticket.t :=
  found <- get page "properties" ;;
  let props := coalesce found (Obj []) in
  (* [props[k]]; [props] is not null or undefined, the read cannot throw *)
  let prop k := match get props k with Normal v => v | Throw _ => Undefined end in
  apps <- extractMultiSelect (prop "Application") ;;
  areas <- extractMultiSelect (prop "Area") ;;
  id <- get page "id" ;;
  title <- extractPlainText (prop "Ticket") ;;
  status <- extractSelect (prop "Status") ;;
  summary <- extractPlainText (prop "Summary") ;;
  spec_url <- extractUrl (prop "Spec URL") ;;
  due <- extractDate (prop "Due") ;;
  branch <- extractPlainText (prop "Branch") ;;
  commit <- extractPlainText (prop "Commit") ;;
  feature <- extractSelect (prop "Feature") ;;
  resolved_at <- extractDate (prop "Resolved At") ;;
  type <- extractSelect (prop "Type") ;;
  priority <- extractSelect (prop "Priority") ;;
  blocked_by <- extractRelationIds (prop "Dependency") ;;
  blocks <- extractRelationIds (prop "Blocks ") ;;
  created_at <- get page "created_time" ;;
  updated_at <- get page "last_edited_time" ;;
  assigned <- isAssignedToAISquad (prop "Assignee") ;;
  Normal {|
    Ticket.id := id;
    Ticket.title := coalesce title (Str "(untitled)");
    Ticket.status := coalesce status (Str "Open");
    Ticket.summary := summary;
    Ticket.spec_url := spec_url;
    Ticket.due := due;
    Ticket.branch := branch;
    Ticket.commit := commit;
    Ticket.feature := feature;
    Ticket.resolved_at := resolved_at;
    Ticket.area := coalesce (first areas) Null;
    Ticket.application := coalesce (first apps) Null;
    Ticket.type := type;
    Ticket.priority := coalesce priority Null;
    Ticket.blocked_by := blocked_by;
    Ticket.blocks := blocks;
    Ticket.created_at := created_at;
    Ticket.updated_at := updated_at;
    Ticket.assigned_to_ai_squad := assigned
  |}.

(** The body of the [do ... while (cursor)] loop of
    [fetchAllShipyardPages], once per unit of [fuel].  Every turn takes a
    response off the script, so the fuel given below is never used up. *)
Fixpoint fetchPagesLoop (fuel : nat) (dsId cursor : value) (pages : list value)
  : M (list value) :=
  match fuel with
  | 0 => throw TypeError
  | S fuel' =>
      let body :=
        Obj (("page_size", Num "100")
             :: if truthy cursor then [("start_cursor", cursor)] else []) in
      path <~ lift (ds <- toString dsId ;; Normal ("/data_sources/" ++ ds ++ "/query")) ;;
      data <~ notionFetch path "POST" body ;;
      obj <~ lift (get data "object") ;;
      if is_str obj "error" then
        msg <~ lift (m <- get data "message" ;; toString m) ;;
        throw (Error ("Data source query error: " ++ msg))
      else
      results <~ lift (r <- get data "results" ;; iterate (coalesce r (Arr []))) ;;
      let pages' := (pages ++ results)%list in
      has_more <~ lift (get data "has_more") ;;
      next <~ (if truthy has_more then lift (get data "next_cursor") else ret Undefined) ;;
      if truthy next
      then (_ <~ sleep RATE_LIMIT_DELAY ;; fetchPagesLoop fuel' dsId next pages')
      else ret pages'
  end.

Definition fetchAllShipyardPages : M (list value) :=
  dsId <~ resolveDataSourceId ;;
  fun w => fetchPagesLoop (S (List.length (remote w))) dsId Undefined [] w.

(** The comparator both selections sort with. *)
Definition compareQueue (a_blocked_by : list value) (a_priority : value)
                        (b_blocked_by : list value) (b_priority : value)
  : completion Z :=
  let aBlocked := if (0 <? List.length a_blocked_by)%nat then 1%Z else 0%Z in
  let bBlocked := if (0 <? List.length b_blocked_by)%nat then 1%Z else 0%Z in
  if negb (aBlocked =? bBlocked)%Z then Normal (aBlocked - bBlocked)%Z else
  let pa := coalesce a_priority (Str "P4") in
  let pb := coalesce b_priority (Str "P4") in
  match pa with
  | Str sa => sb <- toString pb ;; Normal (localeCompare sa sb)
  | _ => Throw TypeError
  end.

Definition compareTickets (a b : Ticket.t) : completion Z :=
  compareQueue (Ticket.blocked_by a) (Ticket.priority a)
               (Ticket.blocked_by b) (Ticket.priority b).

Definition compareItems (a b : QueueItem.t) : completion Z :=
  compareQueue (QueueItem.blocked_by a) (QueueItem.priority a)
               (QueueItem.blocked_by b) (QueueItem.priority b).

(** [v === TARGET_APP] *)
Definition isReady (ticket : Ticket.t) : bool :=
  is_str (Ticket.status ticket) "Open"
  && is_str (Ticket.application ticket) TARGET_APP
  && Ticket.assigned_to_ai_squad ticket.

(** The [for (const page of pages)] loop of [fetchReadyTickets]. *)
Fixpoint collectReady (pages : list value) (tickets : list Ticket.t)
  : completion (list Ticket.t) :=
  match pages with
  | [] => Normal tickets
  | page :: rest =>
      ticket <- extractTicket page ;;
      collectReady rest (if isReady ticket then (tickets ++ [ticket])%list else tickets)
  end.

Definition fetchReadyTickets : M (list Ticket.t) :=
  pages <~ fetchAllShipyardPages ;;
  tickets <~ lift (collectReady pages []) ;;
  (* Sort: unblocked first, then by priority (P0 -> P4) *)
  lift (sort compareTickets tickets).

Definition excluded : list string := ["Done"; "Blocked by human"; "On hold"].

Definition isActive (ticket : Ticket.t) : bool :=
  is_str (Ticket.application ticket) TARGET_APP
  && Ticket.assigned_to_ai_squad ticket
  && negb (includes_value excluded (Ticket.status ticket)).

Definition toQueueItem (ticket : Ticket.t) : QueueItem.t :=
  {| QueueItem.ticket_id := Ticket.id ticket;
     QueueItem.title := Ticket.title ticket;
     QueueItem.area := Ticket.area ticket;
     QueueItem.status := Ticket.status ticket;
     QueueItem.priority := Ticket.priority ticket;
     QueueItem.blocked_by := Ticket.blocked_by ticket;
     QueueItem.blocks := Ticket.blocks ticket;
     QueueItem.branch := Ticket.branch ticket |}.

(** The [for (const page of pages)] loop of [syncState]. *)
Fixpoint collectQueue (pages : list value) (queue : list QueueItem.t)
  : completion (list QueueItem.t) :=
  match pages with
  | [] => Normal queue
  | page :: rest =>
      ticket <- extractTicket page ;;
      collectQueue rest
        (if isActive ticket then (queue ++ [toQueueItem ticket])%list else queue)
  end.

(** [JSON.parse(fs.readFileSync(STATE_FILE, "utf-8"))] *)
Definition parseFile (f : File) : completion value :=
  match f with
  | Unparsable _ => Throw SyntaxError
  | Json v => Normal v
  end.

(** Load existing history or start fresh: the [try] block's value, and
    the empty array when the file is missing or the block throws. *)
Definition loadHistory (file : option File) : value :=
  match file with
  | None => Arr []
  | Some f =>
      match (prev <- parseFile f ;; h <- get prev "history" ;; Normal (coalesce h (Arr []))) with
      | Normal history => history
      | Throw _ => Arr []    (* Corrupted state: start fresh *)
      end
  end.

(** [new Date().toISOString()].  No function of the bridge reads the
    clock twice; a caller that makes several readings gives each its
    own. *)
Definition currentTime : M string := fun w => (Normal (now w), w).

Definition readStateFile : M (option File) := fun w => (Normal (stateFile w), w).

Definition syncState : M HumanizeState.t :=
  pages <~ fetchAllShipyardPages ;;
  collected <~ lift (collectQueue pages []) ;;
  (* Sort queue: unblocked first, then by priority (P0 -> P4) *)
  queue <~ lift (sort compareItems collected) ;;
  file <~ readStateFile ;;
  let history := loadHistory file in
  stamp <~ currentTime ;;
  let state := {| HumanizeState.last_synced := stamp;
                  HumanizeState.queue := queue;
                  HumanizeState.history := history |} in
  _ <~ writeStateFile (Json (state_json state)) ;;
  ret state.

(** The loop of [createTicket] that cuts the body:
    [for (let i = 0; i < body.length; i += 2000) chunks.push(body.substring(i, i + 2000))],
    from index [i] on. *)
Equations? chunksFrom (body : string) (i : nat) : list string
  by wf (String.length body - i) lt :=
chunksFrom body i with lt_dec i (String.length body) := {
  | left _ => String.substring i 2000 body :: chunksFrom body (i + 2000)
  | right _ => [] }.
Proof. lia. Qed.

Definition paragraph (chunk : string) : value :=
  Obj [("object", Str "block");
       ("type", Str "paragraph");
       ("paragraph",
        Obj [("rich_text",
              Arr [Obj [("type", Str "text");
                        ("text", Obj [("content", Str chunk)])]])])].

(** [payload.children], when the [if (body)] branch is taken. *)
Definition children (body : option string) : list (string * value) :=
  match body with
  | None => []
  | Some b =>
      if String.eqb b "" then []
      else [("children", Arr (map paragraph (chunksFrom b 0)))]
  end.

Definition people (userId : string) : value :=
  Obj [("people", Arr [Obj [("id", Str userId)]])].

(** Assign to the specified user, or default to AI Squad if configured.
    The user is whatever [TEAM_USERS[assignee]] gives that is truthy. *)
Definition assigneeProperty (team : list (string * string)) (assignee : option string)
  : list (string * value) :=
  let toSquad :=
    if String.eqb AI_SQUAD_ID "" then [] else [("Assignee", people AI_SQUAD_ID)] in
  match assignee with
  | None => toSquad
  | Some name =>
      if String.eqb name "" then toSquad else
      match personOf team name with
      | Some person => [("Assignee", Obj [("people", Arr [person])])]
      | None => toSquad
      end
  end.

Definition or_default (given : option string) (default : string) : string :=
  match given with Some s => s | None => default end.

Definition createTicket (title area : string) (body priority assignee type : option string)
  : M Ticket.t :=
  dsId <~ resolveDataSourceId ;;
  let properties :=
    ([("Ticket",
       Obj [("title", Arr [Obj [("text", Obj [("content", Str (String.substring 0 200 title))])]])]);
      ("Status", Obj [("status", Obj [("name", Str "Open")])]);
      ("Application", Obj [("multi_select", Arr [Obj [("name", Str TARGET_APP)]])]);
      ("Area", Obj [("multi_select", Arr [Obj [("name", Str area)]])]);
      ("Type", Obj [("select", Obj [("name", Str (or_default type "Task"))])]);
      ("Priority", Obj [("select", Obj [("name", Str (or_default priority "P0"))])])]
     ++ assigneeProperty TEAM_USERS assignee)%list in
  let payload :=
    Obj ([("parent", Obj [("type", Str "data_source_id"); ("data_source_id", dsId)]);
          ("properties", Obj properties)]
         ++ children body)%list in
  data <~ notionFetch "/pages" "POST" payload ;;
  id <~ lift (get data "id") ;;
  if negb (truthy id)
  then throw (Error ("Ticket creation failed: " ++ JSON_stringify data))
  else
    _ <~ sleep RATE_LIMIT_DELAY ;;
    lift (extractTicket data).

(** Update a ticket's status in Notion.  When status is "Done", also sets
    "Resolved At" to current timestamp. *)
Definition updateTicketStatus (pageId status : string) : M unit :=
  (* Set Resolved At when marking as Done or Review AI Fix *)
  resolved <~ (if String.eqb status "Done" || String.eqb status "Review AI Fix"
               then (stamp <~ currentTime ;;
                     ret [("Resolved At", Obj [("date", Obj [("start", Str stamp)])])])
               else ret []) ;;
  let properties :=
    ("Status", Obj [("status", Obj [("name", Str status)])]) :: resolved in
  data <~ notionFetch ("/pages/" ++ pageId) "PATCH" (Obj [("properties", Obj properties)]) ;;
  obj <~ lift (get data "object") ;;
  if is_str obj "error" then
    msg <~ lift (m <- get data "message" ;; toString m) ;;
    throw (Error ("Status update failed: " ++ msg))
  else sleep RATE_LIMIT_DELAY.

End Bridge.

(* ===================================================================== *)
(** ** scripts/notion-bridge.ts: the other writes *)

(** [if (data.object === "error") throw new Error(`<what>: ${data.message}`)],
    the check every one of these functions makes on the response. *)
Definition rejectError (what : string) (data : value) : M unit :=
  obj <~ lift (get data "object") ;;
  if is_str obj "error" then
    msg <~ lift (m <- get data "message" ;; toString m) ;;
    throw (Error (what ++ ": " ++ msg))
  else ret tt.

(** [{ rich_text: [{ text: { content } }] }], [{ select: { name } }] and
    [{ relation: ids.map((id) => ({ id })) }], as they are written. *)
Definition richTextOf (content : string) : value :=
  Obj [("rich_text", Arr [Obj [("text", Obj [("content", Str content)])]])].

Definition selectOf (name : string) : value :=
  Obj [("select", Obj [("name", Str name)])].

Definition relationOf (ids : list string) : value :=
  Obj [("relation", Arr (map (fun id => Obj [("id", Str id)]) ids))].

(** Set the git branch name on a ticket. *)
Definition updateTicketBranch (pageId branch : string) : M unit :=
  data <~ notionFetch ("/pages/" ++ pageId) "PATCH"
            (Obj [("properties", Obj [("Branch", richTextOf branch)])]) ;;
  _ <~ rejectError "Branch update failed" data ;;
  sleep RATE_LIMIT_DELAY.

(** Update dependency and blocks relations on a ticket.  An argument left
    out is [None]. *)
Definition updateTicketDependencies (pageId : string)
                                    (blockedBy blocks : option (list string))
  : M unit :=
  let properties :=
    ((match blockedBy with
      | Some ids => [("Dependency", relationOf ids)]
      | None => []
      end)
     ++ (match blocks with
         | Some ids => [("Blocks ", relationOf ids)]
         | None => []
         end))%list in
  if (List.length properties =? 0)%nat then ret tt else
  data <~ notionFetch ("/pages/" ++ pageId) "PATCH" (Obj [("properties", Obj properties)]) ;;
  _ <~ rejectError "Dependency update failed" data ;;
  sleep RATE_LIMIT_DELAY.

Definition quote : string := String (Ascii.ascii_of_nat 34) EmptyString.

(** Assign a ticket to a team member by name. *)
Definition updateTicketAssignee (pageId assigneeName : string) : M unit :=
  match personOf TEAM_USERS assigneeName with
  | None =>
      throw (Error ("Unknown team member " ++ quote ++ assigneeName ++ quote
                    ++ ". Known: " ++ String.concat ", " (map fst TEAM_USERS)))
  | Some person =>
      data <~ notionFetch ("/pages/" ++ pageId) "PATCH"
                (Obj [("properties",
                       Obj [("Assignee", Obj [("people", Arr [person])])])]) ;;
      _ <~ rejectError "Assignee update failed" data ;;
      sleep RATE_LIMIT_DELAY
  end.

(** Update a ticket's type (Bug, Task, Story, Epic). *)
Definition updateTicketType (pageId type : string) : M unit :=
  data <~ notionFetch ("/pages/" ++ pageId) "PATCH"
            (Obj [("properties", Obj [("Type", selectOf type)])]) ;;
  _ <~ rejectError "Type update failed" data ;;
  sleep RATE_LIMIT_DELAY.

(** Update a ticket's commit hash. *)
Definition updateTicketCommit (pageId commit : string) : M unit :=
  data <~ notionFetch ("/pages/" ++ pageId) "PATCH"
            (Obj [("properties", Obj [("Commit", richTextOf commit)])]) ;;
  _ <~ rejectError "Commit update failed" data ;;
  sleep RATE_LIMIT_DELAY.

(** Update a ticket's feature category. *)
Definition updateTicketFeature (pageId feature : string) : M unit :=
  data <~ notionFetch ("/pages/" ++ pageId) "PATCH"
            (Obj [("properties", Obj [("Feature", selectOf feature)])]) ;;
  _ <~ rejectError "Feature update failed" data ;;
  sleep RATE_LIMIT_DELAY.

(** The [options] of [updateTicketCompletion]; a key left out is [None]. *)
Module Completion.
Record t : Type := make {
  status : option string;
  commit : option string;
  feature : option string
}.
End Completion.

(** [if (options.k)]: the key is there and its string is not empty. *)
Definition given (o : option string) : option string :=
  match o with
  | Some s => if String.eqb s "" then None else Some s
  | None => None
  end.

(** Update multiple ticket fields at once. *)
Definition updateTicketCompletion (pageId : string) (options : Completion.t) : M unit :=
  status <~ match given (Completion.status options) with
            | Some s =>
                (* Set Resolved At when marking as Done or Review AI Fix *)
                resolved <~ (if String.eqb s "Done" || String.eqb s "Review AI Fix"
                             then (stamp <~ currentTime ;;
                                   ret [("Resolved At",
                                         Obj [("date", Obj [("start", Str stamp)])])])
                             else ret []) ;;
                ret (("Status", Obj [("status", Obj [("name", Str s)])]) :: resolved)
            | None => ret []
            end ;;
  let commit := match given (Completion.commit options) with
                | Some c => [("Commit", richTextOf c)]
                | None => []
                end in
  let feature := match given (Completion.feature options) with
                 | Some f => [("Feature", selectOf f)]
                 | None => []
                 end in
  let properties := (status ++ commit ++ feature)%list in
  if (List.length properties =? 0)%nat then ret tt else
  data <~ notionFetch ("/pages/" ++ pageId) "PATCH" (Obj [("properties", Obj properties)]) ;;
  _ <~ rejectError "Ticket completion update failed" data ;;
  sleep RATE_LIMIT_DELAY.

(** Delete (archive) a ticket in Notion. *)
Definition deleteTicket (pageId : string) : M unit :=
  data <~ notionFetch ("/pages/" ++ pageId) "PATCH" (Obj [("archived", Bool true)]) ;;
  _ <~ rejectError "Delete failed" data ;;
  sleep RATE_LIMIT_DELAY.

(* ===================================================================== *)
(** ** scripts/notion-bridge.ts: the detail fetch *)

(** The line feed of ["\n"]. *)
Definition newline : string := String (Ascii.ascii_of_nat 10) EmptyString.

(** The bullet of [`• ${text}`]; it lies outside the characters strings
    are made of here and stands as its three bytes.  No property
    measures it. *)
Definition bullet : string := "•".

Definition decimal (n : nat) : string := NilEmpty.string_of_uint (Nat.to_uint n).

(** The white space and line terminators [trim] removes, among the
    characters strings are made of here: tab, line feed, vertical tab,
    form feed, carriage return, space and no-break space. *)
Definition is_space (c : ascii) : bool :=
  let n := nat_of_ascii c in
  (n =? 9)%nat || (n =? 10)%nat || (n =? 11)%nat || (n =? 12)%nat
  || (n =? 13)%nat || (n =? 32)%nat || (n =? 160)%nat.

Fixpoint trimStart (s : string) : string :=
  match s with
  | EmptyString => EmptyString
  | String c rest => if is_space c then trimStart rest else s
  end.

Fixpoint trimEnd (s : string) : string :=
  match s with
  | EmptyString => EmptyString
  | String c rest =>
      let kept := trimEnd rest in
      if is_space c && String.eqb kept "" then EmptyString else String c kept
  end.

(** [s.trim()] *)
Definition trim (s : string) : string := trimEnd (trimStart s).

(** [rich_text.map((t) => t.plain_text).join("")] *)
Definition plainTextOf (rich_text : value) : completion string :=
  parts <- map_method rich_text (fun t => get t "plain_text") ;;
  join parts "".

(** The block types [fetchTicketDetails] renders, in the order of its
    [else if] chain, each with the line it pushes for [text] when
    [textParts] already holds [count] lines. *)
Definition rendered : list (string * (nat -> string -> string)) :=
  [("paragraph", fun _ text => text);
   ("bulleted_list_item", fun _ text => bullet ++ " " ++ text);
   ("numbered_list_item", fun count text => decimal (count + 1) ++ ". " ++ text);
   ("heading_1", fun _ text => newline ++ "# " ++ text ++ newline);
   ("heading_2", fun _ text => newline ++ "## " ++ text ++ newline);
   ("heading_3", fun _ text => newline ++ "### " ++ text ++ newline)].

(** The chain from one arm on:
    [if (block.type === kind && block[kind]?.rich_text) { text = ...; if (text.trim()) textParts.push(...) } else ...]. *)
Fixpoint renderFrom (arms : list (string * (nat -> string -> string)))
                    (block : value) (textParts : list string)
  : completion (list string) :=
  match arms with
  | [] => Normal textParts
  | (kind, line) :: others =>
      type <- get block "type" ;;
      if is_str type kind then
        holder <- get block kind ;;
        rich_text <- opt_get holder "rich_text" ;;
        if truthy rich_text then
          text <- plainTextOf rich_text ;;
          Normal (if String.eqb (trim text) "" then textParts
                  else (textParts ++ [line (List.length textParts) text])%list)
        else renderFrom others block textParts
      else renderFrom others block textParts
  end.

(** The [for (const block of blocks)] loop. *)
Fixpoint collectText (blocks : list value) (textParts : list string)
  : completion (list string) :=
  match blocks with
  | [] => Normal textParts
  | block :: rest =>
      pushed <- renderFrom rendered block textParts ;;
      collectText rest pushed
  end.

Module Details.
Record t : Type := make {
  ticket : Ticket.t;
  description : string
}.
End Details.

Section DetailFetch.

Variable AI_SQUAD_ID : string.

(** Fetch full details of a single ticket, including page content. *)
Definition fetchTicketDetails (pageId : string) : M Details.t :=
  (* Fetch page properties *)
  pageData <~ notionFetch ("/pages/" ++ pageId) "GET" Undefined ;;
  _ <~ rejectError "Failed to fetch ticket" pageData ;;
  ticket <~ lift (extractTicket AI_SQUAD_ID pageData) ;;
  _ <~ sleep RATE_LIMIT_DELAY ;;
  (* Fetch page blocks (content) *)
  blocksData <~ notionFetch ("/blocks/" ++ pageId ++ "/children") "GET" Undefined ;;
  _ <~ rejectError "Failed to fetch ticket content" blocksData ;;
  (* Extract text from blocks *)
  blocks <~ lift (found <- get blocksData "results" ;; iterate (coalesce found (Arr []))) ;;
  textParts <~ lift (collectText blocks []) ;;
  ret {| Details.ticket := ticket;
         Details.description := trim (String.concat newline textParts) |}.

End DetailFetch.

(* ===================================================================== *)
(** ** The environment-configured copy of the bridge

    The second copy of notion-bridge.ts takes [TARGET_APP] and
    [TEAM_USERS] from the environment.  Its extraction helpers, its
    data-source resolution, its paginated fetch and its sort are the text
    of the first copy and are shared here; what differs is written out. *)

Module EnvConfigured.
Section Bridge.

(** [process.env.TARGET_APP ?? ""], the parsed [process.env.TEAM_USERS],
    and the rest of the configuration as above. *)
Variable TARGET_APP : string.
Variable TEAM_USERS : list (string * string).
Variable AI_SQUAD_ID : string.
Variable DB_ID : string.
Variable localeCompare : string -> string -> Z.
Variable JSON_stringify : value -> string.

(** This copy's ticket has no [commit], [feature] or [resolved_at];
    reading them gives [undefined]. *)
Definition extractTicket (page : value) : completion Ticket.t :=
  found <- get page "properties" ;;
  let props := coalesce found (Obj []) in
  (* [props[k]]; [props] is not null or undefined, the read cannot throw *)
  let prop k := match get props k with Normal v => v | Throw _ => Undefined end in
  apps <- extractMultiSelect (prop "Application") ;;
  areas <- extractMultiSelect (prop "Area") ;;
  id <- get page "id" ;;
  title <- extractPlainText (prop "Ticket") ;;
  status <- extractSelect (prop "Status") ;;
  summary <- extractPlainText (prop "Summary") ;;
  spec_url <- extractUrl (prop "Spec URL") ;;
  due <- extractDate (prop "Due") ;;
  branch <- extractPlainText (prop "Branch") ;;
  type <- extractSelect (prop "Type") ;;
  priority <- extractSelect (prop "Priority") ;;
  blocked_by <- extractRelationIds (prop "Dependency") ;;
  blocks <- extractRelationIds (prop "Blocks ") ;;
  created_at <- get page "created_time" ;;
  updated_at <- get page "last_edited_time" ;;
  assigned <- isAssignedToAISquad AI_SQUAD_ID (prop "Assignee") ;;
  Normal {|
    Ticket.id := id;
    Ticket.title := coalesce title (Str "(untitled)");
    Ticket.status := coalesce status (Str "Open");
    Ticket.summary := summary;
    Ticket.spec_url := spec_url;
    Ticket.due := due;
    Ticket.branch := branch;
    Ticket.commit := Undefined;
    Ticket.feature := Undefined;
    Ticket.resolved_at := Undefined;
    Ticket.area := coalesce (first areas) Null;
    Ticket.application := coalesce (first apps) Null;
    Ticket.type := type;
    Ticket.priority := coalesce priority Null;
    Ticket.blocked_by := blocked_by;
    Ticket.blocks := blocks;
    Ticket.created_at := created_at;
    Ticket.updated_at := updated_at;
    Ticket.assigned_to_ai_squad := assigned
  |}.

(** [!TARGET_APP || ticket.application === TARGET_APP] *)
Definition matchesApp (ticket : Ticket.t) : bool :=
  String.eqb TARGET_APP "" || is_str (Ticket.application ticket) TARGET_APP.

Definition isReady (ticket : Ticket.t) : bool :=
  is_str (Ticket.status ticket) "Open"
  && matchesApp ticket
  && Ticket.assigned_to_ai_squad ticket.

Fixpoint collectReady (pages : list value) (tickets : list Ticket.t)
  : completion (list Ticket.t) :=
  match pages with
  | [] => Normal tickets
  | page :: rest =>
      ticket <- extractTicket page ;;
      collectReady rest (if isReady ticket then (tickets ++ [ticket])%list else tickets)
  end.

Definition fetchReadyTickets : M (list Ticket.t) :=
  pages <~ fetchAllShipyardPages DB_ID ;;
  tickets <~ lift (collectReady pages []) ;;
  lift (sort (compareTickets localeCompare) tickets).

Definition isActive (ticket : Ticket.t) : bool :=
  matchesApp ticket
  && Ticket.assigned_to_ai_squad ticket
  && negb (includes_value excluded (Ticket.status ticket)).

Fixpoint collectQueue (pages : list value) (queue : list QueueItem.t)
  : completion (list QueueItem.t) :=
  match pages with
  | [] => Normal queue
  | page :: rest =>
      ticket <- extractTicket page ;;
      collectQueue rest
        (if isActive ticket then (queue ++ [toQueueItem ticket])%list else queue)
  end.

Definition syncState : M HumanizeState.t :=
  pages <~ fetchAllShipyardPages DB_ID ;;
  collected <~ lift (collectQueue pages []) ;;
  queue <~ lift (sort (compareItems localeCompare) collected) ;;
  file <~ readStateFile ;;
  let history := loadHistory file in
  stamp <~ currentTime ;;
  let state := {| HumanizeState.last_synced := stamp;
                  HumanizeState.queue := queue;
                  HumanizeState.history := history |} in
  _ <~ writeStateFile (Json (state_json state)) ;;
  ret state.

Definition createTicket (title area : string) (body priority assignee application : option string)
  : M Ticket.t :=
  dsId <~ resolveDataSourceId DB_ID ;;
  let appName := or_default application TARGET_APP in
  if String.eqb appName ""
  then throw (Error "TARGET_APP is not set and no application was provided")
  else
  let properties :=
    ([("Ticket",
       Obj [("title", Arr [Obj [("text", Obj [("content", Str (String.substring 0 200 title))])]])]);
      ("Status", Obj [("status", Obj [("name", Str "Open")])]);
      ("Application", Obj [("multi_select", Arr [Obj [("name", Str appName)]])]);
      ("Area", Obj [("multi_select", Arr [Obj [("name", Str area)]])]);
      ("Type", Obj [("select", Obj [("name", Str "Task")])]);
      ("Priority", Obj [("select", Obj [("name", Str (or_default priority "P0"))])])]
     ++ assigneeProperty AI_SQUAD_ID TEAM_USERS assignee)%list in
  let payload :=
    Obj ([("parent", Obj [("type", Str "data_source_id"); ("data_source_id", dsId)]);
          ("properties", Obj properties)]
         ++ children body)%list in
  data <~ notionFetch "/pages" "POST" payload ;;
  id <~ lift (get data "id") ;;
  if negb (truthy id)
  then throw (Error ("Ticket creation failed: " ++ JSON_stringify data))
  else
    _ <~ sleep RATE_LIMIT_DELAY ;;
    lift (extractTicket data).

(** Update a ticket's status in Notion. *)
Definition updateTicketStatus (pageId status : string) : M unit :=
  data <~ notionFetch ("/pages/" ++ pageId) "PATCH"
            (Obj [("properties",
                   Obj [("Status", Obj [("status", Obj [("name", Str status)])])])]) ;;
  obj <~ lift (get data "object") ;;
  if is_str obj "error" then
    msg <~ lift (m <- get data "message" ;; toString m) ;;
    throw (Error ("Status update failed: " ++ msg))
  else sleep RATE_LIMIT_DELAY.

End Bridge.
End EnvConfigured.

(* ===================================================================== *)
(** ** scripts/humanize.ts *)

(** [state.history = v] *)
Fixpoint set_field (fields : list (string * value)) (k : string) (v : value)
  : list (string * value) :=
  match fields with
  | [] => [(k, v)]
  | (k', x) :: rest =>
      if String.eqb k' k then (k', v) :: rest else (k', x) :: set_field rest k v
  end.

(** The body of the [try] block of [appendHistory], for a file that
    exists: the file to write, or the exception that ends the block.  The
    script is a module, hence strict: assigning a property to a primitive
    throws.  A property assigned to an array is not an element and does
    not reach the text written. *)
Definition appendToFile (f : File) (item : HistoryItem.t) : completion File :=
  state <- parseFile f ;;
  found <- get state "history" ;;
  let history := coalesce found (Arr []) in
  (* state.history = ... *)
  _ <- match state with
       | Obj _ | Arr _ => Normal tt
       | _ => Throw TypeError
       end ;;
  (* state.history.push(item) *)
  pushed <- match history with
            | Arr items => Normal (Arr (items ++ [historyItem_json item])%list)
            | _ => Throw TypeError
            end ;;
  Normal (Json match state with
               | Obj fields => Obj (set_field fields "history" pushed)
               | other => other
               end).

Definition appendHistory (item : HistoryItem.t) : M unit :=
  file <~ readStateFile ;;
  match file with
  | Some f =>
      match appendToFile f item with
      | Normal written => writeStateFile written
      | Throw _ => ret tt   (* Non-critical: history will catch up on next sync *)
      end
  | None => ret tt
  end.

(** [appendHistory] for an entry whose fields are whatever the caller
    holds: [cmdCreate] records the id the remote returned.  The entry
    reaches the file as [jsonOf] says. *)
Definition pushEntry (f : File) (entry : value) : completion File :=
  state <- parseFile f ;;
  found <- get state "history" ;;
  let history := coalesce found (Arr []) in
  (* state.history = ... *)
  _ <- match state with
       | Obj _ | Arr _ => Normal tt
       | _ => Throw TypeError
       end ;;
  (* state.history.push(item) *)
  pushed <- match history with
            | Arr items => Normal (Arr (items ++ [jsonOf entry])%list)
            | _ => Throw TypeError
            end ;;
  Normal (Json match state with
               | Obj fields => Obj (set_field fields "history" pushed)
               | other => other
               end).

Definition appendEntry (entry : value) : M unit :=
  file <~ readStateFile ;;
  match file with
  | Some f =>
      match pushEntry f entry with
      | Normal written => writeStateFile written
      | Throw _ => ret tt   (* Non-critical: history will catch up on next sync *)
      end
  | None => ret tt
  end.

Definition VALID_AREAS : list string :=
  ["Frontend"; "Backend"; "Growth"; "Delivery"; "Docs"].

Definition VALID_PRIORITIES : list string := ["P0"; "P1"; "P2"; "P3"; "P4"].

Definition VALID_TYPES : list string := ["Bug"; "Task"; "Story"; "Epic"].

(** [getArg(flag)], on [process.argv]: [indexOf] finds the first
    occurrence, and the element after it is [undefined] past the end. *)
Fixpoint getArg (argv : list string) (flag : string) : option string :=
  match argv with
  | [] => None
  | arg :: rest => if String.eqb arg flag then List.head rest else getArg rest flag
  end.

(** [process.argv.includes(flag)] *)
Definition hasFlag (argv : list string) (flag : string) : bool :=
  existsb (String.eqb flag) argv.

(** [id.replace(/-/g, "")] *)
Fixpoint withoutDashes (id : string) : string :=
  match id with
  | EmptyString => EmptyString
  | String c rest =>
      if Ascii.eqb c "-" then withoutDashes rest else String c (withoutDashes rest)
  end.

Definition shortId (id : string) : string :=
  String.substring 0 8 (withoutDashes id).

(** [shortId] handed something that may not be a string: nothing else
    has a [replace] method. *)
Definition shortIdOf (id : value) : completion string :=
  match id with
  | Str s => Normal (shortId s)
  | _ => Throw TypeError
  end.

(** What the process has done besides talking to the remote and writing
    the snapshot: the lines on the console, [console.log], [console.warn]
    and [console.error] apart, and the commands handed to [execSync].  A
    line that reports an exception caught, [console.error(label, err)]
    with the error or its message, is kept as the label and the
    exception. *)
Inductive Line : Type :=
| Out (text : string)
| Warn (text : string)
| Err (text : string)
| Failure (label : string) (e : exn).

Record Process : Type := mkProcess {
  world : World;
  console : list Line;
  executed : list string
}.

(** A command returns, or ends the process with [process.exit(code)], or
    rejects. *)
Inductive Ending (A : Type) : Type :=
| Returned (a : A)
| Exited (code : nat)
| Rejected (e : exn).
Arguments Returned {A} a.
Arguments Exited {A} code.
Arguments Rejected {A} e.

Definition Cli (A : Type) : Type := Process -> Ending A * Process.

Definition retC {A} (a : A) : Cli A := fun p => (Returned a, p).

Definition bindC {A B} (m : Cli A) (k : A -> Cli B) : Cli B :=
  fun p =>
    match m p with
    | (Returned a, p') => k a p'
    | (Exited code, p') => (Exited code, p')
    | (Rejected e, p') => (Rejected e, p')
    end.

Notation "x <== m ;; k" := (bindC m (fun x => k))
  (at level 100, m at next level, right associativity) : js_scope.

(** [await m] *)
Definition await {A} (m : M A) : Cli A :=
  fun p =>
    match m (world p) with
    | (Normal a, w) => (Returned a, mkProcess w (console p) (executed p))
    | (Throw e, w) => (Rejected e, mkProcess w (console p) (executed p))
    end.

(** An expression that may throw. *)
Definition liftC {A} (c : completion A) : Cli A :=
  fun p => match c with
           | Normal a => (Returned a, p)
           | Throw e => (Rejected e, p)
           end.

Definition print (line : Line) : Cli unit :=
  fun p => (Returned tt, mkProcess (world p) (console p ++ [line]) (executed p)).

Definition log (text : string) : Cli unit := print (Out text).

Definition logError (text : string) : Cli unit := print (Err text).

(** [process.exit(code)] *)
Definition exit {A} (code : nat) : Cli A := fun p => (Exited code, p).

(** [for (const x of l) body(x)] *)
Fixpoint forEach {A} (l : list A) (body : A -> Cli unit) : Cli unit :=
  match l with
  | [] => retC tt
  | x :: rest => _ <== body x ;; forEach rest body
  end.

(** [ids.map(shortId).join(", ")] *)
Definition shortIds (ids : list value) : completion string :=
  shorts <- traverse shortIdOf ids ;;
  Normal (String.concat ", " shorts).

(** [v ? `<before>${v}<after>` : ""] *)
Definition labelled (before : string) (v : value) (after : string) : completion string :=
  if truthy v then (s <- toString v ;; Normal (before ++ s ++ after)) else Normal "".

Section Cli.

Variable AI_SQUAD_ID DB_ID : string.
Variable localeCompare : string -> string -> Z.
Variable JSON_stringify : value -> string.

(** [process.argv] *)
Variable argv : list string.

(** What [execSync(command, { stdio: "pipe" })] does: it returns, or
    throws an error with a message. *)
Variable git : string -> option string.

(** The clock moves on between two readings.  [now] is what the next
    [new Date()] gives.  A command reads the clock up to three times in a
    run, the bridge functions it calls at most once each; the readings
    after the first are [clock 0], [clock 1], in the order they are
    taken. *)
Variable clock : nat -> string.

Definition execSync (command : string) : Cli (option string) :=
  fun p => (Returned (git command),
            mkProcess (world p) (console p) (executed p ++ [command])).

(** The clock has been read: the next reading is [time]. *)
Definition advance (time : string) : Cli unit :=
  fun p => (Returned tt,
            mkProcess (mkWorld (remote (world p)) (dataSourceId (world p))
                         (stateFile (world p)) time (trace (world p)))
              (console p) (executed p)).

Definition statusOrder : list string :=
  ["In Progress"; "In Review"; "Open"; "On hold"; "Blocked by human"].

(** The line [cmdSync] prints for an item of the queue. *)
Definition queueLine (item : QueueItem.t) : completion string :=
  let pri := coalesce (QueueItem.priority item) (Str "P4") in
  area <- labelled " [" (QueueItem.area item) "]" ;;
  br <- labelled " -> " (QueueItem.branch item) "" ;;
  blocked <- (if (0 <? List.length (QueueItem.blocked_by item))%nat
              then (ids <- shortIds (QueueItem.blocked_by item) ;;
                    Normal (" (blocked by " ++ ids ++ ")"))
              else Normal "") ;;
  blocking <- (if (0 <? List.length (QueueItem.blocks item))%nat
               then (ids <- shortIds (QueueItem.blocks item) ;;
                     Normal (" (blocks " ++ ids ++ ")"))
               else Normal "") ;;
  p <- toString pri ;;
  id <- shortIdOf (QueueItem.ticket_id item) ;;
  title <- toString (QueueItem.title item) ;;
  Normal ("    " ++ p ++ " " ++ id ++ "  " ++ title ++ area ++ br ++ blocked ++ blocking).

(** [grouped.get(status)]: the items filed under a status of
    [statusOrder], in the order of the queue. *)
Definition grouped (queue : list QueueItem.t) (status : string) : list QueueItem.t :=
  filter (fun item => is_str (QueueItem.status item) status) queue.

Definition cmdSync : Cli unit :=
  _ <== log ("~ Syncing Shipyard state..." ++ newline) ;;
  state <== await (syncState AI_SQUAD_ID DB_ID localeCompare) ;;
  let queue := HumanizeState.queue state in
  if (List.length queue =? 0)%nat
  then log "  Queue is empty — no active tickets for this app."
  else
    _ <== log ("  " ++ decimal (List.length queue) ++ " active ticket(s):" ++ newline) ;;
    (* Group by status *)
    _ <== forEach statusOrder
            (fun status =>
               let items := grouped queue status in
               if (List.length items =? 0)%nat then retC tt else
               _ <== log ("  > " ++ status ++ " (" ++ decimal (List.length items) ++ ")") ;;
               _ <== forEach items
                       (fun item => line <== liftC (queueLine item) ;; log line) ;;
               log "") ;;
    log ("  Last synced: " ++ HumanizeState.last_synced state).

Definition cmdPoll : Cli unit :=
  _ <== log ("~ Polling for Open tickets..." ++ newline) ;;
  tickets <== await (fetchReadyTickets AI_SQUAD_ID DB_ID localeCompare) ;;
  if (List.length tickets =? 0)%nat
  then log "  No tickets ready for dev."
  else
    _ <== log ("  " ++ decimal (List.length tickets) ++ " ticket(s) ready:" ++ newline) ;;
    forEach tickets
      (fun t =>
         line <== liftC (area <- labelled " [" (Ticket.area t) "]" ;;
                         due <- labelled " (due " (Ticket.due t) ")" ;;
                         type <- labelled " " (Ticket.type t) "" ;;
                         id <- shortIdOf (Ticket.id t) ;;
                         title <- toString (Ticket.title t) ;;
                         Normal ("  " ++ id ++ type ++ "  " ++ title ++ area ++ due)) ;;
         _ <== log line ;;
         _ <== (if truthy (Ticket.summary t)
                then (summary <== liftC (toString (Ticket.summary t)) ;;
                      log ("         " ++ summary))
                else retC tt) ;;
         full <== liftC (toString (Ticket.id t)) ;;
         _ <== log ("         ID: " ++ full) ;;
         log "").

(** [!arg]: the argument is missing or empty. *)
Definition missing (arg : option string) : bool :=
  match arg with
  | None => true
  | Some s => String.eqb s ""
  end.

(** [strings.includes(arg)] *)
Definition includes (strings : list string) (arg : option string) : bool :=
  match arg with
  | None => false
  | Some s => existsb (String.eqb s) strings
  end.

Definition cmdCreate : Cli unit :=
  let title := getArg argv "--create" in
  let areaName := getArg argv "--area" in
  let body := getArg argv "--body" in
  let priorityArg := getArg argv "--priority" in
  let assignee := getArg argv "--assignee" in
  let typeArg := getArg argv "--type" in
  if missing title then
    _ <== logError ("x --create requires a title: --create " ++ quote
                    ++ "My ticket title" ++ quote) ;;
    exit 1
  else
  if missing areaName || negb (includes VALID_AREAS areaName) then
    _ <== logError ("x --area is required. Valid: " ++ String.concat ", " VALID_AREAS) ;;
    exit 1
  else
  if negb (missing priorityArg) && negb (includes VALID_PRIORITIES priorityArg) then
    _ <== logError ("x Invalid priority. Valid: " ++ String.concat ", " VALID_PRIORITIES) ;;
    exit 1
  else
  if negb (missing typeArg) && negb (includes VALID_TYPES typeArg) then
    _ <== logError ("x Invalid type. Valid: " ++ String.concat ", " VALID_TYPES) ;;
    exit 1
  else
  let title := or_default title "" in
  let areaName := or_default areaName "" in
  let priority := or_default priorityArg "P0" in
  (* Default to Story for new features, can be overridden with --type *)
  let ticketType := or_default typeArg "Story" in
  let assigneeLabel := if missing assignee then "" else " -> " ++ or_default assignee "" in
  _ <== log ("> Creating ticket: " ++ quote ++ title ++ quote ++ " [" ++ areaName ++ "] "
             ++ priority ++ " " ++ ticketType ++ assigneeLabel) ;;
  ticket <== await (createTicket AI_SQUAD_ID DB_ID JSON_stringify
                      title areaName body (Some priority) assignee (Some ticketType)) ;;
  stamp <== await currentTime ;;
  _ <== await (appendEntry (Obj [("ticket_id", Ticket.id ticket);
                                 ("title", Ticket.title ticket);
                                 ("action", Str "created");
                                 ("timestamp", Str stamp)])) ;;
  short <== liftC (shortIdOf (Ticket.id ticket)) ;;
  _ <== log ("+ Created: " ++ short) ;;
  id <== liftC (toString (Ticket.id ticket)) ;;
  _ <== log ("  ID: " ++ id) ;;
  status <== liftC (toString (Ticket.status ticket)) ;;
  log ("  Status: " ++ status).

Definition cmdStart : Cli unit :=
  let ticketId := getArg argv "--start" in
  if missing ticketId then
    _ <== logError "x --start requires a ticket ID" ;;
    exit 1
  else
  let ticketId := or_default ticketId "" in
  _ <== log ("> Starting ticket " ++ shortId ticketId ++ "...") ;;
  (* 1. Mark In Progress in Notion *)
  _ <== await (updateTicketStatus ticketId "In Progress") ;;
  _ <== log "  + Status -> In Progress" ;;
  (* 2. Create feature branch *)
  let branchName := "feature/shipyard-" ++ shortId ticketId in
  created <== execSync ("git checkout -b " ++ branchName) ;;
  _ <== match created with
        | None => log ("  + Branch created: " ++ branchName)
        | Some _ =>
            (* Branch might already exist: try switching to it *)
            switched <== execSync ("git checkout " ++ branchName) ;;
            match switched with
            | None => log ("  + Switched to existing branch: " ++ branchName)
            | Some message =>
                logError ("  ! Could not create/switch branch: " ++ message)
            end
        end ;;
  (* 3. Update branch name in Notion *)
  _ <== await (updateTicketBranch ticketId branchName) ;;
  _ <== log "  + Branch synced to Notion" ;;
  (* the first reading of the run *)
  stamp <== await currentTime ;;
  _ <== await (appendHistory {| HistoryItem.ticket_id := ticketId;
                                HistoryItem.title := "(started)";
                                HistoryItem.action := "started";
                                HistoryItem.timestamp := stamp |}) ;;
  _ <== advance (clock 0) ;;
  (* 4. Re-sync state *)
  _ <== await (syncState AI_SQUAD_ID DB_ID localeCompare) ;;
  log (newline ++ "+ Ticket started. You're on branch: " ++ branchName).

Definition cmdDone : Cli unit :=
  let ticketId := getArg argv "--done" in
  if missing ticketId then
    _ <== logError "x --done requires a ticket ID" ;;
    exit 1
  else
  let ticketId := or_default ticketId "" in
  _ <== log ("> Completing ticket " ++ shortId ticketId ++ "...") ;;
  (* the first reading of the run is the "Resolved At" date *)
  _ <== await (updateTicketStatus ticketId "Done") ;;
  _ <== advance (clock 0) ;;
  _ <== log "  + Status -> Done" ;;
  stamp <== await currentTime ;;
  _ <== await (appendHistory {| HistoryItem.ticket_id := ticketId;
                                HistoryItem.title := "(done)";
                                HistoryItem.action := "done";
                                HistoryItem.timestamp := stamp |}) ;;
  _ <== advance (clock 1) ;;
  state <== await (syncState AI_SQUAD_ID DB_ID localeCompare) ;;
  log (newline ++ "+ Ticket done. " ++ decimal (List.length (HumanizeState.queue state))
       ++ " ticket(s) remaining.").

(** [if (v) console.log(`<label>${v}`)] *)
Definition logIfSet (label : string) (v : value) : Cli unit :=
  if truthy v then (s <== liftC (toString v) ;; log (label ++ s)) else retC tt.

Definition cmdGet : Cli unit :=
  let ticketId := getArg argv "--get" in
  if missing ticketId then
    _ <== logError "x --get requires a ticket ID" ;;
    exit 1
  else
  let ticketId := or_default ticketId "" in
  _ <== log ("> Fetching ticket " ++ shortId ticketId ++ "..." ++ newline) ;;
  details <== await (fetchTicketDetails AI_SQUAD_ID ticketId) ;;
  let ticket := Details.ticket details in
  let description := Details.description details in
  title <== liftC (toString (Ticket.title ticket)) ;;
  _ <== log ("Title: " ++ title) ;;
  status <== liftC (toString (Ticket.status ticket)) ;;
  _ <== log ("Status: " ++ status) ;;
  _ <== logIfSet "Area: " (Ticket.area ticket) ;;
  _ <== logIfSet "Type: " (Ticket.type ticket) ;;
  _ <== logIfSet "Priority: " (Ticket.priority ticket) ;;
  _ <== logIfSet "Spec URL: " (Ticket.spec_url ticket) ;;
  _ <== logIfSet "Due: " (Ticket.due ticket) ;;
  _ <== logIfSet "Branch: " (Ticket.branch ticket) ;;
  _ <== (if (0 <? List.length (Ticket.blocked_by ticket))%nat
         then (ids <== liftC (shortIds (Ticket.blocked_by ticket)) ;;
               log ("Blocked by: " ++ ids))
         else retC tt) ;;
  _ <== (if (0 <? List.length (Ticket.blocks ticket))%nat
         then (ids <== liftC (shortIds (Ticket.blocks ticket)) ;;
               log ("Blocks: " ++ ids))
         else retC tt) ;;
  _ <== log (newline ++ "Description:" ++ newline
             ++ (if String.eqb description "" then "(no description)" else description)) ;;
  created <== liftC (toString (Ticket.created_at ticket)) ;;
  _ <== log (newline ++ "Created: " ++ created) ;;
  updated <== liftC (toString (Ticket.updated_at ticket)) ;;
  log ("Updated: " ++ updated).

Definition main : Cli unit :=
  if hasFlag argv "--poll" then cmdPoll
  else if hasFlag argv "--create" then cmdCreate
  else if hasFlag argv "--start" then cmdStart
  else if hasFlag argv "--done" then cmdDone
  else if hasFlag argv "--get" then cmdGet
  else cmdSync.

(** [main().catch(...)], and the exit code of the process. *)
Definition settle (ending : Ending unit * Process) : nat * Process :=
  match ending with
  | (Returned _, p') => (0, p')
  | (Exited code, p') => (code, p')
  | (Rejected e, p') =>
      (* console.error("Humanize error:", err.message ?? err); process.exit(1) *)
      (1, mkProcess (world p') (console p' ++ [Failure "Humanize error:" e]) (executed p'))
  end.

(** The script.  It imports the bridge, whose module body starts the
    self-test when [--test] is among the arguments; the self-test and
    [main] then run interleaved, their requests in an order that depends
    on when the answers arrive.  No outcome is given for such a run. *)
Definition humanize (p : Process) : option (nat * Process) :=
  if hasFlag argv "--test" then None else Some (settle (main p)).

End Cli.

(* ===================================================================== *)
(** ** scripts/notion-bridge.ts: the self-test *)

Definition warn (text : string) : Cli unit := print (Warn text).

(** [try { body } catch (err) { handler(err) }]: an exception is caught,
    the end of the process is not. *)
Definition tryCatch {A} (body : Cli A) (handler : exn -> Cli A) : Cli A :=
  fun p =>
    match body p with
    | (Rejected e, p') => handler e p'
    | other => other
    end.

(** The keys of a [Map] are compared as [SameValueZero] does.  Two
    objects parsed apart are never the same object. *)
Definition sameValueZero (a b : value) : bool :=
  match a, b with
  | Undefined, Undefined => true
  | Null, Null => true
  | Bool x, Bool y => Bool.eqb x y
  | Num x, Num y => String.eqb x y
  | Str x, Str y => String.eqb x y
  | _, _ => false
  end.

(** [appCounts.set(app, (appCounts.get(app) ?? 0) + 1)]; the entries of a
    [Map] keep the order in which their keys came in. *)
Fixpoint bump (appCounts : list (value * nat)) (app : value) : list (value * nat) :=
  match appCounts with
  | [] => [(app, 1)]
  | (key, count) :: rest =>
      if sameValueZero key app then (key, count + 1) :: rest
      else (key, count) :: bump rest app
  end.

Section SelfTest.

Variable API_KEY DB_ID AI_SQUAD_ID : string.
Variable JSON_stringify : value -> string.
Variable argv : list string.

(** The [for (const page of pages)] loop that counts by application. *)
Fixpoint countByApplication (pages : list value) (appCounts : list (value * nat))
  : completion (list (value * nat)) :=
  match pages with
  | [] => Normal appCounts
  | page :: rest =>
      t <- extractTicket AI_SQUAD_ID page ;;
      let app := coalesce (Ticket.application t) (Str "(none)") in
      countByApplication rest (bump appCounts app)
  end.

(** [test.id.substring(0, 8)] *)
Definition idPrefix (id : value) : completion string :=
  match id with
  | Str s => Normal (String.substring 0 8 s)
  | _ => Throw TypeError
  end.

(** The [try ... catch] statement that tests the write. *)
Definition probeWrite : Cli unit :=
  tryCatch
    (test <== await (createTicket AI_SQUAD_ID DB_ID JSON_stringify
                       "_selftest_probe_" "Backend" None (Some "P4") None None) ;;
     created <== liftC (idPrefix (Ticket.id test)) ;;
     _ <== log ("+ Write OK — created " ++ created) ;;
     (* Clean up: archive the test page *)
     id <== liftC (toString (Ticket.id test)) ;;
     _ <== await (notionFetch ("/pages/" ++ id) "PATCH" (Obj [("archived", Bool true)])) ;;
     log "+ Cleanup OK — archived test page")
    (fun err => print (Failure "x Write FAILED:" err)).

Definition selfTest : Cli unit :=
  _ <== log ("Humanize Bridge — Self-test" ++ newline) ;;
  if String.eqb API_KEY "" then
    _ <== logError "x NOTION_SHIPYARD_API_KEY is not set" ;;
    exit 1
  else
  _ <== log "+ API key loaded" ;;
  if String.eqb DB_ID "" then
    _ <== logError "x NOTION_SHIPYARD_DB_ID is not set" ;;
    exit 1
  else
  _ <== log ("+ Database ID: " ++ DB_ID) ;;
  _ <== (if String.eqb AI_SQUAD_ID "" then
           _ <== warn "! NOTION_AI_SQUAD_USER_ID is not set" ;;
           _ <== warn "  Create an 'AI Squad' user in Notion and add their ID to .env" ;;
           warn ("  Without this, the CLI won't filter by assignee." ++ newline)
         else log ("+ AI Squad user: " ++ AI_SQUAD_ID)) ;;
  (* Resolve data source *)
  _ <== log (newline ++ "> Resolving data sources...") ;;
  dsId <== await (resolveDataSourceId DB_ID) ;;
  ds <== liftC (toString dsId) ;;
  _ <== log ("+ Tickets data source: " ++ ds) ;;
  (* Query pages from the data source *)
  _ <== log (newline ++ "> Querying Tickets data source...") ;;
  pages <== await (fetchAllShipyardPages DB_ID) ;;
  _ <== log ("+ Found " ++ decimal (List.length pages) ++ " page(s) in Tickets") ;;
  (* Show a sample ticket if available *)
  _ <== match pages with
        | [] => retC tt
        | page :: _ =>
            sample <== liftC (extractTicket AI_SQUAD_ID page) ;;
            title <== liftC (toString (Ticket.title sample)) ;;
            _ <== log (newline ++ "  Sample ticket: " ++ quote ++ title ++ quote) ;;
            status <== liftC (toString (Ticket.status sample)) ;;
            _ <== log ("  Status: " ++ status) ;;
            area <== liftC (toString (coalesce (Ticket.area sample) (Str "(none)"))) ;;
            _ <== log ("  Area: " ++ area) ;;
            application <== liftC (toString (coalesce (Ticket.application sample)
                                               (Str "(none)"))) ;;
            _ <== log ("  Application: " ++ application) ;;
            type <== liftC (toString (coalesce (Ticket.type sample) (Str "(none)"))) ;;
            log ("  Type: " ++ type)
        end ;;
  (* Count by application *)
  appCounts <== liftC (countByApplication pages []) ;;
  _ <== log (newline ++ "  Tickets by application:") ;;
  _ <== forEach appCounts
          (fun entry =>
             app <== liftC (toString (fst entry)) ;;
             log ("    " ++ app ++ ": " ++ decimal (snd entry))) ;;
  (* Test write capability *)
  _ <== log (newline ++ "> Testing write (create + delete)...") ;;
  _ <== probeWrite ;;
  log (newline ++ "+ Self-test passed").

(** Run self-test if invoked with --test:
    [selfTest().catch(...)], and the exit code of the process. *)
Definition bridge (p : Process) : nat * Process :=
  if hasFlag argv "--test" then
    match selfTest p with
    | (Returned _, p') => (0, p')
    | (Exited code, p') => (code, p')
    | (Rejected e, p') =>
        (* console.error("Self-test failed:", err); process.exit(1) *)
        (1, mkProcess (world p') (console p' ++ [Failure "Self-test failed:" e])
              (executed p'))
    end
  else (0, p).

End SelfTest.

(* ===================================================================== *)
(** * The vocabulary of the properties *)

(** ** What a request carries and what the snapshot file holds *)

(** The text of a sequence of chunks, put back together. *)
Definition glue (chunks : list string) : string :=
  fold_right String.append "" chunks.

(** Reading back the request body of a creation: the title sent, the
    content blocks, the text of a block. *)
Definition sentTitle (payload : value) : option string :=
  match (p <- get payload "properties" ;; t <- get p "Ticket" ;;
         a <- get t "title" ;; x <- item0 a ;;
         y <- get x "text" ;; get y "content") with
  | Normal (Str s) => Some s
  | _ => None
  end.

Definition blocksOf (payload : value) : list value :=
  match get payload "children" with
  | Normal (Arr blocks) => blocks
  | _ => []
  end.

Definition blockText (block : value) : option string :=
  match (p <- get block "paragraph" ;; r <- get p "rich_text" ;;
         x <- item0 r ;; t <- get x "text" ;; get t "content") with
  | Normal (Str s) => Some s
  | _ => None
  end.

Definition sentProperties (body : value) : list (string * value) :=
  match get body "properties" with
  | Normal (Obj props) => props
  | _ => []
  end.

Definition sentStatus (body : value) : option value :=
  match own (sentProperties body) "Status" with
  | Some st =>
      match (s <- get st "status" ;; get s "name") with
      | Normal name => Some name
      | Throw _ => None
      end
  | None => None
  end.

Definition sentResolvedAt (body : value) : option value :=
  own (sentProperties body) "Resolved At".

(** The history a reader of the snapshot file finds in it. *)
Definition historyOnDisk (w : World) : option value :=
  match stateFile w with
  | Some (Json (Obj fields)) => own fields "history"
  | _ => None
  end.

(** ** Fields and pages *)

(** [page.properties[k]], as [extractTicket] reads it. *)
Definition pageProperty (page : value) (k : string) : value :=
  match get page "properties" with
  | Normal found =>
      match get (coalesce found (Obj [])) k with
      | Normal v => v
      | Throw _ => Undefined
      end
  | Throw _ => Undefined
  end.

(** A remote Status field of the [status] shape holding [name]. *)
Definition statusField (name : value) : value :=
  Obj [("type", Str "status"); ("status", Obj [("name", name)])].

(** [prop[k]] for a field that may be absent. *)
Definition payload (prop : value) (k : string) : value :=
  match get prop k with
  | Normal v => v
  | Throw _ => Undefined
  end.

(** A payload the collection extractors accept: absent, [null], or an
    array with no [null] or [undefined] element. *)
Definition noNullElement (items : list value) : bool :=
  forallb (fun x => negb (nullish x)) items.

Definition listPayload (v : value) : bool :=
  match v with
  | Undefined | Null => true
  | Arr items => noNullElement items
  | _ => false
  end.

(** A payload the plain-text extractor accepts: moreover the [plain_text]
    of each span can be rendered. *)
Definition renders (v : value) : bool :=
  nullish v || returns (toString v).

Definition textPayload (v : value) : bool :=
  match v with
  | Undefined | Null => true
  | Arr spans =>
      forallb (fun t => match get t "plain_text" with
                        | Normal x => renders x
                        | Throw _ => false
                        end) spans
  | _ => false
  end.

(** A field as the remote store sends it, or an absent one: whichever
    payloads it has are absent, [null], or arrays without [null] whose
    text parts can be rendered. *)
Definition wellFormed (prop : value) : bool :=
  textPayload (payload prop "rich_text")
  && textPayload (payload prop "title")
  && listPayload (payload prop "multi_select")
  && listPayload (payload prop "relation")
  && listPayload (payload prop "people").

(** The ticket of a page that has none of the optional fields. *)
Definition bareTicket (AI_SQUAD_ID : string) (id created updated : value) : Ticket.t :=
  {| Ticket.id := id;
     Ticket.title := Str "(untitled)";
     Ticket.status := Str "Open";
     Ticket.summary := Null;
     Ticket.spec_url := Null;
     Ticket.due := Null;
     Ticket.branch := Null;
     Ticket.commit := Null;
     Ticket.feature := Null;
     Ticket.resolved_at := Null;
     Ticket.area := Null;
     Ticket.application := Null;
     Ticket.type := Null;
     Ticket.priority := Null;
     Ticket.blocked_by := [];
     Ticket.blocks := [];
     Ticket.created_at := created;
     Ticket.updated_at := updated;
     Ticket.assigned_to_ai_squad := String.eqb AI_SQUAD_ID "" |}.

(** ** Listings and their traversal *)

(** What [fetchAllShipyardPages] reads off a response. *)
Definition isError (data : value) : bool :=
  match get data "object" with
  | Normal o => is_str o "error"
  | Throw _ => false
  end.

Definition resultsOf (data : value) : completion (list value) :=
  r <- get data "results" ;; iterate (coalesce r (Arr [])).

Definition nextCursor (data : value) : value :=
  match get data "has_more" with
  | Normal more =>
      if truthy more
      then match get data "next_cursor" with Normal c => c | Throw _ => Undefined end
      else Undefined
  | Throw _ => Undefined
  end.

(** [data] is a page of the listing: it carries [items] and hands out
    [next] as the cursor of the page after it. *)
Definition serves (data : value) (items : list value) (next : value) : Prop :=
  nullish data = false
  /\ isError data = false
  /\ resultsOf data = Normal items
  /\ nextCursor data = next.

(** A run of pages, each pointing to a next one. *)
Inductive Chain : list value -> list (list value) -> list value -> Prop :=
| Chain_nil : Chain [] [] []
| Chain_cons data items next rest more nexts :
    serves data items next -> truthy next = true ->
    Chain rest more nexts ->
    Chain (data :: rest) (items :: more) (next :: nexts).

(** The request for the page at [cursor]. *)
Definition queryRequest (ds : string) (cursor : value) : Event :=
  Request "POST" ("/data_sources/" ++ ds ++ "/query")
    (Obj (("page_size", Num "100")
          :: if truthy cursor then [("start_cursor", cursor)] else [])).

(** The requests of a traversal that sends [cursors] one after the other,
    with the pause between two requests. *)
Fixpoint traversal (ds : string) (cursors : list value) : list Event :=
  match cursors with
  | [] => []
  | [c] => [queryRequest ds c]
  | c :: rest => queryRequest ds c :: Sleep RATE_LIMIT_DELAY :: traversal ds rest
  end.

(** The world after [events], with [left] still to be served. *)
Definition served (w : World) (left : list value) (events : list Event) : World :=
  mkWorld left (dataSourceId w) (stateFile w) (now w) (trace w ++ events)%list.



(** A page of the listing as the remote sends it. *)
Definition listPage (items : list value) (next : value) : value :=
  Obj [("object", Str "list");
       ("results", Arr items);
       ("has_more", Bool (truthy next));
       ("next_cursor", next)].

Definition errorObject (message : string) : value :=
  Obj [("object", Str "error"); ("status", Num "429"); ("message", Str message)].

(** ** The keys of the ordering policy *)

(** The two keys: whether the ticket has a dependency, and its priority
    with an absent priority read as "P4". *)
Definition blocked (blocked_by : list value) : bool :=
  (0 <? List.length blocked_by)%nat.

Definition effectivePriority (priority : value) : string :=
  match coalesce priority (Str "P4") with
  | Str s => s
  | _ => ""
  end.

Definition queueKey (blocked_by : list value) (priority : value) : bool * string :=
  (blocked blocked_by, effectivePriority priority).

(** Unblocked before blocked, then the priorities in lexicographic
    order. *)
Definition keyLe (j k : bool * string) : bool :=
  match fst j, fst k with
  | false, true => true
  | true, false => false
  | _, _ => String.leb (snd j) (snd k)
  end.

Definition keyEq (j k : bool * string) : bool :=
  Bool.eqb (fst j) (fst k) && String.eqb (snd j) (snd k).

(** A priority as the type declares it: absent, or one of P0 .. P4. *)
Definition declaredPriority (priority : value) : Prop :=
  priority = Null \/ exists s, In s ShipyardPriority /\ priority = Str s.

Definition itemKey (q : QueueItem.t) : bool * string :=
  queueKey (QueueItem.blocked_by q) (QueueItem.priority q).

Definition ticketKey (t : Ticket.t) : bool * string :=
  queueKey (Ticket.blocked_by t) (Ticket.priority t).

(** Ascending order of a key, and the elements with a given key. *)
Definition ascending {A K : Type} (key : A -> K) (kle : K -> K -> bool) (a b : A)
  : Prop :=
  kle (key a) (key b) = true.

Definition withKey {A K : Type} (key : A -> K) (keq : K -> K -> bool) (k : K) (a : A)
  : bool :=
  keq (key a) k.

(** The shape of the four collecting loops. *)
Section CollectLoop.

Context {T Q : Type}.
Variable extract : value -> completion T.
Variable keep : T -> bool.
Variable project : T -> Q.

Fixpoint collectWith (pages : list value) (acc : list Q) : completion (list Q) :=
  match pages with
  | [] => Normal acc
  | page :: rest =>
      ticket <- extract page ;;
      collectWith rest (if keep ticket then (acc ++ [project ticket])%list else acc)
  end.

End CollectLoop.

(** ** Writes to a page *)

Definition patch (pageId : string) (body : value) : Event :=
  Request "PATCH" ("/pages/" ++ pageId) body.

(** In world [w], [m] is one write of [body] to the page: the request is
    sent whatever follows; an answer that is not an error object is
    followed by the pause and a normal return; an error object carrying
    [msg] ends the call with [what: msg] and no pause; with no answer at
    all the request fails.  Nothing else changes. *)
Definition writeAt (w : World) (m : M unit) (pageId : string) (body : value)
                   (what : string) : Prop :=
  match remote w with
  | [] => m w = (Throw TypeError, served w [] [patch pageId body])
  | data :: rest =>
      (nullish data = false -> isError data = false ->
       m w = (Normal tt, served w rest [patch pageId body; Sleep RATE_LIMIT_DELAY]))
      /\ (forall msg,
            get data "object" = Normal (Str "error") ->
            get data "message" = Normal (Str msg) ->
            m w = (Throw (Error (what ++ ": " ++ msg)), served w rest [patch pageId body]))
  end.

Definition writesOnce (m : M unit) (pageId : string) (body : value) (what : string)
  : Prop :=
  forall w, writeAt w m pageId body what.

(** The request, the check of the answer and the pause, as every write
    function spells them out. *)
Definition checkedWrite (pageId : string) (body : value) (what : string) : M unit :=
  data <~ notionFetch ("/pages/" ++ pageId) "PATCH" body ;;
  _ <~ rejectError what data ;;
  sleep RATE_LIMIT_DELAY.

Definition properties (fields : list (string * value)) : value :=
  Obj [("properties", Obj fields)].

(** A property as the remote returns it: the value written, tagged with
    its type. *)
Definition tagged (type : string) (written : value) : value :=
  match written with
  | Obj fields => Obj (("type", Str type) :: fields)
  | other => other
  end.

(** A page that answers a write. *)
Definition page_ok : value := Obj [("object", Str "page"); ("id", Str "page-1")].

(** ** The content of a page *)

Definition pageRequest (pageId : string) : Event :=
  Request "GET" ("/pages/" ++ pageId) Undefined.

Definition blocksRequest (pageId : string) : Event :=
  Request "GET" ("/blocks/" ++ pageId ++ "/children") Undefined.

(** A block of type [kind] as the remote returns it, its text in one
    span. *)
Definition span (text : string) : value :=
  Obj [("type", Str "text"); ("plain_text", Str text)].

Definition textBlock (kind text : string) : value :=
  Obj [("object", Str "block"); ("type", Str kind);
       (kind, Obj [("rich_text", Arr [span text])])].

(** [!text.trim()] *)
Definition blank (text : string) : bool := String.eqb (trim text) "".

(** A block the loop passes over, whatever it has collected. *)
Definition passedOver (block : value) : Prop :=
  forall textParts, renderFrom rendered block textParts = Normal textParts.

Definition firstChar (s : string) : option ascii :=
  match s with
  | EmptyString => None
  | String c _ => Some c
  end.

Fixpoint lastChar (s : string) : option ascii :=
  match s with
  | EmptyString => None
  | String c rest =>
      match lastChar rest with
      | Some d => Some d
      | None => Some c
      end
  end.

(** No white space at either end. *)
Definition trimmed (s : string) : Prop :=
  (forall c, firstChar s = Some c -> is_space c = false)
  /\ (forall c, lastChar s = Some c -> is_space c = false).

(** The listing of the blocks of a page. *)
Definition blockList (blocks : list value) : value :=
  Obj [("object", Str "list"); ("results", Arr blocks); ("has_more", Bool false)].

(** ** The database and its data sources *)

Definition dataSource (source : string * string) : value :=
  Obj [("id", Str (snd source)); ("name", Str (fst source))].

(** What the remote answers about the database: its data sources, each
    with a name and an id. *)
Definition database (sources : list (string * string)) : value :=
  Obj [("object", Str "database"); ("data_sources", Arr (map dataSource sources))].

Definition databaseRequest (DB_ID : string) : Event :=
  Request "GET" ("/databases/" ++ DB_ID) Undefined.

(** The source to work on: the first whose name contains "Tickets", the
    first of all when no name does. *)
Definition chosenSource (sources : list (string * string)) : option string :=
  match List.find (fun source => str_includes (fst source) "Tickets") sources with
  | Some source => Some (snd source)
  | None => option_map snd (List.head sources)
  end.

(** ** What a creation writes, and the page made of it *)

(** The properties [createTicket] writes besides the title. *)
Definition creationFields (AI_SQUAD_ID area : string) (priority assignee type : option string)
  : list (string * value) :=
  ([("Status", Obj [("status", Obj [("name", Str "Open")])]);
    ("Application", Obj [("multi_select", Arr [Obj [("name", Str TARGET_APP)]])]);
    ("Area", Obj [("multi_select", Arr [Obj [("name", Str area)]])]);
    ("Type", Obj [("select", Obj [("name", Str (or_default type "Task"))])]);
    ("Priority", Obj [("select", Obj [("name", Str (or_default priority "P0"))])])]
   ++ assigneeProperty AI_SQUAD_ID TEAM_USERS assignee)%list.

(** A property as the remote returns it: what was written under its one
    key, tagged with that key as its type. *)
Definition echoProperty (written : value) : value :=
  match written with
  | Obj ((k, v) :: rest) => Obj (("type", Str k) :: (k, v) :: rest)
  | other => other
  end.

(** The page the remote makes of the properties written. *)
Definition echoed (id : string) (fields : list (string * value)) : value :=
  Obj [("object", Str "page"); ("id", Str id);
       ("properties", Obj (map (fun field => (fst field, echoProperty (snd field))) fields))].

(** ** The command line *)

Definition dash : ascii := "-"%char.

Definition characters (s : string) : list ascii := list_ascii_of_string s.

(** The console of a process that has done nothing yet. *)
Definition fresh (w : World) : Process := mkProcess w [] [].

(** A git that does what it is asked, and one that fails at everything. *)
Definition git_ok (command : string) : option string := None.

Definition git_broken (command : string) : option string := Some "not a git repository".

(** What a status update writes at time [stamp]. *)
Definition statusWrite (pageId status stamp : string) : Event :=
  patch pageId
    (properties
       (("Status", Obj [("status", Obj [("name", Str status)])])
        :: if String.eqb status "Done" || String.eqb status "Review AI Fix"
           then [("Resolved At", Obj [("date", Obj [("start", Str stamp)])])]
           else [])).

(** The entries the commands add to the history. *)
Definition startedEntry (ticketId stamp : string) : HistoryItem.t :=
  {| HistoryItem.ticket_id := ticketId;
     HistoryItem.title := "(started)";
     HistoryItem.action := "started";
     HistoryItem.timestamp := stamp |}.


(** The branch of a ticket. *)
Definition branchOf (ticketId : string) : string :=
  "feature/shipyard-" ++ shortId ticketId.

(** The arguments of [--create] pass the checks of [cmdCreate]. *)
Definition validCreate (argv : list string) : bool :=
  negb (missing (getArg argv "--create"))
  && includes VALID_AREAS (getArg argv "--area")
  && (missing (getArg argv "--priority")
      || includes VALID_PRIORITIES (getArg argv "--priority"))
  && (missing (getArg argv "--type") || includes VALID_TYPES (getArg argv "--type")).

(** What [cmdSync] prints for a status whose items give [lines]. *)
Definition groupLines (status : string) (lines : list string) : list Line :=
  match lines with
  | [] => []
  | _ => (Out ("  > " ++ status ++ " (" ++ decimal (List.length lines) ++ ")")
          :: map Out lines ++ [Out ""])%list
  end.

(** No command flag among the arguments. *)
Definition noCommand (argv : list string) : Prop :=
  hasFlag argv "--poll" = false /\ hasFlag argv "--create" = false
  /\ hasFlag argv "--start" = false /\ hasFlag argv "--done" = false
  /\ hasFlag argv "--get" = false.

(** A command that leaves the world and the commands run as they are,
    whatever it prints. *)
Definition printsOnly {A} (c : Cli A) : Prop :=
  forall p, world (snd (c p)) = world p /\ executed (snd (c p)) = executed p.

(** A request that reads. *)
Definition reads (e : Event) : bool :=
  match e with
  | Request method path _ =>
      String.eqb method "GET"
      || (String.eqb method "POST" && String.prefix "/data_sources/" path)
  | Sleep _ => true
  end.

(** A computation that leaves the snapshot file alone and adds nothing
    but reads to the trace. *)
Definition onlyReads {A} (m : M A) : Prop :=
  forall w,
    stateFile (snd (m w)) = stateFile w
    /\ exists events,
         trace (snd (m w)) = (trace w ++ events)%list /\ forallb reads events = true.

(** A multi-select property as the remote returns it. *)
Definition multiSelect (names : list string) : value :=
  Obj [("type", Str "multi_select");
       ("multi_select", Arr (map (fun name => Obj [("name", Str name)]) names))].

(** ** The snapshot as a reader finds it *)




(** ** The people a page is assigned to *)

(** The ids of the people under the Assignee property of a page, when
    the property is of type [people]; a person without an id counts as
    [undefined]. *)
Definition assigneesOf (page : value) : list value :=
  let prop := pageProperty page "Assignee" in
  if is_str (payload prop "type") "people" then
    match payload prop "people" with
    | Arr people => map (fun person => payload person "id") people
    | _ => []
    end
  else [].

(** An Assignee property as the remote returns it. *)
Definition peopleField (ids : list string) : value :=
  Obj [("type", Str "people");
       ("people", Arr (map (fun id => Obj [("object", Str "user"); ("id", Str id)]) ids))].

(** The world when the clock shows [time]. *)
Definition atTime (time : string) (w : World) : World :=
  mkWorld (remote w) (dataSourceId w) (stateFile w) time (trace w).

(** ** Example inputs *)

(** What the remote answers to a creation. *)
Definition created_page : value :=
  Obj [("object", Str "page"); ("id", Str "page-1")].

(** A world whose data source is already resolved, with the responses
    the remote will give and the snapshot file found on disk. *)
Definition world_ready (responses : list value) (file : option File) : World :=
  mkWorld responses (Str "ds-1") file "2026-01-01T00:00:00.000Z" [].

(** The entry the CLI appends when a ticket is done. *)
Definition done_entry : HistoryItem.t :=
  {| HistoryItem.ticket_id := "page-1";
     HistoryItem.title := "(done)";
     HistoryItem.action := "done";
     HistoryItem.timestamp := "2026-01-01T00:00:00.000Z" |}.

(** A page whose status is none of the declared ones. *)
Definition archived_page : value :=
  Obj [("id", Str "page-7");
       ("properties", Obj [("Status", statusField (Str "Archived"))])].

(** A page with a summary and nothing else. *)
Definition sparse_page : value :=
  Obj [("id", Str "page-9");
       ("created_time", Str "2026-01-01T00:00:00.000Z");
       ("properties",
        Obj [("Summary",
              Obj [("type", Str "rich_text");
                   ("rich_text", Arr [Obj [("plain_text", Str "Only a summary")]])])])].

(** An open ticket of application [app], and a snapshot left by an
    earlier run whose history has one entry. *)
Definition open_ticket_page (app : string) : value :=
  Obj [("id", Str "page-1");
       ("properties",
        Obj [("Ticket",
              Obj [("type", Str "title");
                   ("title", Arr [Obj [("plain_text", Str "Fix the login page")]])]);
             ("Status", statusField (Str "Open"));
             ("Application",
              Obj [("type", Str "multi_select");
                   ("multi_select", Arr [Obj [("name", Str app)]])]);
             ("Priority",
              Obj [("type", Str "select"); ("select", Obj [("name", Str "P1")])])])].

Definition earlier_snapshot : File :=
  Json (Obj [("last_synced", Str "2025-12-31T00:00:00.000Z");
             ("queue", Arr []);
             ("history", Arr [historyItem_json done_entry])]).

(** The collation of the examples: code units. *)
Definition byCodeUnit (a b : string) : Z :=
  match String.compare a b with
  | Lt => (-1)%Z
  | Eq => 0%Z
  | Gt => 1%Z
  end.

(** A page of the target application assigned to no one in particular,
    with the given status, priority name and dependencies. *)
Definition ticket_page (id status : string) (priority : value) (deps : list value)
  : value :=
  Obj [("id", Str id);
       ("properties",
        Obj [("Status", statusField (Str status));
             ("Application",
              Obj [("type", Str "multi_select");
                   ("multi_select", Arr [Obj [("name", Str TARGET_APP)]])]);
             ("Priority",
              Obj [("type", Str "select"); ("select", Obj [("name", priority)])]);
             ("Dependency",
              Obj [("type", Str "relation"); ("relation", Arr deps)])])].

(** Two pages of listing: priorities out of order, a blocked ticket, a
    ticket without priority, two tickets of equal key, a finished one. *)
Definition mixed_listing : list value :=
  [listPage [ticket_page "a" "Open" (Str "P2") [];
             ticket_page "b" "Open" (Str "P0") [Obj [("id", Str "a")]];
             ticket_page "c" "In Progress" Null []] (Str "next");
   listPage [ticket_page "d" "Open" (Str "P2") [];
             ticket_page "e" "In Review" (Str "P0") [];
             ticket_page "f" "Done" (Str "P0") []] Null].

(** A listing with a ticket under review of an AI fix. *)
Definition review_listing : list value :=
  [listPage [ticket_page "2bed872b-594c" "Open" (Str "P1") [];
             ticket_page "72881aba-e6de" "Review AI Fix" (Str "P0") [];
             ticket_page "2c6d872b-594c" "In Progress" Null []] Null].

(** A ticket of two applications, the target application second. *)
Definition shared_page : value :=
  Obj [("id", Str "page-2");
       ("properties",
        Obj [("Status", statusField (Str "Open"));
             ("Application", multiSelect ["Capabl OS"; TARGET_APP]);
             ("Area", multiSelect ["Backend"; "Docs"])])].

(** A page of application [app] with a status, assigned to the people
    of the given ids. *)
Definition assigned_page (id app status : string) (assignees : list string) : value :=
  Obj [("id", Str id);
       ("properties",
        Obj [("Ticket",
              Obj [("type", Str "title");
                   ("title", Arr [Obj [("plain_text", Str ("Ticket " ++ id))]])]);
             ("Status", statusField (Str status));
             ("Application", multiSelect [app]);
             ("Assignee", peopleField assignees)])].

(** A listing in which every reason to leave a ticket out occurs: another
    application, another assignee, and each of the three statuses. *)
Definition squad_listing (app : string) : list value :=
  [listPage [assigned_page "p1" app "Open" ["squad-1"];
             assigned_page "p2" "Another app" "Open" ["squad-1"];
             assigned_page "p3" app "Open" ["user-7"];
             assigned_page "p4" app "Done" ["squad-1"]] (Str "next");
   listPage [assigned_page "p5" app "On hold" ["squad-1"];
             assigned_page "p6" app "Blocked by human" ["squad-1"];
             assigned_page "p7" app "In Progress" ["user-7"; "squad-1"];
             assigned_page "p8" app "Open" []] Null].



(** A clock that is read an hour later each time, after the first
    reading at midnight. *)
Definition hourly (k : nat) : string :=
  match k with
  | 0 => "2026-01-01T01:00:00.000Z"
  | 1 => "2026-01-01T02:00:00.000Z"
  | _ => "2026-01-01T03:00:00.000Z"
  end.

(* ===================================================================== *)
(** * Properties *)

(** ** Strings: [substring] and the body cut into chunks *)

Section Substring.

Lemma substring_all (s : string) (n : nat) :
  String.length s <= n -> String.substring 0 n s = s.
Proof.
  revert n; induction s as [|c s IH]; intros [|n] H; simpl in *;
    try reflexivity; try lia.
  now rewrite IH by lia.
Qed.

Lemma substring_length (s : string) (i n : nat) :
  String.length (String.substring i n s) = Nat.min n (String.length s - i).
Proof.
  revert i n; induction s as [|c s IH]; intros [|i] [|n]; simpl;
    try reflexivity; try (rewrite IH; simpl; lia).
Qed.

Lemma substring_prefix (s : string) (n : nat) :
  String.prefix (String.substring 0 n s) s = true.
Proof.
  revert n; induction s as [|c s IH]; intros [|n]; simpl; try reflexivity.
  destruct (ascii_dec c c) as [_|ne]; [apply IH | now elim ne].
Qed.

Lemma substring_split (s : string) (i a b : nat) :
  String.substring i (a + b) s
  = String.substring i a s ++ String.substring (i + a) b s.
Proof.
  revert i a; induction s as [|c s IH]; intros i a.
  - destruct i, a, b; reflexivity.
  - destruct i as [|i].
    + destruct a as [|a]; simpl.
      * destruct b; reflexivity.
      * f_equal. apply (IH 0 a).
    + simpl. destruct a as [|a].
      * rewrite Nat.add_0_r. simpl.
        destruct (String.substring i 0 s) eqn:E; [reflexivity|].
        pose proof (substring_length s i 0) as L. rewrite E in L.
        simpl in L. discriminate.
      * apply (IH i (S a)).
Qed.

Lemma substring_truncate (s : string) (i n : nat) :
  String.length s - i <= n ->
  String.substring i n s = String.substring i (String.length s - i) s.
Proof.
  revert i n; induction s as [|c s IH]; intros i n H.
  - destruct i, n; reflexivity.
  - destruct i as [|i]; simpl in *.
    + destruct n as [|n]; [lia|]. f_equal.
      rewrite (IH 0 n) by lia. now rewrite Nat.sub_0_r.
    + now apply IH.
Qed.

Lemma substring_beyond (s : string) (i n : nat) :
  String.length s <= i -> String.substring i n s = "".
Proof.
  revert i n; induction s as [|c s IH]; intros i n H.
  - destruct i, n; reflexivity.
  - destruct i as [|i]; simpl in *; [lia|]. apply IH; lia.
Qed.

Lemma append_empty_r (s : string) : s ++ "" = s.
Proof. induction s; simpl; congruence. Qed.

End Substring.

Section Chunks.

Lemma chunksFrom_glue (body : string) (i : nat) :
  glue (chunksFrom body i) = String.substring i (String.length body - i) body.
Proof.
  funelim (chunksFrom body i); simpl.
  - rewrite H.
    destruct (le_lt_dec 2000 (String.length body - i)) as [big|small].
    + replace (String.length body - i)
        with (2000 + (String.length body - (i + 2000))) by lia.
      now rewrite substring_split.
    + rewrite (substring_truncate body i 2000) by lia.
      rewrite (substring_beyond body (i + 2000)) by lia.
      apply append_empty_r.
  - rewrite substring_beyond by lia. reflexivity.
Qed.

Lemma chunksFrom_sizes (body : string) (i : nat) :
  Forall (fun chunk => 1 <= String.length chunk <= 2000) (chunksFrom body i).
Proof.
  funelim (chunksFrom body i); simpl.
  - constructor; [|assumption]. rewrite substring_length. lia.
  - constructor.
Qed.

Lemma chunksFrom_count (body : string) (i : nat) :
  List.length (chunksFrom body i) = (String.length body - i + 1999) / 2000.
Proof.
  funelim (chunksFrom body i); cbn [List.length].
  - rewrite H.
    destruct (le_lt_dec 2000 (String.length body - i)) as [big|small].
    + replace (String.length body - i + 1999)
        with ((String.length body - (i + 2000) + 1999) + 1 * 2000) by lia.
      rewrite Nat.div_add by lia. lia.
    + replace (String.length body - (i + 2000)) with 0 by lia.
      rewrite (Nat.div_small (0 + 1999) 2000) by lia.
      apply (Nat.div_unique _ _ 1 (String.length body - i - 1)); lia.
  - replace (String.length body - i) with 0 by lia.
    symmetry. apply Nat.div_small. lia.
Qed.

(** Every chunk but the last is full. *)
Lemma chunksFrom_full (body : string) (i : nat) :
  forall k, S k < List.length (chunksFrom body i) ->
            option_map String.length (nth_error (chunksFrom body i) k) = Some 2000.
Proof.
  funelim (chunksFrom body i); cbn [List.length]; intros k Hk.
  - destruct k as [|k]; cbn [nth_error option_map].
    + rewrite substring_length. f_equal.
      rewrite chunksFrom_count in Hk.
      destruct (le_lt_dec 2000 (String.length body - i)); [lia|].
      replace (String.length body - (i + 2000)) with 0 in Hk by lia.
      rewrite (Nat.div_small (0 + 1999) 2000) in Hk by lia. lia.
    + apply H. lia.
  - lia.
Qed.

End Chunks.

(* ===================================================================== *)
(** ** createTicket: what is written *)

Lemma blockText_paragraph (chunks : list string) :
  map blockText (map paragraph chunks) = map Some chunks.
Proof.
  induction chunks as [|c cs IH]; [reflexivity|].
  cbn [map]. rewrite IH. reflexivity.
Qed.

Lemma children_blocks (fixed : list (string * value)) (b : string) :
  own fixed "children" = None ->
  blocksOf (Obj (fixed ++ children (Some b))) = map paragraph (chunksFrom b 0).
Proof.
  intros Hfixed. unfold blocksOf, get.
  assert (own_app : forall l r k, own l k = None -> own (l ++ r) k = own r k).
  { induction l as [|[k' v] l IH]; intros r k; simpl; [reflexivity|].
    destruct (String.eqb k' k); [discriminate|apply IH]. }
  rewrite own_app by assumption. unfold children.
  destruct (String.eqb_spec b "") as [->|nonempty]; simpl.
  - now simp chunksFrom.
  - reflexivity.
Qed.

Section Creation.

Variable AI_SQUAD_ID DB_ID : string.
Variable JSON_stringify : value -> string.

Lemma createTicket_request
      (title area : string) (body priority assignee type : option string)
      (w w1 : World) (dsId : value) :
  resolveDataSourceId DB_ID w = (Normal dsId, w1) ->
  exists properties rest,
    let payload :=
      Obj ([("parent", Obj [("type", Str "data_source_id"); ("data_source_id", dsId)]);
            ("properties",
             Obj (("Ticket",
                   Obj [("title",
                         Arr [Obj [("text",
                                    Obj [("content", Str (String.substring 0 200 title))])]])])
                  :: properties))]
           ++ children body) in
    trace (snd (createTicket AI_SQUAD_ID DB_ID JSON_stringify
                  title area body priority assignee type w))
    = ((trace w1 ++ [Request "POST" "/pages" payload]) ++ rest)%list
    /\ requests rest = [].
Proof.
  intros Hres. unfold createTicket, bindM at 1. rewrite Hres.
  eexists. unfold notionFetch, bindM, emit, lift, sleep, emit, throw; simpl.
  destruct (remote w1) as [|data more]; simpl.
  - exists []. split; [now rewrite app_nil_r | reflexivity].
  - destruct (get data "id") as [id|e]; simpl.
    + destruct (truthy id); simpl.
      * exists [Sleep RATE_LIMIT_DELAY]. split; [|reflexivity].
        now destruct (extractTicket AI_SQUAD_ID data).
      * exists []. split; [now rewrite app_nil_r | reflexivity].
    + exists []. split; [now rewrite app_nil_r | reflexivity].
Qed.

End Creation.

Section CreationEnv.

Variable TARGET_APP : string.
Variable TEAM_USERS : list (string * string).
Variable AI_SQUAD_ID DB_ID : string.
Variable JSON_stringify : value -> string.

Lemma createTicket_env_request
      (title area : string) (body priority assignee application : option string)
      (w w1 : World) (dsId : value) :
  resolveDataSourceId DB_ID w = (Normal dsId, w1) ->
  or_default application TARGET_APP <> "" ->
  exists properties rest,
    let payload :=
      Obj ([("parent", Obj [("type", Str "data_source_id"); ("data_source_id", dsId)]);
            ("properties",
             Obj (("Ticket",
                   Obj [("title",
                         Arr [Obj [("text",
                                    Obj [("content", Str (String.substring 0 200 title))])]])])
                  :: properties))]
           ++ children body) in
    trace (snd (EnvConfigured.createTicket TARGET_APP TEAM_USERS AI_SQUAD_ID DB_ID
                  JSON_stringify title area body priority assignee application w))
    = ((trace w1 ++ [Request "POST" "/pages" payload]) ++ rest)%list
    /\ requests rest = [].
Proof.
  intros Hres Happ. unfold EnvConfigured.createTicket, bindM at 1. rewrite Hres.
  destruct (String.eqb_spec (or_default application TARGET_APP) "") as [E|_];
    [now elim Happ|].
  eexists. unfold notionFetch, bindM, emit, lift, sleep, emit, throw; simpl.
  destruct (remote w1) as [|data more]; simpl.
  - exists []. split; [now rewrite app_nil_r | reflexivity].
  - destruct (get data "id") as [id|e]; simpl.
    + destruct (truthy id); simpl.
      * exists [Sleep RATE_LIMIT_DELAY]. split; [|reflexivity].
        now destruct (EnvConfigured.extractTicket AI_SQUAD_ID data).
      * exists []. split; [now rewrite app_nil_r | reflexivity].
    + exists []. split; [now rewrite app_nil_r | reflexivity].
Qed.

End CreationEnv.

(** C10. For every title passed to [createTicket], in either copy of the
    bridge, the one remote write carries the title cut to its first 200
    characters: a title of at most 200 characters is sent unchanged, a
    longer one is replaced by its prefix of length 200. *)
Theorem createTicket_title_truncated :
  forall (AI_SQUAD_ID DB_ID : string) (JSON_stringify : value -> string)
         (title area : string) (body priority assignee : option string)
         (w w1 : World) (dsId : value),
    resolveDataSourceId DB_ID w = (Normal dsId, w1) ->
    (forall type, exists payload rest,
        trace (snd (createTicket AI_SQUAD_ID DB_ID JSON_stringify
                      title area body priority assignee type w))
        = ((trace w1 ++ [Request "POST" "/pages" payload]) ++ rest)%list
        /\ requests rest = []
        /\ sentTitle payload = Some (String.substring 0 200 title))
    /\ (forall TARGET_APP TEAM_USERS application,
        or_default application TARGET_APP <> "" ->
        exists payload rest,
          trace (snd (EnvConfigured.createTicket TARGET_APP TEAM_USERS AI_SQUAD_ID
                        DB_ID JSON_stringify
                        title area body priority assignee application w))
          = ((trace w1 ++ [Request "POST" "/pages" payload]) ++ rest)%list
          /\ requests rest = []
          /\ sentTitle payload = Some (String.substring 0 200 title))
    /\ (String.length title <= 200 -> String.substring 0 200 title = title)
    /\ (200 < String.length title ->
        String.length (String.substring 0 200 title) = 200
        /\ String.prefix (String.substring 0 200 title) title = true).
Proof.
  intros AI DB stringify title area body priority assignee w w1 dsId Hres.
  repeat split.
  - intros type.
    destruct (createTicket_request AI DB stringify title area body priority
                assignee type w w1 dsId Hres) as (props & rest & Htrace & Hrest).
    eexists; exists rest. repeat split; [exact Htrace | exact Hrest | reflexivity].
  - intros app team application Happ.
    destruct (createTicket_env_request app team AI DB stringify title area body
                priority assignee application w w1 dsId Hres Happ)
      as (props & rest & Htrace & Hrest).
    eexists; exists rest. repeat split; [exact Htrace | exact Hrest | reflexivity].
  - apply substring_all.
  - rewrite substring_length. lia.
  - apply substring_prefix.
Qed.

Lemma createTicket_title_truncated_witness :
  resolveDataSourceId "db" (world_ready [created_page] None)
  = (Normal (Str "ds-1"), world_ready [created_page] None)
  /\ String.substring 0 200 "Fix the login page" = "Fix the login page".
Proof.
  split; [reflexivity|].
  apply (createTicket_title_truncated "" "db" (fun _ => "") "Fix the login page"
           "Frontend" None None None
           (world_ready [created_page] None) (world_ready [created_page] None)
           (Str "ds-1") eq_refl).
  simpl. lia.
Defined.

(** C9. For every body given to [createTicket], the one remote write
    carries one content block per chunk of the body, in order; the chunks
    are consecutive spans of the body of at most 2000 characters each
    (all but the last of exactly 2000), their texts put together are the
    body, and a body of 4500 characters gives exactly 3 blocks. *)
Theorem createTicket_body_chunks :
  forall (AI_SQUAD_ID DB_ID : string) (JSON_stringify : value -> string)
         (title area body : string) (priority assignee type : option string)
         (w w1 : World) (dsId : value),
    resolveDataSourceId DB_ID w = (Normal dsId, w1) ->
    exists payload rest chunks,
      trace (snd (createTicket AI_SQUAD_ID DB_ID JSON_stringify
                    title area (Some body) priority assignee type w))
      = ((trace w1 ++ [Request "POST" "/pages" payload]) ++ rest)%list
      /\ requests rest = []
      /\ map blockText (blocksOf payload) = map Some chunks
      /\ glue chunks = body
      /\ Forall (fun chunk => 1 <= String.length chunk <= 2000) chunks
      /\ (forall k, S k < List.length chunks ->
                    option_map String.length (nth_error chunks k) = Some 2000)
      /\ List.length chunks = (String.length body + 1999) / 2000
      /\ (String.length body = 4500 -> List.length (blocksOf payload) = 3).
Proof.
  intros AI DB stringify title area body priority assignee type w w1 dsId Hres.
  destruct (createTicket_request AI DB stringify title area (Some body) priority
              assignee type w w1 dsId Hres) as (props & rest & Htrace & Hrest).
  eexists; exists rest, (chunksFrom body 0).
  split; [exact Htrace|]. split; [exact Hrest|].
  rewrite (children_blocks _ body) by reflexivity.
  pose proof (chunksFrom_count body 0) as Hcount.
  rewrite Nat.sub_0_r in Hcount.
  repeat split.
  - apply blockText_paragraph.
  - rewrite chunksFrom_glue, Nat.sub_0_r. apply substring_all. lia.
  - apply chunksFrom_sizes.
  - apply chunksFrom_full.
  - exact Hcount.
  - intros Hlen. rewrite length_map, Hcount, Hlen. reflexivity.
Qed.

Lemma createTicket_body_chunks_witness :
  resolveDataSourceId "db" (world_ready [created_page] None)
  = (Normal (Str "ds-1"), world_ready [created_page] None)
  /\ exists payload rest chunks,
      trace (snd (createTicket "" "db" (fun _ => "") "Title" "Backend"
                    (Some "a short body") None None None
                    (world_ready [created_page] None)))
      = (([] ++ [Request "POST" "/pages" payload]) ++ rest)%list
      /\ requests rest = []
      /\ map blockText (blocksOf payload) = map Some chunks
      /\ glue chunks = "a short body".
Proof.
  split; [reflexivity|].
  destruct (createTicket_body_chunks "" "db" (fun _ => "") "Title" "Backend"
              "a short body" None None None
              (world_ready [created_page] None) (world_ready [created_page] None)
              (Str "ds-1") eq_refl)
    as (payload & rest & chunks & Ht & Hr & Hb & Hg & _).
  exists payload, rest, chunks. repeat split; assumption.
Defined.

(* ===================================================================== *)
(** ** updateTicketStatus: what is written *)

(** In scripts/notion-bridge.ts a status update is one PATCH of the page.
    It always carries the status asked for, whatever it is; it carries a
    "Resolved At" date, the current time, exactly when the status is
    "Done" or "Review AI Fix"; and it returns normally whenever the remote
    answers with something that is not an error object. *)
Lemma updateTicketStatus_stamps_resolved_at :
  forall (pageId status : string) (w : World),
  exists body rest,
    trace (snd (updateTicketStatus pageId status w))
    = ((trace w ++ [Request "PATCH" ("/pages/" ++ pageId) body]) ++ rest)%list
    /\ requests rest = []
    /\ sentStatus body = Some (Str status)
    /\ (status = "Done" \/ status = "Review AI Fix" ->
        sentResolvedAt body = Some (Obj [("date", Obj [("start", Str (now w))])]))
    /\ (status <> "Done" -> status <> "Review AI Fix" -> sentResolvedAt body = None)
    /\ (forall data more o,
          remote w = data :: more -> get data "object" = Normal o ->
          is_str o "error" = false ->
          fst (updateTicketStatus pageId status w) = Normal tt).
Proof.
  intros pageId status w.
  unfold updateTicketStatus, bindM, currentTime, ret, notionFetch, bindM, emit,
    lift, sleep, emit, throw.
  destruct (String.eqb_spec status "Done") as [Hd|Hd];
    [|destruct (String.eqb_spec status "Review AI Fix") as [Hr|Hr]]; simpl.
  all: eexists.
  all: destruct (remote w) as [|data more] eqn:Hremote; simpl;
    [ exists []
    | destruct (get data "object") as [o|e] eqn:Hobj; simpl;
      [ destruct (is_str o "error") eqn:Herr; simpl;
        [ destruct (get data "message") as [m|e]; simpl;
          [ destruct (toString m); simpl |]; exists []
        | exists [Sleep RATE_LIMIT_DELAY] ]
      | exists [] ] ].
  all: rewrite ?app_nil_r.
  all: repeat split; try reflexivity; try tauto; try congruence.
  all: try (intros [E|E]; congruence).
  all: intros data' more' o' E1 E2 E3; inversion E1; subst; congruence.
Qed.

(** The environment-configured copy writes the status alone: no status,
    "Done" included, makes it send a "Resolved At" date. *)
Lemma updateTicketStatus_env_no_resolved_at :
  forall (pageId status : string) (w : World),
  exists body rest,
    trace (snd (EnvConfigured.updateTicketStatus pageId status w))
    = ((trace w ++ [Request "PATCH" ("/pages/" ++ pageId) body]) ++ rest)%list
    /\ requests rest = []
    /\ sentStatus body = Some (Str status)
    /\ sentResolvedAt body = None.
Proof.
  intros pageId status w.
  unfold EnvConfigured.updateTicketStatus, bindM, notionFetch, bindM, emit,
    lift, sleep, emit, throw.
  eexists.
  destruct (remote w) as [|data more]; simpl;
    [ exists []
    | destruct (get data "object") as [o|e]; simpl;
      [ destruct (is_str o "error"); simpl;
        [ destruct (get data "message") as [m|e]; simpl;
          [ destruct (toString m); simpl |]; exists []
        | exists [Sleep RATE_LIMIT_DELAY] ]
      | exists [] ] ].
  all: rewrite ?app_nil_r; repeat split; reflexivity.
Qed.

(** C6, at the input where the two copies part: marking a ticket "Done"
    through the environment-configured copy sends the status and no
    "Resolved At", while scripts/notion-bridge.ts sends both. *)
Theorem updateTicketStatus_done_copies_differ :
  trace (snd (EnvConfigured.updateTicketStatus "page-1" "Done"
                (world_ready [Obj [("object", Str "page")]] None)))
  = [Request "PATCH" "/pages/page-1"
       (Obj [("properties",
              Obj [("Status", Obj [("status", Obj [("name", Str "Done")])])])]);
     Sleep 350]
  /\ trace (snd (updateTicketStatus "page-1" "Done"
                   (world_ready [Obj [("object", Str "page")]] None)))
     = [Request "PATCH" "/pages/page-1"
          (Obj [("properties",
                 Obj [("Status", Obj [("status", Obj [("name", Str "Done")])]);
                      ("Resolved At",
                       Obj [("date",
                             Obj [("start", Str "2026-01-01T00:00:00.000Z")])])])]);
        Sleep 350].
Proof. split; reflexivity. Qed.

(* ===================================================================== *)
(** ** appendHistory *)





(* ===================================================================== *)
(** ** Extraction *)

Section ExtractorFacts.

Lemma get_defined (v : value) (k : string) :
  nullish v = false -> exists x, get v k = Normal x.
Proof. destruct v; simpl; intros H; try discriminate; eexists; reflexivity. Qed.

Lemma truthy_not_nullish (v : value) : truthy v = true -> nullish v = false.
Proof. destruct v; simpl; congruence. Qed.

Lemma opt_get_defined (v : value) (k : string) :
  exists x, opt_get v k = Normal x.
Proof.
  unfold opt_get. destruct (nullish v) eqn:E; [eexists; reflexivity|].
  now apply get_defined.
Qed.

Lemma coalesce_not_nullish (v d : value) :
  nullish d = false -> nullish (coalesce v d) = false.
Proof. unfold coalesce. destruct (nullish v) eqn:E; congruence. Qed.

(** Reading a property of a value that may be anything. *)
Ltac read v k :=
  let x := fresh "x" in
  let E := fresh "E" in
  destruct (get_defined v k) as [x E];
  [solve [auto using truthy_not_nullish, coalesce_not_nullish]
  | rewrite E; simpl].

Ltac opt_read v k :=
  let x := fresh "x" in
  let E := fresh "E" in
  destruct (opt_get_defined v k) as [x E]; rewrite E; simpl.

(** The single-choice, url and date extractors are total. *)
Lemma extractSelect_returns (prop : value) :
  exists v, extractSelect prop = Normal v /\ (v = Null \/ nullish v = false).
Proof.
  unfold extractSelect.
  destruct (truthy prop) eqn:T; simpl; [|eexists; split; [reflexivity|now left]].
  read prop "type".
  destruct (is_str x "select").
  - read prop "select". opt_read x0 "name".
    eexists; split; [reflexivity|]. unfold coalesce.
    destruct (nullish x1) eqn:N; [now left|now right].
  - destruct (is_str x "status").
    + read prop "status". opt_read x0 "name".
      eexists; split; [reflexivity|]. unfold coalesce.
      destruct (nullish x1) eqn:N; [now left|now right].
    + eexists; split; [reflexivity|now left].
Qed.

Lemma extractUrl_returns (prop : value) :
  exists v, extractUrl prop = Normal v.
Proof.
  unfold extractUrl.
  destruct (truthy prop) eqn:T; simpl; [|eexists; reflexivity].
  read prop "type".
  destruct (is_str x "url"); [|eexists; reflexivity].
  read prop "url". eexists; reflexivity.
Qed.

Lemma extractDate_returns (prop : value) :
  exists v, extractDate prop = Normal v.
Proof.
  unfold extractDate.
  destruct (truthy prop) eqn:T; simpl; [|eexists; reflexivity].
  read prop "type".
  destruct (is_str x "date"); [|eexists; reflexivity].
  read prop "date". opt_read x0 "start". eexists; reflexivity.
Qed.

Lemma traverse_get (items : list value) (k : string) :
  noNullElement items = true ->
  exists xs, traverse (fun r => get r k) items = Normal xs.
Proof.
  induction items as [|r items IH]; simpl; [eexists; reflexivity|].
  intros H. apply andb_prop in H as [Hr Hitems].
  destruct (get_defined r k) as [x E]; [now destruct (nullish r)|].
  destruct (IH Hitems) as [xs Exs]. rewrite E, Exs. eexists; reflexivity.
Qed.

Lemma map_method_listPayload (v : value) (k : string) :
  listPayload v = true ->
  exists xs, map_method (coalesce v (Arr [])) (fun r => get r k) = Normal xs.
Proof.
  destruct v; simpl; intros H; try discriminate; try (eexists; reflexivity).
  now apply traverse_get.
Qed.

Lemma join_renders (parts : list value) (sep : string) :
  forallb renders parts = true -> exists s, join parts sep = Normal s.
Proof.
  induction parts as [|x parts IH]; simpl; [eexists; reflexivity|].
  intros H. apply andb_prop in H as [Hx Hparts].
  destruct (IH Hparts) as [r Er].
  assert (exists s, (if nullish x then Normal "" else toString x) = Normal s) as [s Es].
  { unfold renders in Hx. destruct (nullish x); [eexists; reflexivity|].
    simpl in Hx. destruct (toString x); [eexists; reflexivity|discriminate]. }
  rewrite Es. simpl. destruct parts; [eexists; reflexivity|].
  rewrite Er. eexists; reflexivity.
Qed.

Lemma traverse_plain_text (spans : list value) :
  forallb (fun t => match get t "plain_text" with
                    | Normal x => renders x
                    | Throw _ => false
                    end) spans = true ->
  exists parts, traverse (fun t => get t "plain_text") spans = Normal parts
                /\ forallb renders parts = true.
Proof.
  induction spans as [|t spans IH]; simpl; [eexists; split; reflexivity|].
  intros H. apply andb_prop in H as [Ht Hspans].
  destruct (IH Hspans) as (parts & Eparts & Hparts).
  destruct (get t "plain_text") as [x|e]; [|discriminate].
  rewrite Eparts. eexists; split; [reflexivity|]. simpl. now rewrite Ht.
Qed.

Lemma spans_text (spans : value) :
  textPayload spans = true ->
  exists v,
    (if nullish spans then Normal Null else
     parts <- map_method spans (fun t => get t "plain_text") ;;
     text <- join parts "" ;;
     Normal (or_else (Str text) Null)) = Normal v
    /\ (v = Null \/ exists s, v = Str s /\ s <> "").
Proof.
  destruct spans; simpl; intros H; try discriminate;
    try (eexists; split; [reflexivity|now left]).
  destruct (traverse_plain_text _ H) as (parts & Eparts & Hparts).
  destruct (join_renders parts "" Hparts) as [s Es].
  rewrite Eparts. simpl. rewrite Es. simpl.
  eexists; split; [reflexivity|]. unfold or_else. simpl.
  destruct (String.eqb_spec s ""); simpl; [now left|right; eauto].
Qed.

Lemma extractPlainText_returns (prop : value) :
  (forall spans, get prop "rich_text" = Normal spans -> textPayload spans = true) ->
  (forall spans, get prop "title" = Normal spans -> textPayload spans = true) ->
  exists v, extractPlainText prop = Normal v
            /\ (v = Null \/ exists s, v = Str s /\ s <> "").
Proof.
  intros Hrich Htitle. unfold extractPlainText.
  destruct (truthy prop) eqn:T; simpl; [|eexists; split; [reflexivity|now left]].
  read prop "type".
  destruct (is_str x "rich_text").
  - read prop "rich_text". apply spans_text. now apply Hrich.
  - destruct (is_str x "title").
    + read prop "title". apply spans_text. now apply Htitle.
    + eexists; split; [reflexivity|now left].
Qed.

Lemma extractMultiSelect_returns (prop : value) :
  (forall opts, get prop "multi_select" = Normal opts -> listPayload opts = true) ->
  exists xs, extractMultiSelect prop = Normal xs.
Proof.
  intros Hopts. unfold extractMultiSelect.
  destruct (truthy prop) eqn:T; simpl; [|eexists; reflexivity].
  read prop "type".
  destruct (is_str x "multi_select").
  - read prop "multi_select". apply map_method_listPayload. now apply Hopts.
  - destruct (is_str x "select"); [|eexists; reflexivity].
    read prop "select". opt_read x0 "name".
    destruct (truthy x1); eexists; reflexivity.
Qed.

Lemma extractRelationIds_returns (prop : value) :
  (forall rel, get prop "relation" = Normal rel -> listPayload rel = true) ->
  exists xs, extractRelationIds prop = Normal xs.
Proof.
  intros Hrel. unfold extractRelationIds.
  destruct (truthy prop) eqn:T; simpl; [|eexists; reflexivity].
  read prop "type".
  destruct (is_str x "relation"); simpl; [|eexists; reflexivity].
  read prop "relation". apply map_method_listPayload. now apply Hrel.
Qed.

Lemma extractAssigneeIds_returns (prop : value) :
  (forall who, get prop "people" = Normal who -> listPayload who = true) ->
  exists xs, extractAssigneeIds prop = Normal xs.
Proof.
  intros Hwho. unfold extractAssigneeIds.
  destruct (truthy prop) eqn:T; simpl; [|eexists; reflexivity].
  read prop "type".
  destruct (is_str x "people"); simpl; [|eexists; reflexivity].
  read prop "people". apply map_method_listPayload. now apply Hwho.
Qed.

End ExtractorFacts.

Section TicketFacts.

Variable AI_SQUAD_ID : string.

Ltac step H :=
  match type of H with
  | Js.bind ?c _ = Normal _ =>
      let E := fresh "E" in
      destruct c eqn:E; simpl in H; [|discriminate H]
  end.

(** What a ticket that was extracted holds, field by field. *)
Lemma extractTicket_fields (page : value) (t : Ticket.t) :
  extractTicket AI_SQUAD_ID page = Normal t ->
  (exists apps, extractMultiSelect (pageProperty page "Application") = Normal apps
                /\ Ticket.application t = coalesce (first apps) Null)
  /\ (exists areas, extractMultiSelect (pageProperty page "Area") = Normal areas
                    /\ Ticket.area t = coalesce (first areas) Null)
  /\ get page "id" = Normal (Ticket.id t)
  /\ (exists v, extractPlainText (pageProperty page "Ticket") = Normal v
                /\ Ticket.title t = coalesce v (Str "(untitled)"))
  /\ (exists v, extractSelect (pageProperty page "Status") = Normal v
                /\ Ticket.status t = coalesce v (Str "Open"))
  /\ extractPlainText (pageProperty page "Summary") = Normal (Ticket.summary t)
  /\ extractUrl (pageProperty page "Spec URL") = Normal (Ticket.spec_url t)
  /\ extractDate (pageProperty page "Due") = Normal (Ticket.due t)
  /\ extractPlainText (pageProperty page "Branch") = Normal (Ticket.branch t)
  /\ extractPlainText (pageProperty page "Commit") = Normal (Ticket.commit t)
  /\ extractSelect (pageProperty page "Feature") = Normal (Ticket.feature t)
  /\ extractDate (pageProperty page "Resolved At") = Normal (Ticket.resolved_at t)
  /\ extractSelect (pageProperty page "Type") = Normal (Ticket.type t)
  /\ (exists v, extractSelect (pageProperty page "Priority") = Normal v
                /\ Ticket.priority t = coalesce v Null)
  /\ extractRelationIds (pageProperty page "Dependency") = Normal (Ticket.blocked_by t)
  /\ extractRelationIds (pageProperty page "Blocks ") = Normal (Ticket.blocks t)
  /\ get page "created_time" = Normal (Ticket.created_at t)
  /\ get page "last_edited_time" = Normal (Ticket.updated_at t)
  /\ isAssignedToAISquad AI_SQUAD_ID (pageProperty page "Assignee")
     = Normal (Ticket.assigned_to_ai_squad t).
Proof.
  intros H. unfold extractTicket in H. unfold pageProperty.
  step H. cbv zeta in H. repeat step H.
  injection H as <-. cbn [Ticket.application Ticket.area Ticket.id Ticket.title
    Ticket.status Ticket.summary Ticket.spec_url Ticket.due Ticket.branch
    Ticket.commit Ticket.feature Ticket.resolved_at Ticket.type Ticket.priority
    Ticket.blocked_by Ticket.blocks Ticket.created_at Ticket.updated_at
    Ticket.assigned_to_ai_squad].
  repeat split; eauto.
Qed.

(** The ticket is extracted as soon as the page is an object (anything
    but [null] and [undefined]) and each extractor returns on its field. *)
Lemma extractTicket_returns (page : value) :
  nullish page = false ->
  returns (extractMultiSelect (pageProperty page "Application")) = true ->
  returns (extractMultiSelect (pageProperty page "Area")) = true ->
  returns (extractPlainText (pageProperty page "Ticket")) = true ->
  returns (extractPlainText (pageProperty page "Summary")) = true ->
  returns (extractPlainText (pageProperty page "Branch")) = true ->
  returns (extractPlainText (pageProperty page "Commit")) = true ->
  returns (extractRelationIds (pageProperty page "Dependency")) = true ->
  returns (extractRelationIds (pageProperty page "Blocks ")) = true ->
  returns (isAssignedToAISquad AI_SQUAD_ID (pageProperty page "Assignee")) = true ->
  exists t, extractTicket AI_SQUAD_ID page = Normal t.
Proof.
  intros Hpage. unfold extractTicket, pageProperty.
  destruct (get_defined page "properties" Hpage) as [found ->].
  destruct (get_defined page "id" Hpage) as [id ->].
  destruct (get_defined page "created_time" Hpage) as [created ->].
  destruct (get_defined page "last_edited_time" Hpage) as [updated ->].
  cbv zeta. simpl.
  set (prop := fun k => match get (coalesce found (Obj [])) k with
                        | Normal v => v
                        | Throw _ => Undefined
                        end).
  change (match get (coalesce found (Obj [])) ?k with
          | Normal v => v
          | Throw _ => Undefined
          end) with (prop k).
  intros H1 H2 H3 H4 H5 H6 H7 H8 H9.
  repeat match goal with
    | H : returns ?c = true |- _ =>
        let E := fresh "E" in destruct c eqn:E; [clear H|discriminate H]
    end.
  simpl.
  destruct (extractSelect_returns (prop "Status")) as (? & -> & _).
  destruct (extractUrl_returns (prop "Spec URL")) as (? & ->).
  destruct (extractDate_returns (prop "Due")) as (? & ->).
  destruct (extractSelect_returns (prop "Feature")) as (? & -> & _).
  destruct (extractDate_returns (prop "Resolved At")) as (? & ->).
  destruct (extractSelect_returns (prop "Type")) as (? & -> & _).
  destruct (extractSelect_returns (prop "Priority")) as (? & -> & _).
  simpl. eexists; reflexivity.
Qed.

(** On an absent field ([undefined]), a [null] one, or any other falsy
    value, each extractor gives its neutral default. *)
Lemma extract_absent (prop : value) :
  truthy prop = false ->
  extractPlainText prop = Normal Null
  /\ extractSelect prop = Normal Null
  /\ extractMultiSelect prop = Normal []
  /\ extractUrl prop = Normal Null
  /\ extractDate prop = Normal Null
  /\ extractRelationIds prop = Normal []
  /\ extractAssigneeIds prop = Normal []
  /\ isAssignedToAISquad AI_SQUAD_ID prop = Normal (String.eqb AI_SQUAD_ID "").
Proof.
  intros H.
  unfold extractPlainText, extractSelect, extractMultiSelect, extractUrl,
    extractDate, extractRelationIds, isAssignedToAISquad, extractAssigneeIds.
  rewrite H. simpl. repeat split.
  now destruct (String.eqb AI_SQUAD_ID "").
Qed.

End TicketFacts.

(** C7, as stated, fails: a remote status outside the declared values is
    neither refused nor replaced by "Open"; it becomes the ticket's
    status. *)
Lemma extractTicket_status_outside_enum :
  exists t, extractTicket "" archived_page = Normal t
            /\ Ticket.status t = Str "Archived"
            /\ includes_value ShipyardStatus (Ticket.status t) = false.
Proof. eexists. repeat split. Qed.

(** C7, amended.  Reading the status never raises, whatever the Status
    field holds.  The ticket's status is the name the remote field
    carries when there is one, unchanged, and "Open" when the field is
    absent or carries no name; so it is one of the declared values exactly
    when the remote name is absent or is itself one of them. *)
Theorem extractTicket_status :
  (forall prop, exists name, extractSelect prop = Normal name)
  /\ (forall name, extractSelect (statusField name) = Normal (coalesce name Null))
  /\ (forall AI_SQUAD_ID page t,
        extractTicket AI_SQUAD_ID page = Normal t ->
        exists name,
          extractSelect (pageProperty page "Status") = Normal name
          /\ Ticket.status t = coalesce name (Str "Open")
          /\ (truthy (pageProperty page "Status") = false ->
              Ticket.status t = Str "Open")
          /\ (nullish name = false -> Ticket.status t = name)
          /\ (includes_value ShipyardStatus (Ticket.status t) = true <->
              name = Null \/ includes_value ShipyardStatus name = true)).
Proof.
  split; [|split].
  - intros prop. destruct (extractSelect_returns prop) as (v & E & _). eauto.
  - intros name. unfold extractSelect, statusField. simpl.
    unfold opt_get. simpl. reflexivity.
  - intros AI page t H.
    destruct (extractTicket_fields AI page t H)
      as (_ & _ & _ & _ & (name & Ename & Hstatus) & _).
    exists name. split; [exact Ename|]. split; [exact Hstatus|].
    destruct (extractSelect_returns (pageProperty page "Status"))
      as (v & Ev & Hv).
    rewrite Ename in Ev. injection Ev as <-.
    repeat split.
    + intros Hfalsy.
      destruct (extract_absent AI _ Hfalsy) as (_ & Eabsent & _).
      rewrite Eabsent in Ename. injection Ename as <-. exact Hstatus.
    + intros Hname. rewrite Hstatus. unfold coalesce. now rewrite Hname.
    + rewrite Hstatus. destruct Hv as [->|Hname]; [now left|].
      unfold coalesce. rewrite Hname. now right.
    + rewrite Hstatus. intros [->|Hin]; [reflexivity|].
      destruct Hv as [->|Hname]; [reflexivity|].
      unfold coalesce. now rewrite Hname.
Qed.

Lemma extractTicket_status_witness :
  exists t name,
    extractTicket "" archived_page = Normal t
    /\ extractSelect (pageProperty archived_page "Status") = Normal name
    /\ Ticket.status t = coalesce name (Str "Open").
Proof.
  destruct extractTicket_status as (_ & _ & H).
  destruct (H "" archived_page _ eq_refl) as (name & E & S & _).
  eexists; exists name. repeat split; [exact E | exact S].
Defined.

(** C8, as stated, fails: a payload that is not an array, or an array
    holding [null], makes the plain-text and the collection extractors
    raise, and [extractTicket] with them. *)
Lemma extractors_raise_on_malformed :
  extractPlainText (Obj [("type", Str "rich_text"); ("rich_text", Arr [Null])])
  = Throw TypeError
  /\ extractPlainText (Obj [("type", Str "title"); ("title", Str "plain")])
     = Throw TypeError
  /\ extractMultiSelect (Obj [("type", Str "multi_select"); ("multi_select", Arr [Null])])
     = Throw TypeError
  /\ extractRelationIds (Obj [("type", Str "relation"); ("relation", Num "3")])
     = Throw TypeError
  /\ extractAssigneeIds (Obj [("type", Str "people"); ("people", Arr [Null])])
     = Throw TypeError
  /\ extractTicket ""
       (Obj [("id", Str "page-8");
             ("properties",
              Obj [("Summary",
                    Obj [("type", Str "rich_text"); ("rich_text", Arr [Null])])])])
     = Throw TypeError.
Proof. repeat split. Qed.

Lemma extractTicket_bare (AI_SQUAD_ID : string) (page : value) :
  nullish page = false ->
  (forall k, truthy (pageProperty page k) = false) ->
  exists id created updated,
    get page "id" = Normal id
    /\ get page "created_time" = Normal created
    /\ get page "last_edited_time" = Normal updated
    /\ extractTicket AI_SQUAD_ID page
       = Normal (bareTicket AI_SQUAD_ID id created updated).
Proof.
  intros Hpage Hnone. unfold extractTicket. revert Hnone. unfold pageProperty.
  destruct (get_defined page "properties" Hpage) as [found ->].
  destruct (get_defined page "id" Hpage) as [id ->].
  destruct (get_defined page "created_time" Hpage) as [created ->].
  destruct (get_defined page "last_edited_time" Hpage) as [updated ->].
  cbv zeta. simpl. intros Hnone.
  exists id, created, updated. repeat split.
  repeat match goal with
    | |- context [?f (match get (coalesce found (Obj [])) ?k with
                      | Normal v => v
                      | Throw _ => Undefined
                      end)] =>
        let A := fresh "A" in
        pose proof (extract_absent AI_SQUAD_ID _ (Hnone k)) as A;
        destruct A as (A1 & A2 & A3 & A4 & A5 & A6 & _ & A8);
        rewrite ?A1, ?A2, ?A3, ?A4, ?A5, ?A6, ?A8; clear A1 A2 A3 A4 A5 A6 A8;
        simpl
    end.
  reflexivity.
Qed.

Section WellFormed.

Variable AI_SQUAD_ID : string.

Lemma payload_get (prop : value) (k : string) (v : value) :
  get prop k = Normal v -> payload prop k = v.
Proof. unfold payload. now intros ->. Qed.

Lemma wellFormed_returns (prop : value) :
  wellFormed prop = true ->
  returns (extractPlainText prop) = true
  /\ returns (extractMultiSelect prop) = true
  /\ returns (extractRelationIds prop) = true
  /\ returns (extractAssigneeIds prop) = true
  /\ returns (isAssignedToAISquad AI_SQUAD_ID prop) = true.
Proof.
  unfold wellFormed. intros H.
  repeat (apply andb_prop in H as [H ?]).
  assert (returns (extractAssigneeIds prop) = true) as Hpeople.
  { destruct (extractAssigneeIds_returns prop) as [xs ->]; [|reflexivity].
    intros who E. now rewrite <- (payload_get _ _ _ E). }
  repeat split.
  - destruct (extractPlainText_returns prop) as (v & -> & _); [| |reflexivity];
      intros spans E; now rewrite <- (payload_get _ _ _ E).
  - destruct (extractMultiSelect_returns prop) as [xs ->]; [|reflexivity].
    intros opts E. now rewrite <- (payload_get _ _ _ E).
  - destruct (extractRelationIds_returns prop) as [xs ->]; [|reflexivity].
    intros rel E. now rewrite <- (payload_get _ _ _ E).
  - exact Hpeople.
  - unfold isAssignedToAISquad. destruct (String.eqb AI_SQUAD_ID ""); [reflexivity|].
    now destruct (extractAssigneeIds prop).
Qed.

Lemma extractPlainText_value (prop v : value) :
  extractPlainText prop = Normal v ->
  v = Null \/ exists s, v = Str s /\ s <> "".
Proof.
  assert (spans_value : forall spans,
    (if nullish spans then Normal Null else
     parts <- map_method spans (fun t => get t "plain_text") ;;
     text <- join parts "" ;;
     Normal (or_else (Str text) Null)) = Normal v ->
    v = Null \/ exists s, v = Str s /\ s <> "").
  { intros spans. destruct (nullish spans); [intros [= <-]; now left|].
    destruct (map_method spans _) as [parts|]; simpl; [|discriminate].
    destruct (join parts "") as [text|]; simpl; [|discriminate].
    unfold or_else. simpl. destruct (String.eqb_spec text ""); simpl;
      intros [= <-]; [now left|right; eauto]. }
  unfold extractPlainText.
  destruct (truthy prop); simpl; [|intros [= <-]; now left].
  destruct (get prop "type") as [ty|]; simpl; [|discriminate].
  destruct (is_str ty "rich_text").
  - destruct (get prop "rich_text") as [spans|]; simpl; [|discriminate].
    apply spans_value.
  - destruct (is_str ty "title"); [|intros [= <-]; now left].
    destruct (get prop "title") as [spans|]; simpl; [|discriminate].
    apply spans_value.
Qed.

(** A field of a type the extractor does not handle gives the default. *)
Lemma extract_other_type (prop ty : value) :
  get prop "type" = Normal ty ->
  (is_str ty "rich_text" = false -> is_str ty "title" = false ->
   extractPlainText prop = Normal Null)
  /\ (is_str ty "select" = false -> is_str ty "status" = false ->
      extractSelect prop = Normal Null)
  /\ (is_str ty "multi_select" = false -> is_str ty "select" = false ->
      extractMultiSelect prop = Normal [])
  /\ (is_str ty "url" = false -> extractUrl prop = Normal Null)
  /\ (is_str ty "date" = false -> extractDate prop = Normal Null)
  /\ (is_str ty "relation" = false -> extractRelationIds prop = Normal [])
  /\ (is_str ty "people" = false -> extractAssigneeIds prop = Normal []).
Proof.
  intros Hty.
  unfold extractPlainText, extractSelect, extractMultiSelect, extractUrl,
    extractDate, extractRelationIds, extractAssigneeIds.
  rewrite Hty. cbn [Js.bind].
  repeat split; intros; destruct (truthy prop); simpl;
    repeat match goal with H : is_str _ _ = false |- _ => rewrite H; clear H end;
    reflexivity.
Qed.

(** A field of the right type whose payload is absent or [null] gives the
    default. *)
Lemma extract_no_payload (prop : value) :
  (nullish (payload prop "rich_text") = true ->
   nullish (payload prop "title") = true ->
   extractPlainText prop = Normal Null)
  /\ (nullish (payload prop "select") = true ->
      nullish (payload prop "status") = true ->
      extractSelect prop = Normal Null)
  /\ (nullish (payload prop "multi_select") = true ->
      nullish (payload prop "select") = true ->
      extractMultiSelect prop = Normal [])
  /\ (nullish (payload prop "url") = true -> extractUrl prop = Normal Null)
  /\ (nullish (payload prop "date") = true -> extractDate prop = Normal Null)
  /\ (nullish (payload prop "relation") = true -> extractRelationIds prop = Normal [])
  /\ (nullish (payload prop "people") = true -> extractAssigneeIds prop = Normal []).
Proof.
  unfold extractPlainText, extractSelect, extractMultiSelect, extractUrl,
    extractDate, extractRelationIds, extractAssigneeIds, payload.
  destruct (truthy prop) eqn:T; simpl; [|repeat split].
  pose proof (truthy_not_nullish _ T) as N.
  destruct (get_defined prop "type" N) as [ty ->]. cbn [Js.bind].
  destruct (get_defined prop "rich_text" N) as [? ->].
  destruct (get_defined prop "title" N) as [? ->].
  destruct (get_defined prop "select" N) as [? ->].
  destruct (get_defined prop "status" N) as [? ->].
  destruct (get_defined prop "multi_select" N) as [? ->].
  destruct (get_defined prop "url" N) as [? ->].
  destruct (get_defined prop "date" N) as [? ->].
  destruct (get_defined prop "relation" N) as [? ->].
  destruct (get_defined prop "people" N) as [? ->].
  cbn [Js.bind]. unfold opt_get, coalesce.
  repeat split; intros;
    repeat match goal with H : nullish _ = true |- _ => rewrite H; clear H end;
    repeat match goal with |- context [if ?c then _ else _] => destruct c end;
    reflexivity.
Qed.

End WellFormed.

(** C8, amended.  The single-choice, url and date extractors never raise.
    The plain-text, multi-choice, relation and person extractors do not
    raise on a well-formed field: one whose payloads are absent, [null],
    or arrays without [null] whose text parts can be rendered.  On an
    absent, [null] or otherwise falsy field, on a field of a type it does
    not handle, and on a field whose payload is absent or [null], every
    extractor gives its neutral default.  The normalizer returns a ticket
    for every page
    object whose fields are well-formed or missing; a missing field gives
    the attribute its neutral default, the title is "(untitled)" when the
    page has no title text and is never empty, and a page with no
    optional field at all gives the ticket of neutral defaults. *)
Theorem extractors_degrade_to_defaults :
  (forall prop,
      returns (extractSelect prop) = true
      /\ returns (extractUrl prop) = true
      /\ returns (extractDate prop) = true)
  /\ (forall AI_SQUAD_ID prop,
        wellFormed prop = true ->
        returns (extractPlainText prop) = true
        /\ returns (extractMultiSelect prop) = true
        /\ returns (extractRelationIds prop) = true
        /\ returns (extractAssigneeIds prop) = true
        /\ returns (isAssignedToAISquad AI_SQUAD_ID prop) = true)
  /\ (forall AI_SQUAD_ID prop,
        truthy prop = false ->
        extractPlainText prop = Normal Null
        /\ extractSelect prop = Normal Null
        /\ extractMultiSelect prop = Normal []
        /\ extractUrl prop = Normal Null
        /\ extractDate prop = Normal Null
        /\ extractRelationIds prop = Normal []
        /\ extractAssigneeIds prop = Normal []
        /\ isAssignedToAISquad AI_SQUAD_ID prop = Normal (String.eqb AI_SQUAD_ID ""))
  /\ (forall prop ty,
        get prop "type" = Normal ty ->
        (is_str ty "rich_text" = false -> is_str ty "title" = false ->
         extractPlainText prop = Normal Null)
        /\ (is_str ty "select" = false -> is_str ty "status" = false ->
            extractSelect prop = Normal Null)
        /\ (is_str ty "multi_select" = false -> is_str ty "select" = false ->
            extractMultiSelect prop = Normal [])
        /\ (is_str ty "url" = false -> extractUrl prop = Normal Null)
        /\ (is_str ty "date" = false -> extractDate prop = Normal Null)
        /\ (is_str ty "relation" = false -> extractRelationIds prop = Normal [])
        /\ (is_str ty "people" = false -> extractAssigneeIds prop = Normal []))
  /\ (forall prop,
        (nullish (payload prop "rich_text") = true ->
         nullish (payload prop "title") = true ->
         extractPlainText prop = Normal Null)
        /\ (nullish (payload prop "select") = true ->
            nullish (payload prop "status") = true ->
            extractSelect prop = Normal Null)
        /\ (nullish (payload prop "multi_select") = true ->
            nullish (payload prop "select") = true ->
            extractMultiSelect prop = Normal [])
        /\ (nullish (payload prop "url") = true -> extractUrl prop = Normal Null)
        /\ (nullish (payload prop "date") = true -> extractDate prop = Normal Null)
        /\ (nullish (payload prop "relation") = true ->
            extractRelationIds prop = Normal [])
        /\ (nullish (payload prop "people") = true ->
            extractAssigneeIds prop = Normal []))
  /\ (forall AI_SQUAD_ID page,
        nullish page = false ->
        (forall k, wellFormed (pageProperty page k) = true) ->
        exists t, extractTicket AI_SQUAD_ID page = Normal t)
  /\ (forall AI_SQUAD_ID page t,
        extractTicket AI_SQUAD_ID page = Normal t ->
        let missing k := truthy (pageProperty page k) = false in
        (exists s, Ticket.title t = Str s /\ s <> "")
        /\ (missing "Ticket" -> Ticket.title t = Str "(untitled)")
        /\ (missing "Status" -> Ticket.status t = Str "Open")
        /\ (missing "Summary" -> Ticket.summary t = Null)
        /\ (missing "Spec URL" -> Ticket.spec_url t = Null)
        /\ (missing "Due" -> Ticket.due t = Null)
        /\ (missing "Branch" -> Ticket.branch t = Null)
        /\ (missing "Commit" -> Ticket.commit t = Null)
        /\ (missing "Feature" -> Ticket.feature t = Null)
        /\ (missing "Resolved At" -> Ticket.resolved_at t = Null)
        /\ (missing "Area" -> Ticket.area t = Null)
        /\ (missing "Application" -> Ticket.application t = Null)
        /\ (missing "Type" -> Ticket.type t = Null)
        /\ (missing "Priority" -> Ticket.priority t = Null)
        /\ (missing "Dependency" -> Ticket.blocked_by t = [])
        /\ (missing "Blocks " -> Ticket.blocks t = [])
        /\ (missing "Assignee" ->
            Ticket.assigned_to_ai_squad t = String.eqb AI_SQUAD_ID ""))
  /\ (forall AI_SQUAD_ID page,
        nullish page = false ->
        (forall k, truthy (pageProperty page k) = false) ->
        exists id created updated,
          extractTicket AI_SQUAD_ID page
          = Normal (bareTicket AI_SQUAD_ID id created updated)).
Proof.
  split; [|split; [|split; [|split; [|split; [|split; [|split]]]]]].
  - intros prop.
    destruct (extractSelect_returns prop) as (? & -> & _).
    destruct (extractUrl_returns prop) as (? & ->).
    destruct (extractDate_returns prop) as (? & ->).
    repeat split.
  - intros AI prop. apply wellFormed_returns.
  - intros AI prop. apply extract_absent.
  - apply extract_other_type.
  - apply extract_no_payload.
  - intros AI page Hpage Hfields.
    apply extractTicket_returns; try assumption;
      now apply (wellFormed_returns AI _ (Hfields _)).
  - intros AI page t H missing.
    destruct (extractTicket_fields AI page t H)
      as ((apps & Eapps & Happ) & (areas & Eareas & Harea) & _
          & (title & Etitle & Htitle) & (status & Estatus & Hstatus)
          & Esummary & Eurl & Edue & Ebranch & Ecommit & Efeature & Eresolved
          & Etype & (prio & Eprio & Hprio) & Edep & Eblocks & _ & _ & Eassigned).
    unfold missing.
    repeat split;
      try (intros Hk;
           destruct (extract_absent AI _ Hk)
             as (A1 & A2 & A3 & A4 & A5 & A6 & A7 & A8);
           congruence).
    + rewrite Htitle.
      destruct (extractPlainText_value _ _ Etitle) as [->|(s & -> & Hs)].
      * exists "(untitled)". split; [reflexivity|discriminate].
      * exists s. split; [reflexivity|exact Hs].
    + intros Hk. destruct (extract_absent AI _ Hk) as (A1 & _).
      rewrite A1 in Etitle. injection Etitle as <-. exact Htitle.
    + intros Hk. destruct (extract_absent AI _ Hk) as (_ & A2 & _).
      rewrite A2 in Estatus. injection Estatus as <-. exact Hstatus.
    + intros Hk. destruct (extract_absent AI _ Hk) as (_ & _ & A3 & _).
      rewrite A3 in Eareas. injection Eareas as <-. exact Harea.
    + intros Hk. destruct (extract_absent AI _ Hk) as (_ & _ & A3 & _).
      rewrite A3 in Eapps. injection Eapps as <-. exact Happ.
    + intros Hk. destruct (extract_absent AI _ Hk) as (_ & A2 & _).
      rewrite A2 in Eprio. injection Eprio as <-. exact Hprio.
  - intros AI page Hpage Hnone.
    destruct (extractTicket_bare AI page Hpage Hnone)
      as (id & created & updated & _ & _ & _ & E).
    eauto.
Qed.

Lemma extractors_degrade_to_defaults_witness :
  exists t,
    extractTicket "" sparse_page = Normal t
    /\ truthy (pageProperty sparse_page "Ticket") = false
    /\ Ticket.title t = Str "(untitled)"
    /\ wellFormed (pageProperty sparse_page "Summary") = true.
Proof.
  destruct extractors_degrade_to_defaults as (_ & _ & _ & _ & _ & _ & H & _).
  destruct (H "" sparse_page _ eq_refl) as (_ & Htitle & _).
  eexists. split; [reflexivity|]. split; [reflexivity|].
  split; [exact (Htitle eq_refl)|reflexivity].
Defined.

(* ===================================================================== *)
(** ** The paginated fetch *)

Section Pagination.

Variable dsId : value.
Variable ds : string.
Hypothesis dsId_text : toString dsId = Normal ds.

Ltac open_loop :=
  cbn [fetchPagesLoop]; unfold bindM, lift, notionFetch, bindM, emit, sleep, emit,
    ret, throw; rewrite dsId_text; cbn [Js.bind].

Lemma loop_next (fuel : nat) (cursor : value) (pages : list value) (w : World)
      (data : value) (items : list value) (next : value) (left : list value) :
  remote w = data :: left ->
  serves data items next -> truthy next = true ->
  fetchPagesLoop (S fuel) dsId cursor pages w
  = fetchPagesLoop fuel dsId next (pages ++ items)%list
      (served w left [queryRequest ds cursor; Sleep RATE_LIMIT_DELAY]).
Proof.
  intros Hremote (Hdata & Herr & Hitems & Hnext) Htruthy.
  open_loop. simpl. rewrite Hremote.
  unfold isError in Herr. unfold resultsOf in Hitems. unfold nextCursor in Hnext.
  destruct (get_defined data "object" Hdata) as [o Eo]. rewrite Eo in *.
  cbn [Js.bind]. rewrite Herr. rewrite Hitems. cbn [Js.bind].
  destruct (get_defined data "has_more" Hdata) as [more Emore]. rewrite Emore in *.
  destruct (truthy more).
  - destruct (get_defined data "next_cursor" Hdata) as [c Ec]. rewrite Ec in *.
    subst c. rewrite Htruthy. unfold served. simpl.
    now rewrite <- app_assoc.
  - subst next. discriminate.
Qed.

Lemma loop_last (fuel : nat) (cursor : value) (pages : list value) (w : World)
      (data : value) (items : list value) (next : value) (left : list value) :
  remote w = data :: left ->
  serves data items next -> truthy next = false ->
  fetchPagesLoop (S fuel) dsId cursor pages w
  = (Normal (pages ++ items)%list, served w left [queryRequest ds cursor]).
Proof.
  intros Hremote (Hdata & Herr & Hitems & Hnext) Hfalsy.
  open_loop. simpl. rewrite Hremote.
  unfold isError in Herr. unfold resultsOf in Hitems. unfold nextCursor in Hnext.
  destruct (get_defined data "object" Hdata) as [o Eo]. rewrite Eo in *.
  cbn [Js.bind]. rewrite Herr. rewrite Hitems. cbn [Js.bind].
  destruct (get_defined data "has_more" Hdata) as [more Emore]. rewrite Emore in *.
  destruct (truthy more).
  - destruct (get_defined data "next_cursor" Hdata) as [c Ec]. rewrite Ec in *.
    subst c. rewrite Hfalsy. reflexivity.
  - reflexivity.
Qed.

Lemma loop_error (fuel : nat) (cursor : value) (pages : list value) (w : World)
      (data message : value) (text : string) (left : list value) :
  remote w = data :: left ->
  isError data = true ->
  get data "message" = Normal message -> toString message = Normal text ->
  fetchPagesLoop (S fuel) dsId cursor pages w
  = (Throw (Error ("Data source query error: " ++ text)),
     served w left [queryRequest ds cursor]).
Proof.
  intros Hremote Herr Hmessage Htext.
  open_loop. simpl. rewrite Hremote.
  unfold isError in Herr.
  destruct (get data "object") as [o|]; [|discriminate].
  cbn [Js.bind]. rewrite Herr, Hmessage. cbn [Js.bind]. rewrite Htext.
  reflexivity.
Qed.

Lemma served_served (w : World) (l1 l2 : list value) (e1 e2 : list Event) :
  served (served w l1 e1) l2 e2 = served w l2 (e1 ++ e2)%list.
Proof. unfold served. simpl. now rewrite app_assoc. Qed.

Lemma last_any (x : value) (l : list value) (d d' : value) :
  last (x :: l) d = last (x :: l) d'.
Proof.
  revert x; induction l as [|y l IH]; intros x; [reflexivity|].
  change (last (y :: l) d = last (y :: l) d'). apply IH.
Qed.

(** Along a chain the loop goes from page to page. *)
Lemma loop_chain (chain : list value) (results : list (list value)) (nexts : list value) :
  Chain chain results nexts ->
  forall (fuel : nat) (cursor : value) (pages : list value) (w : World)
         (left : list value),
    remote w = (chain ++ left)%list ->
    fetchPagesLoop (List.length chain + fuel) dsId cursor pages w
    = fetchPagesLoop fuel dsId (last nexts cursor) (pages ++ concat results)%list
        (served w left
           (flat_map (fun c => [queryRequest ds c; Sleep RATE_LIMIT_DELAY])
              (removelast (cursor :: nexts)))).
Proof.
  induction 1 as [|data items next rest more nexts Hserves Htruthy Hchain IH];
    intros fuel cursor pages w left Hremote.
  - simpl in *. rewrite app_nil_r. unfold served. rewrite app_nil_r.
    destruct w; simpl in *; now subst.
  - cbn [List.length Nat.add].
    rewrite (loop_next _ cursor pages w data items next (rest ++ left)%list
               Hremote Hserves Htruthy).
    rewrite (IH fuel next (pages ++ items)%list
               (served w (rest ++ left)%list
                  [queryRequest ds cursor; Sleep RATE_LIMIT_DELAY])
               left eq_refl).
    rewrite served_served. cbn [concat]. rewrite <- app_assoc.
    destruct nexts as [|v nexts]; [reflexivity|].
    change (last (next :: v :: nexts) cursor) with (last (v :: nexts) cursor).
    now rewrite (last_any v nexts cursor next).
Qed.

End Pagination.

Section Traversal.

Lemma traversal_chain (ds : string) (nexts : list value) (cursor : value) :
  (flat_map (fun c => [queryRequest ds c; Sleep RATE_LIMIT_DELAY])
     (removelast (cursor :: nexts))
   ++ [queryRequest ds (last nexts cursor)])%list
  = traversal ds (cursor :: nexts).
Proof.
  revert cursor; induction nexts as [|next nexts IH]; intros cursor;
    [reflexivity|].
  change (traversal ds (cursor :: next :: nexts))
    with (queryRequest ds cursor :: Sleep RATE_LIMIT_DELAY
          :: traversal ds (next :: nexts)).
  change (removelast (cursor :: next :: nexts))
    with (cursor :: removelast (next :: nexts)).
  rewrite <- (IH next). cbn [flat_map app].
  do 4 f_equal.
  destruct nexts as [|v nexts]; [reflexivity|].
  change (last (next :: v :: nexts) cursor) with (last (v :: nexts) cursor).
  now rewrite (last_any v nexts cursor next).
Qed.

Lemma traversal_requests (ds : string) (cursors : list value) :
  requests (traversal ds cursors) = map (queryRequest ds) cursors.
Proof.
  induction cursors as [|c [|c' rest] IH]; try reflexivity.
  change (traversal ds (c :: c' :: rest))
    with (queryRequest ds c :: Sleep RATE_LIMIT_DELAY :: traversal ds (c' :: rest)).
  cbn [requests filter queryRequest]. fold (requests (traversal ds (c' :: rest))).
  now rewrite IH.
Qed.

(** The fuel handed to the loop is never what stops it: any two amounts
    above the number of responses left give the same run. *)
Lemma fetchPagesLoop_fuel (dsId : value) :
  forall (fuel fuel' : nat) (cursor : value) (pages : list value) (w : World),
    List.length (remote w) < fuel -> List.length (remote w) < fuel' ->
    fetchPagesLoop fuel dsId cursor pages w
    = fetchPagesLoop fuel' dsId cursor pages w.
Proof.
  induction fuel as [|fuel IH]; intros [|fuel'] cursor pages w H H'; try lia.
  cbn [fetchPagesLoop]. unfold bindM, lift, notionFetch, bindM, emit.
  destruct (toString dsId) as [ds|]; cbn [Js.bind]; [|reflexivity].
  simpl. destruct (remote w) as [|data left] eqn:Hremote; [reflexivity|].
  destruct (get data "object") as [o|]; [|reflexivity].
  destruct (is_str o "error"); [reflexivity|].
  destruct (Js.bind (get data "results") _) as [items|]; [|reflexivity].
  destruct (get data "has_more") as [more|]; [|reflexivity].
  destruct (truthy more); unfold ret.
  - destruct (get data "next_cursor") as [next|]; [|reflexivity].
    destruct (truthy next); [|reflexivity].
    unfold sleep, emit. apply IH; simpl in *; lia.
  - simpl. reflexivity.
Qed.

End Traversal.

(** C3. Against a remote that serves a chain of pages, each handing out
    the cursor of the next, and then a last page with no further cursor,
    the fetch makes one listing request per page, the first without a
    cursor and each later one with the cursor the page before handed
    out (three requests for the cursors A, B, null), pauses between two
    requests, and returns the pages' results put together in that order.
    If instead an error object comes back, at whatever page, the fetch
    throws "Data source query error: ..." and hands back none of the
    results read before; no request follows the error. *)
Theorem fetchAllShipyardPages_traversal :
  forall (DB_ID : string) (w w1 : World) (dsId : value) (ds : string)
         (chain : list value) (results : list (list value)) (nexts : list value)
         (final : value) (extra : list value),
    resolveDataSourceId DB_ID w = (Normal dsId, w1) ->
    toString dsId = Normal ds ->
    Chain chain results nexts ->
    remote w1 = (chain ++ final :: extra)%list ->
    (forall items next,
        serves final items next -> truthy next = false ->
        fetchAllShipyardPages DB_ID w
        = (Normal (concat (results ++ [items])),
           served w1 extra (traversal ds (Undefined :: nexts)))
        /\ requests (traversal ds (Undefined :: nexts))
           = map (queryRequest ds) (Undefined :: nexts)
        /\ List.length (requests (traversal ds (Undefined :: nexts)))
           = List.length (nexts ++ [next]))
    /\ (forall message text,
          isError final = true ->
          get final "message" = Normal message ->
          toString message = Normal text ->
          fetchAllShipyardPages DB_ID w
          = (Throw (Error ("Data source query error: " ++ text)),
             served w1 extra (traversal ds (Undefined :: nexts)))).
Proof.
  intros DB w w1 dsId ds chain results nexts final extra Hres Hds Hchain Hremote.
  assert (Hrun : fetchAllShipyardPages DB w
                 = fetchPagesLoop (S (S (List.length extra))) dsId
                     (last nexts Undefined) (concat results)
                     (served w1 (final :: extra)
                        (flat_map (fun c => [queryRequest ds c; Sleep RATE_LIMIT_DELAY])
                           (removelast (Undefined :: nexts))))).
  { unfold fetchAllShipyardPages, bindM. rewrite Hres.
    replace (S (List.length (remote w1)))
      with (List.length chain + S (S (List.length extra)))
      by (rewrite Hremote, length_app; simpl; lia).
    now rewrite (loop_chain dsId ds Hds chain results nexts Hchain
                   _ Undefined [] w1 (final :: extra) Hremote). }
  split.
  - intros items next Hserves Hfalsy. split; [|split].
    + rewrite Hrun.
      erewrite (loop_last dsId ds Hds);
        [|reflexivity|exact Hserves|exact Hfalsy].
      rewrite served_served, traversal_chain, concat_app. simpl.
      now rewrite app_nil_r.
    + apply traversal_requests.
    + rewrite traversal_requests, length_map, length_app. simpl. lia.
  - intros message text Herr Hmessage Htext.
    rewrite Hrun.
    erewrite (loop_error dsId ds Hds);
      [|reflexivity|exact Herr|exact Hmessage|exact Htext].
    now rewrite served_served, traversal_chain.
Qed.

Lemma fetchAllShipyardPages_traversal_witness :
  fetchAllShipyardPages "db"
    (world_ready [listPage [Str "t1"; Str "t2"] (Str "A");
                  listPage [Str "t3"] (Str "B");
                  listPage [Str "t4"] Null] None)
  = (Normal [Str "t1"; Str "t2"; Str "t3"; Str "t4"],
     served (world_ready [] None) []
       [queryRequest "ds-1" Undefined; Sleep 350;
        queryRequest "ds-1" (Str "A"); Sleep 350;
        queryRequest "ds-1" (Str "B")])
  /\ fetchAllShipyardPages "db"
       (world_ready [listPage [Str "t1"; Str "t2"] (Str "A");
                     errorObject "rate limited";
                     listPage [Str "t4"] Null] None)
     = (Throw (Error "Data source query error: rate limited"),
        served (world_ready [] None) [listPage [Str "t4"] Null]
          [queryRequest "ds-1" Undefined; Sleep 350;
           queryRequest "ds-1" (Str "A")]).
Proof.
  split.
  - assert (Hchain : Chain [listPage [Str "t1"; Str "t2"] (Str "A");
                            listPage [Str "t3"] (Str "B")]
                           [[Str "t1"; Str "t2"]; [Str "t3"]]
                           [Str "A"; Str "B"]).
    { apply Chain_cons; [unfold serves; repeat apply conj; reflexivity|reflexivity|].
      apply Chain_cons; [unfold serves; repeat apply conj; reflexivity|reflexivity|]. apply Chain_nil. }
    destruct (fetchAllShipyardPages_traversal "db"
                (world_ready [listPage [Str "t1"; Str "t2"] (Str "A");
                              listPage [Str "t3"] (Str "B");
                              listPage [Str "t4"] Null] None)
                _ (Str "ds-1") "ds-1" _ _ _ (listPage [Str "t4"] Null) []
                eq_refl eq_refl Hchain eq_refl) as [Hlisting _].
    assert (Hlast : serves (listPage [Str "t4"] Null) [Str "t4"] Undefined)
      by (unfold serves; repeat apply conj; reflexivity).
    destruct (Hlisting [Str "t4"] Undefined Hlast eq_refl) as [Hrun _].
    exact Hrun.
  - assert (Hchain : Chain [listPage [Str "t1"; Str "t2"] (Str "A")]
                           [[Str "t1"; Str "t2"]] [Str "A"]).
    { apply Chain_cons; [unfold serves; repeat apply conj; reflexivity|reflexivity|]. apply Chain_nil. }
    destruct (fetchAllShipyardPages_traversal "db"
                (world_ready [listPage [Str "t1"; Str "t2"] (Str "A");
                              errorObject "rate limited";
                              listPage [Str "t4"] Null] None)
                _ (Str "ds-1") "ds-1" _ _ _ (errorObject "rate limited")
                [listPage [Str "t4"] Null]
                eq_refl eq_refl Hchain eq_refl) as [_ Herror].
    exact (Herror (Str "rate limited") "rate limited" eq_refl eq_refl eq_refl).
Defined.

(* ===================================================================== *)
(** ** Sorting with a comparator that follows a key *)

Section SortFacts.

Context {A K : Type}.
Variable cmp : A -> A -> completion Z.
Variable key : A -> K.
Variable kle : K -> K -> bool.
Variable keq : K -> K -> bool.

(** The elements the comparator is known on. *)
Variable known : A -> Prop.

Hypothesis cmp_key :
  forall a b, known a -> known b ->
              exists z, cmp a b = Normal z /\ (z <=? 0)%Z = kle (key a) (key b).
Hypothesis kle_total : forall j k, kle j k = true \/ kle k j = true.
Hypothesis kle_trans :
  forall i j k, kle i j = true -> kle j k = true -> kle i k = true.
Hypothesis keq_eq : forall j k, keq j k = true <-> j = k.

Local Abbreviation ascending := (ascending key kle).
Local Abbreviation withKey := (withKey key keq).

(** A throw aside, sorting rearranges. *)
Lemma insert_permutation (x : A) (l r : list A) :
  insert cmp x l = Normal r -> Permutation (x :: l) r.
Proof.
  revert r; induction l as [|y l IH]; simpl; intros r H.
  - injection H as <-. apply Permutation_refl.
  - destruct (cmp x y) as [c|]; simpl in H; [|discriminate].
    destruct (c <=? 0)%Z.
    + injection H as <-. apply Permutation_refl.
    + destruct (insert cmp x l) as [r'|]; simpl in H; [|discriminate].
      injection H as <-.
      eapply Permutation_trans; [apply perm_swap|].
      apply perm_skip. now apply IH.
Qed.

Lemma sort_permutation (l s : list A) :
  sort cmp l = Normal s -> Permutation l s.
Proof.
  revert s; induction l as [|x l IH]; simpl; intros s H.
  - injection H as <-. apply perm_nil.
  - destruct (sort cmp l) as [s'|]; simpl in H; [|discriminate].
    eapply Permutation_trans; [apply perm_skip, IH; reflexivity|].
    now apply insert_permutation.
Qed.

Lemma kle_refl (k : K) : kle k k = true.
Proof. now destruct (kle_total k k). Qed.

Lemma insert_sorted (x : A) (l : list A) :
  known x -> Forall known l -> StronglySorted ascending l ->
  exists r,
    insert cmp x l = Normal r
    /\ StronglySorted ascending r
    /\ (forall k, filter (withKey k) r = filter (withKey k) (x :: l)).
Proof.
  intros Hx Hl Hsorted. induction Hsorted as [|y l Hsorted IH Hy].
  - exists [x]. repeat split. repeat constructor.
  - apply Forall_cons_iff in Hl as [Hky Hl].
    destruct (cmp_key x y Hx Hky) as (z & Ez & Hz).
    cbn [insert]. rewrite Ez. cbn [Js.bind]. rewrite Hz.
    destruct (kle (key x) (key y)) eqn:Hxy.
    + exists (x :: y :: l). split; [reflexivity|]. split; [|reflexivity].
      constructor; [now constructor|].
      constructor; [exact Hxy|].
      eapply Forall_impl; [|exact Hy]. intros a Ha.
      unfold ascending in *. now apply (kle_trans _ (key y)).
    + destruct (IH Hl) as (r & Er & Hr & Hstable).
      rewrite Er. cbn [Js.bind].
      exists (y :: r). split; [reflexivity|]. split.
      * constructor; [exact Hr|].
        apply (Permutation_Forall (insert_permutation x l r Er)).
        constructor; [|exact Hy].
        unfold ascending. destruct (kle_total (key x) (key y)); congruence.
      * intros k. cbn [filter]. rewrite (Hstable k). cbn [filter].
        destruct (withKey k y) eqn:Eyk; destruct (withKey k x) eqn:Exk;
          try reflexivity.
        unfold withKey in Eyk, Exk. apply keq_eq in Eyk, Exk. subst k.
        rewrite Exk, kle_refl in Hxy. discriminate.
Qed.

Lemma insert_known (x : A) (l r : list A) :
  known x -> Forall known l -> insert cmp x l = Normal r -> Forall known r.
Proof.
  intros Hx Hl H.
  apply (Permutation_Forall (insert_permutation x l r H)). now constructor.
Qed.

(** On known elements the sort returns the ascending, stable
    arrangement. *)
Lemma sort_sorted (l : list A) :
  Forall known l ->
  exists s,
    sort cmp l = Normal s
    /\ Permutation l s
    /\ StronglySorted ascending s
    /\ (forall k, filter (withKey k) s = filter (withKey k) l).
Proof.
  induction l as [|x l IH]; intros Hl.
  - exists []. repeat split; constructor.
  - apply Forall_cons_iff in Hl as [Hx Hl].
    destruct (IH Hl) as (s & Es & Hperm & Hsorted & Hstable).
    assert (Hs : Forall known s) by (now apply (Permutation_Forall Hperm)).
    destruct (insert_sorted x s Hx Hs Hsorted) as (r & Er & Hr & Hins).
    exists r. cbn [sort]. rewrite Es. cbn [Js.bind].
    split; [exact Er|]. split; [|split; [exact Hr|]].
    + eapply Permutation_trans; [apply perm_skip, Hperm|].
      now apply insert_permutation.
    + intros k. rewrite (Hins k). cbn [filter]. now rewrite (Hstable k).
Qed.

End SortFacts.

(* ===================================================================== *)
(** ** The ordering policy *)

Section Ordering.

Lemma string_leb_trans (a b c : string) :
  String.leb a b = true -> String.leb b c = true -> String.leb a c = true.
Proof.
  unfold String.leb.
  destruct (String.compare a b) eqn:Eab; try discriminate;
    destruct (String.compare b c) eqn:Ebc; try discriminate; intros _ _.
  - apply String.compare_eq_iff in Eab, Ebc. subst.
    replace (String.compare c c) with Eq; [reflexivity|].
    symmetry. now apply OrderedTypeEx.String_as_OT.cmp_eq.
  - apply String.compare_eq_iff in Eab. subst. now rewrite Ebc.
  - apply String.compare_eq_iff in Ebc. subst. now rewrite Eab.
  - apply OrderedTypeEx.String_as_OT.cmp_lt in Eab, Ebc.
    pose proof (OrderedTypeEx.String_as_OT.lt_trans _ _ _ Eab Ebc) as Hac.
    apply OrderedTypeEx.String_as_OT.cmp_lt in Hac.
    unfold OrderedTypeEx.String_as_OT.cmp in Hac. now rewrite Hac.
Qed.

Lemma keyLe_total (j k : bool * string) : keyLe j k = true \/ keyLe k j = true.
Proof.
  destruct j as [[|] s], k as [[|] t]; unfold keyLe; simpl; auto;
    apply String.leb_total.
Qed.

Lemma keyLe_trans (i j k : bool * string) :
  keyLe i j = true -> keyLe j k = true -> keyLe i k = true.
Proof.
  destruct i as [[|] r], j as [[|] s], k as [[|] t]; unfold keyLe; simpl;
    try discriminate; auto; apply string_leb_trans.
Qed.

Lemma keyEq_eq (j k : bool * string) : keyEq j k = true <-> j = k.
Proof.
  destruct j as [b s], k as [c t]. unfold keyEq. simpl. split.
  - intros H. apply andb_prop in H as [Hb Hs].
    apply Bool.eqb_prop in Hb. apply String.eqb_eq in Hs. congruence.
  - intros [= -> ->]. now rewrite Bool.eqb_reflx, String.eqb_refl.
Qed.

Variable localeCompare : string -> string -> Z.

(** The host's collation orders the priority tags as their code units
    do. *)
Hypothesis collation :
  forall a b, In a ShipyardPriority -> In b ShipyardPriority ->
              (localeCompare a b ?= 0)%Z = String.compare a b.

Lemma effectivePriority_declared (priority : value) :
  declaredPriority priority ->
  In (effectivePriority priority) ShipyardPriority
  /\ coalesce priority (Str "P4") = Str (effectivePriority priority).
Proof.
  intros [->|(s & Hs & ->)]; simpl; auto 10.
Qed.

Lemma compareQueue_key (a_blocked_by b_blocked_by : list value) (a_priority b_priority : value) :
  declaredPriority a_priority -> declaredPriority b_priority ->
  exists z,
    compareQueue localeCompare a_blocked_by a_priority b_blocked_by b_priority
    = Normal z
    /\ (z <=? 0)%Z = keyLe (queueKey a_blocked_by a_priority)
                           (queueKey b_blocked_by b_priority).
Proof.
  intros Ha Hb.
  destruct (effectivePriority_declared _ Ha) as [Hina Ea].
  destruct (effectivePriority_declared _ Hb) as [Hinb Eb].
  unfold compareQueue, queueKey, keyLe, blocked. simpl.
  destruct (0 <? List.length a_blocked_by)%nat, (0 <? List.length b_blocked_by)%nat;
    simpl; try (eexists; split; reflexivity).
  all: rewrite Ea, Eb; simpl; eexists; (split; [reflexivity|]).
  all: pose proof (collation _ _ Hina Hinb) as Hc; unfold String.leb;
    rewrite <- Hc; unfold Z.leb;
    now destruct (localeCompare _ _ ?= 0)%Z.
Qed.

End Ordering.

(* ===================================================================== *)
(** ** The selections *)

Section Collect.

Context {T Q : Type}.
Variable extract : value -> completion T.
Variable keep : T -> bool.
Variable project : T -> Q.

Local Abbreviation collectWith := (collectWith extract keep project).

(** The loop extracts every page, in order, and keeps the projections of
    the tickets that pass the filter, in order. *)
Lemma collectWith_traverse (pages : list value) (acc : list Q) :
  collectWith pages acc
  = (tickets <- traverse extract pages ;;
     Normal (acc ++ map project (filter keep tickets))%list).
Proof.
  revert acc; induction pages as [|page rest IH]; intros acc; simpl.
  - now rewrite app_nil_r.
  - destruct (extract page) as [ticket|]; simpl; [|reflexivity].
    rewrite IH. destruct (traverse extract rest) as [tickets|]; simpl;
      [|reflexivity].
    destruct (keep ticket); simpl; [|reflexivity].
    now rewrite <- app_assoc.
Qed.

End Collect.

Section RemoteOnly.





End RemoteOnly.

Section Selections.

Variable AI_SQUAD_ID DB_ID : string.
Variable localeCompare : string -> string -> Z.

(** One run of [syncState], step by step. *)
Lemma syncState_run (w : World) :
  syncState AI_SQUAD_ID DB_ID localeCompare w
  = match fetchAllShipyardPages DB_ID w with
    | (Throw e, w1) => (Throw e, w1)
    | (Normal pages, w1) =>
        match (collected <- collectQueue AI_SQUAD_ID pages [] ;;
               sort (compareItems localeCompare) collected) with
        | Throw e => (Throw e, w1)
        | Normal queue =>
            let state := {| HumanizeState.last_synced := now w1;
                            HumanizeState.queue := queue;
                            HumanizeState.history := loadHistory (stateFile w1) |} in
            (Normal state,
             mkWorld (remote w1) (dataSourceId w1) (Some (Json (state_json state)))
               (now w1) (trace w1))
        end
    end.
Proof.
  unfold syncState, bindM, lift, readStateFile, currentTime, writeStateFile, ret.
  destruct (fetchAllShipyardPages DB_ID w) as [[pages|e] w1]; [|reflexivity].
  destruct (collectQueue AI_SQUAD_ID pages []) as [collected|]; [|reflexivity].
  simpl. destruct (sort (compareItems localeCompare) collected); reflexivity.
Qed.

Lemma fetchReadyTickets_run (w : World) :
  fetchReadyTickets AI_SQUAD_ID DB_ID localeCompare w
  = match fetchAllShipyardPages DB_ID w with
    | (Throw e, w1) => (Throw e, w1)
    | (Normal pages, w1) =>
        (tickets <- collectReady AI_SQUAD_ID pages [] ;;
         sort (compareTickets localeCompare) tickets, w1)
    end.
Proof.
  unfold fetchReadyTickets, bindM, lift.
  destruct (fetchAllShipyardPages DB_ID w) as [[pages|e] w1]; [|reflexivity].
  destruct (collectReady AI_SQUAD_ID pages []) as [tickets|]; reflexivity.
Qed.

Lemma collectQueue_traverse (pages : list value) :
  collectQueue AI_SQUAD_ID pages []
  = (tickets <- traverse (extractTicket AI_SQUAD_ID) pages ;;
     Normal (map toQueueItem (filter isActive tickets))).
Proof.
  exact (collectWith_traverse (extractTicket AI_SQUAD_ID) isActive toQueueItem
           pages []).
Qed.

Lemma map_id_list {X} (l : list X) : map (fun x => x) l = l.
Proof. induction l; simpl; congruence. Qed.

Lemma collectReady_traverse (pages : list value) :
  collectReady AI_SQUAD_ID pages []
  = (tickets <- traverse (extractTicket AI_SQUAD_ID) pages ;;
     Normal (filter isReady tickets)).
Proof.
  change (collectReady AI_SQUAD_ID pages [])
    with (collectWith (extractTicket AI_SQUAD_ID) isReady (fun t => t) pages []).
  rewrite collectWith_traverse.
  destruct (traverse (extractTicket AI_SQUAD_ID) pages); simpl; [|reflexivity].
  now rewrite map_id_list.
Qed.

End Selections.

Section SelectionsEnv.

Variable TARGET_APP AI_SQUAD_ID DB_ID : string.
Variable localeCompare : string -> string -> Z.

Lemma syncState_env_run (w : World) :
  EnvConfigured.syncState TARGET_APP AI_SQUAD_ID DB_ID localeCompare w
  = match fetchAllShipyardPages DB_ID w with
    | (Throw e, w1) => (Throw e, w1)
    | (Normal pages, w1) =>
        match (collected <- EnvConfigured.collectQueue TARGET_APP AI_SQUAD_ID pages [] ;;
               sort (compareItems localeCompare) collected) with
        | Throw e => (Throw e, w1)
        | Normal queue =>
            let state := {| HumanizeState.last_synced := now w1;
                            HumanizeState.queue := queue;
                            HumanizeState.history := loadHistory (stateFile w1) |} in
            (Normal state,
             mkWorld (remote w1) (dataSourceId w1) (Some (Json (state_json state)))
               (now w1) (trace w1))
        end
    end.
Proof.
  unfold EnvConfigured.syncState, bindM, lift, readStateFile, currentTime,
    writeStateFile, ret.
  destruct (fetchAllShipyardPages DB_ID w) as [[pages|e] w1]; [|reflexivity].
  destruct (EnvConfigured.collectQueue TARGET_APP AI_SQUAD_ID pages [])
    as [collected|]; [|reflexivity].
  simpl. destruct (sort (compareItems localeCompare) collected); reflexivity.
Qed.

Lemma collectQueue_env_traverse (pages : list value) :
  EnvConfigured.collectQueue TARGET_APP AI_SQUAD_ID pages []
  = (tickets <- traverse (EnvConfigured.extractTicket AI_SQUAD_ID) pages ;;
     Normal (map toQueueItem (filter (EnvConfigured.isActive TARGET_APP) tickets))).
Proof.
  exact (collectWith_traverse (EnvConfigured.extractTicket AI_SQUAD_ID)
           (EnvConfigured.isActive TARGET_APP) toQueueItem pages []).
Qed.

Ltac step H :=
  match type of H with
  | Js.bind ?c _ = Normal _ =>
      let E := fresh "E" in
      destruct c eqn:E; simpl in H; [|discriminate H]
  end.

Lemma extractTicket_env_assigned (page : value) (t : Ticket.t) :
  EnvConfigured.extractTicket AI_SQUAD_ID page = Normal t ->
  isAssignedToAISquad AI_SQUAD_ID (pageProperty page "Assignee")
  = Normal (Ticket.assigned_to_ai_squad t).
Proof.
  intros H. unfold EnvConfigured.extractTicket in H. unfold pageProperty.
  step H. cbv zeta in H. repeat step H.
  injection H as <-. reflexivity.
Qed.

Lemma extractTicket_env_id (page : value) (t : Ticket.t) :
  EnvConfigured.extractTicket AI_SQUAD_ID page = Normal t ->
  get page "id" = Normal (Ticket.id t).
Proof.
  intros H. unfold EnvConfigured.extractTicket in H.
  step H. cbv zeta in H. repeat step H.
  injection H as <-. reflexivity.
Qed.

End SelectionsEnv.

(* ===================================================================== *)
(** ** The snapshot *)

Section SnapshotFacts.





Lemma traverse_In {A B} (f : A -> completion B) (l : list A) (r : list B) :
  traverse f l = Normal r ->
  forall y, In y r <-> exists x, In x l /\ f x = Normal y.
Proof.
  revert r. induction l as [|a l IH]; intros r; cbn [traverse].
  - intros E. injection E as <-. intros y. split; [intros []|intros (x & [] & _)].
  - destruct (f a) as [b|e] eqn:Ha; [|discriminate]. cbn [Js.bind].
    destruct (traverse f l) as [bs|e]; [|discriminate]. cbn [Js.bind].
    intros E. injection E as <-. intros y. cbn [In]. rewrite (IH bs eq_refl y). split.
    + intros [<-|(x & Hx & Hy)]; [exists a; auto|exists x; auto].
    + intros (x & [<-|Hx] & Hy); [left; congruence|right; eauto].
Qed.

End SnapshotFacts.


(** Runs a computation of the examples and names its result and its
    final world; evaluates an extraction and names its result. *)
Tactic Notation "run" constr(m) "as" ident(a) ident(b) :=
  let r := eval vm_compute in m in
  lazymatch r with
  | (Normal ?x, ?y) => pose (a := x); pose (b := y)
  end.

Tactic Notation "evaluate" constr(c) "as" ident(a) :=
  let r := eval vm_compute in c in
  lazymatch r with
  | Normal ?x => pose (a := x)
  end.


(* ===================================================================== *)
(** ** The active queue *)

Section Membership.

Lemma is_str_eq (v : value) (s : string) : is_str v s = true <-> v = Str s.
Proof.
  destruct v; simpl; try (split; [discriminate|intros [=]]).
  rewrite String.eqb_eq. split; [now intros ->|now intros [= ->]].
Qed.

Lemma includes_str_In (ids : list value) (s : string) :
  includes_str ids s = true <-> In (Str s) ids.
Proof.
  unfold includes_str. rewrite existsb_exists. split.
  - intros (x & Hx & E). apply is_str_eq in E. now subst.
  - intros H. exists (Str s). split; [exact H|]. now apply is_str_eq.
Qed.

Lemma includes_value_In (strings : list string) (v : value) :
  includes_value strings v = true <-> In v (map Str strings).
Proof.
  unfold includes_value. rewrite existsb_exists, in_map_iff. split.
  - intros (s & Hs & E). apply is_str_eq in E. eauto.
  - intros (s & E & Hs). exists s. split; [exact Hs|]. now apply is_str_eq.
Qed.

Lemma isAssigned_iff (AI_SQUAD_ID : string) (prop : value) (b : bool) :
  isAssignedToAISquad AI_SQUAD_ID prop = Normal b ->
  (b = true <->
   AI_SQUAD_ID = ""
   \/ exists ids, extractAssigneeIds prop = Normal ids /\ In (Str AI_SQUAD_ID) ids).
Proof.
  unfold isAssignedToAISquad.
  destruct (String.eqb_spec AI_SQUAD_ID "") as [->|Hset].
  - intros [= <-]. split; auto.
  - destruct (extractAssigneeIds prop) as [ids|]; simpl; [|discriminate].
    intros [= <-]. rewrite includes_str_In. split.
    + intros H. right. eauto.
    + intros [E|(ids' & [= <-] & H)]; [now elim Hset|exact H].
Qed.

Lemma traverse_payload (k : string) (l ids : list value) :
  traverse (fun p => get p k) l = Normal ids ->
  ids = map (fun p => payload p k) l.
Proof.
  revert ids. induction l as [|p l IH]; intros ids; cbn [traverse map].
  - intros E. now injection E as <-.
  - unfold payload at 1. destruct (get p k) as [v|e]; [|discriminate]. cbn [Js.bind].
    destruct (traverse (fun p => get p k) l) as [vs|e]; [|discriminate]. cbn [Js.bind].
    intros E. injection E as <-. now rewrite (IH vs eq_refl).
Qed.

Lemma extractAssigneeIds_assignees (page : value) (ids : list value) :
  extractAssigneeIds (pageProperty page "Assignee") = Normal ids ->
  ids = assigneesOf page.
Proof.
  unfold extractAssigneeIds, assigneesOf. cbv zeta.
  generalize (pageProperty page "Assignee"). intros prop.
  destruct prop as [| |b|r|s|items|fields];
    try (cbn; intros E; now injection E as <-).
  - destruct b; cbn; intros E; now injection E as <-.
  - cbn [truthy]. destruct (negb (String.eqb r "0" || String.eqb r "NaN"));
      cbn; intros E; now injection E as <-.
  - cbn [truthy]. destruct (negb (String.eqb s "")); cbn; intros E; now injection E as <-.
  - unfold payload. cbn [truthy negb get Js.bind].
    destruct (is_str match own fields "type" with Some x => x | None => Undefined end
                "people"); cbn [negb]; [|intros E; now injection E as <-].
    destruct (match own fields "people" with Some x => x | None => Undefined end)
      as [| |b|r|s|people|other]; cbn [coalesce nullish map_method traverse];
      try discriminate; try (intros E; now injection E as <-).
    apply traverse_payload.
Qed.

Lemma assigned_iff (AI_SQUAD_ID : string) (page : value) (b : bool) :
  isAssignedToAISquad AI_SQUAD_ID (pageProperty page "Assignee") = Normal b ->
  (b = true <-> AI_SQUAD_ID = "" \/ In (Str AI_SQUAD_ID) (assigneesOf page)).
Proof.
  intros H. rewrite (isAssigned_iff _ _ _ H). split.
  - intros [E|(ids & Hids & Hin)]; [now left|right].
    now rewrite <- (extractAssigneeIds_assignees page ids Hids).
  - intros [E|Hin]; [now left|].
    unfold isAssignedToAISquad in H.
    destruct (String.eqb_spec AI_SQUAD_ID "") as [E|_]; [now left|right].
    destruct (extractAssigneeIds (pageProperty page "Assignee")) as [ids|] eqn:Hids;
      [|discriminate].
    exists ids. split; [reflexivity|].
    now rewrite (extractAssigneeIds_assignees page ids Hids).
Qed.

Lemma not_excluded (status : value) :
  includes_value excluded status = false <->
  status <> Str "Done" /\ status <> Str "Blocked by human" /\ status <> Str "On hold".
Proof.
  rewrite <- not_true_iff_false, includes_value_In. unfold excluded. cbn [map In].
  intuition congruence.
Qed.

End Membership.

(** C2. A ticket is in the queue a sync returns exactly when its
    application is the scope tag, or no scope is set, and it is eligible,
    and its status is none of "Done", "Blocked by human" and "On hold";
    it is eligible when no acting identity is set, or when the identity
    is among the ids of the people its page is assigned to.  The queue is,
    up to its order, the projection of exactly the tickets of the pages
    fetched that pass, once each; an entry holds the id of the page, the
    title, area, status, priority, dependencies, dependents and branch of
    the ticket.  This holds in the copy that takes its scope from the
    environment, and in scripts/notion-bridge.ts, whose scope is the
    constant [TARGET_APP]. *)
Theorem syncState_active_queue :
  forall (AI_SQUAD_ID DB_ID : string) (localeCompare : string -> string -> Z)
         (w : World),
    (forall TARGET st w',
        EnvConfigured.syncState TARGET AI_SQUAD_ID DB_ID localeCompare w
        = (Normal st, w') ->
        exists pages w1 tickets,
          fetchAllShipyardPages DB_ID w = (Normal pages, w1)
          /\ traverse (EnvConfigured.extractTicket AI_SQUAD_ID) pages = Normal tickets
          /\ Permutation
               (map toQueueItem (filter (EnvConfigured.isActive TARGET) tickets))
               (HumanizeState.queue st)
          /\ (forall q,
                In q (HumanizeState.queue st) <->
                exists page t,
                  In page pages
                  /\ EnvConfigured.extractTicket AI_SQUAD_ID page = Normal t
                  /\ q = toQueueItem t
                  /\ (TARGET = "" \/ Ticket.application t = Str TARGET)
                  /\ (AI_SQUAD_ID = "" \/ In (Str AI_SQUAD_ID) (assigneesOf page))
                  /\ Ticket.status t <> Str "Done"
                  /\ Ticket.status t <> Str "Blocked by human"
                  /\ Ticket.status t <> Str "On hold"))
    /\ (forall TARGET t,
          EnvConfigured.isActive TARGET t = true <->
          (TARGET = "" \/ Ticket.application t = Str TARGET)
          /\ Ticket.assigned_to_ai_squad t = true
          /\ Ticket.status t <> Str "Done"
          /\ Ticket.status t <> Str "Blocked by human"
          /\ Ticket.status t <> Str "On hold")
    /\ (forall page t,
          EnvConfigured.extractTicket AI_SQUAD_ID page = Normal t ->
          get page "id" = Normal (Ticket.id t)
          /\ (Ticket.assigned_to_ai_squad t = true <->
              AI_SQUAD_ID = "" \/ In (Str AI_SQUAD_ID) (assigneesOf page)))
    /\ (forall st w',
          syncState AI_SQUAD_ID DB_ID localeCompare w = (Normal st, w') ->
          exists pages w1 tickets,
            fetchAllShipyardPages DB_ID w = (Normal pages, w1)
            /\ traverse (extractTicket AI_SQUAD_ID) pages = Normal tickets
            /\ Permutation (map toQueueItem (filter isActive tickets))
                 (HumanizeState.queue st)
            /\ (forall q,
                  In q (HumanizeState.queue st) <->
                  exists page t,
                    In page pages
                    /\ extractTicket AI_SQUAD_ID page = Normal t
                    /\ q = toQueueItem t
                    /\ Ticket.application t = Str TARGET_APP
                    /\ (AI_SQUAD_ID = "" \/ In (Str AI_SQUAD_ID) (assigneesOf page))
                    /\ Ticket.status t <> Str "Done"
                    /\ Ticket.status t <> Str "Blocked by human"
                    /\ Ticket.status t <> Str "On hold"))
    /\ (forall t,
          isActive t = true <->
          Ticket.application t = Str TARGET_APP
          /\ Ticket.assigned_to_ai_squad t = true
          /\ Ticket.status t <> Str "Done"
          /\ Ticket.status t <> Str "Blocked by human"
          /\ Ticket.status t <> Str "On hold")
    /\ (forall page t,
          extractTicket AI_SQUAD_ID page = Normal t ->
          get page "id" = Normal (Ticket.id t)
          /\ (Ticket.assigned_to_ai_squad t = true <->
              AI_SQUAD_ID = "" \/ In (Str AI_SQUAD_ID) (assigneesOf page)))
    /\ (forall t,
          QueueItem.ticket_id (toQueueItem t) = Ticket.id t
          /\ QueueItem.title (toQueueItem t) = Ticket.title t
          /\ QueueItem.area (toQueueItem t) = Ticket.area t
          /\ QueueItem.status (toQueueItem t) = Ticket.status t
          /\ QueueItem.priority (toQueueItem t) = Ticket.priority t
          /\ QueueItem.blocked_by (toQueueItem t) = Ticket.blocked_by t
          /\ QueueItem.blocks (toQueueItem t) = Ticket.blocks t
          /\ QueueItem.branch (toQueueItem t) = Ticket.branch t).
Proof.
  intros AI DB lc w.
  assert (Henv : forall TARGET t,
             EnvConfigured.isActive TARGET t = true <->
             (TARGET = "" \/ Ticket.application t = Str TARGET)
             /\ Ticket.assigned_to_ai_squad t = true
             /\ Ticket.status t <> Str "Done"
             /\ Ticket.status t <> Str "Blocked by human"
             /\ Ticket.status t <> Str "On hold").
  { intros TARGET t. unfold EnvConfigured.isActive, EnvConfigured.matchesApp.
    rewrite !andb_true_iff, orb_true_iff, negb_true_iff, String.eqb_eq, is_str_eq.
    rewrite not_excluded. tauto. }
  assert (Hpage_env : forall page t,
             EnvConfigured.extractTicket AI page = Normal t ->
             get page "id" = Normal (Ticket.id t)
             /\ (Ticket.assigned_to_ai_squad t = true <->
                 AI = "" \/ In (Str AI) (assigneesOf page))).
  { intros page t H. split; [now apply (extractTicket_env_id AI)|].
    apply assigned_iff. now apply extractTicket_env_assigned. }
  assert (Hhere : forall t,
             isActive t = true <->
             Ticket.application t = Str TARGET_APP
             /\ Ticket.assigned_to_ai_squad t = true
             /\ Ticket.status t <> Str "Done"
             /\ Ticket.status t <> Str "Blocked by human"
             /\ Ticket.status t <> Str "On hold").
  { intros t. unfold isActive.
    rewrite !andb_true_iff, negb_true_iff, is_str_eq. rewrite not_excluded. tauto. }
  assert (Hpage : forall page t,
             extractTicket AI page = Normal t ->
             get page "id" = Normal (Ticket.id t)
             /\ (Ticket.assigned_to_ai_squad t = true <->
                 AI = "" \/ In (Str AI) (assigneesOf page))).
  { intros page t H.
    destruct (extractTicket_fields AI page t H)
      as (_ & _ & Hid & _ & _ & _ & _ & _ & _ & _ & _ & _ & _ & _ & _ & _ & _ & _ & E).
    split; [exact Hid|]. now apply assigned_iff. }
  split; [|split; [exact Henv|split; [exact Hpage_env|split;
    [|split; [exact Hhere|split; [exact Hpage|intros t; repeat split]]]]]].
  - intros TARGET st w' H. rewrite syncState_env_run in H.
    destruct (fetchAllShipyardPages DB w) as [[pages|e] w1]; [|discriminate].
    rewrite collectQueue_env_traverse in H.
    destruct (traverse (EnvConfigured.extractTicket AI) pages) as [tickets|]
      eqn:Htickets; cbn [Js.bind] in H; [|discriminate].
    destruct (sort (compareItems lc) _) as [queue|] eqn:Hsort; [|discriminate].
    cbv zeta in H. injection H as <- _. cbn [HumanizeState.queue].
    pose proof (sort_permutation _ _ _ Hsort) as Hperm.
    exists pages, w1, tickets.
    split; [reflexivity|]. split; [exact Htickets|]. split; [exact Hperm|].
    intros q. split.
    + intros Hq. apply (Permutation_in _ (Permutation_sym Hperm)) in Hq.
      apply in_map_iff in Hq as (t & <- & Ht). apply filter_In in Ht as [Ht Hactive].
      apply (traverse_In _ _ _ Htickets) in Ht as (page & Hin & Hextract).
      apply Henv in Hactive as (Hscope & Hflag & Hstatus).
      apply (Hpage_env page t Hextract) in Hflag.
      exists page, t. tauto.
    + intros (page & t & Hin & Hextract & -> & Hscope & Hwho & Hstatus).
      apply (Permutation_in _ Hperm). apply in_map. apply filter_In. split.
      * apply (traverse_In _ _ _ Htickets). eauto.
      * apply Henv. split; [exact Hscope|]. split; [|exact Hstatus].
        now apply (Hpage_env page t Hextract).
  - intros st w' H. rewrite syncState_run in H.
    destruct (fetchAllShipyardPages DB w) as [[pages|e] w1]; [|discriminate].
    rewrite collectQueue_traverse in H.
    destruct (traverse (extractTicket AI) pages) as [tickets|] eqn:Htickets;
      cbn [Js.bind] in H; [|discriminate].
    destruct (sort (compareItems lc) _) as [queue|] eqn:Hsort; [|discriminate].
    cbv zeta in H. injection H as <- _. cbn [HumanizeState.queue].
    pose proof (sort_permutation _ _ _ Hsort) as Hperm.
    exists pages, w1, tickets.
    split; [reflexivity|]. split; [exact Htickets|]. split; [exact Hperm|].
    intros q. split.
    + intros Hq. apply (Permutation_in _ (Permutation_sym Hperm)) in Hq.
      apply in_map_iff in Hq as (t & <- & Ht). apply filter_In in Ht as [Ht Hactive].
      apply (traverse_In _ _ _ Htickets) in Ht as (page & Hin & Hextract).
      apply Hhere in Hactive as (Hscope & Hflag & Hstatus).
      apply (Hpage page t Hextract) in Hflag.
      exists page, t. tauto.
    + intros (page & t & Hin & Hextract & -> & Hscope & Hwho & Hstatus).
      apply (Permutation_in _ Hperm). apply in_map. apply filter_In. split.
      * apply (traverse_In _ _ _ Htickets). eauto.
      * apply Hhere. split; [exact Hscope|]. split; [|exact Hstatus].
        now apply (Hpage page t Hextract).
Qed.

Lemma syncState_active_queue_witness :
  exists st w' pages w1 tickets,
    EnvConfigured.syncState "Shop" "squad-1" "db" byCodeUnit
      (world_ready (squad_listing "Shop") None)
    = (Normal st, w')
    /\ fetchAllShipyardPages "db" (world_ready (squad_listing "Shop") None)
       = (Normal pages, w1)
    /\ traverse (EnvConfigured.extractTicket "squad-1") pages = Normal tickets
    /\ map Ticket.id tickets
       = [Str "p1"; Str "p2"; Str "p3"; Str "p4"; Str "p5"; Str "p6"; Str "p7"; Str "p8"]
    /\ map QueueItem.ticket_id (HumanizeState.queue st) = [Str "p1"; Str "p7"]
    /\ map QueueItem.status (HumanizeState.queue st) = [Str "Open"; Str "In Progress"]
    /\ (forall q,
          In q (HumanizeState.queue st) <->
          exists page t,
            In page pages
            /\ EnvConfigured.extractTicket "squad-1" page = Normal t
            /\ q = toQueueItem t
            /\ ("Shop" = "" \/ Ticket.application t = Str "Shop")
            /\ ("squad-1" = "" \/ In (Str "squad-1") (assigneesOf page))
            /\ Ticket.status t <> Str "Done"
            /\ Ticket.status t <> Str "Blocked by human"
            /\ Ticket.status t <> Str "On hold").
Proof.
  run (EnvConfigured.syncState "Shop" "squad-1" "db" byCodeUnit
         (world_ready (squad_listing "Shop") None)) as st w'.
  exists st, w'.
  assert (Hrun : EnvConfigured.syncState "Shop" "squad-1" "db" byCodeUnit
                   (world_ready (squad_listing "Shop") None) = (Normal st, w'))
    by (vm_compute; reflexivity).
  destruct (syncState_active_queue "squad-1" "db" byCodeUnit
              (world_ready (squad_listing "Shop") None)) as (H & _).
  destruct (H "Shop" st w' Hrun) as (pages & w1 & tickets & Hfetch & Htickets & _ & Hin).
  exists pages, w1, tickets.
  split; [exact Hrun|]. split; [exact Hfetch|]. split; [exact Htickets|].
  split; [|split; [reflexivity|split; [reflexivity|exact Hin]]].
  vm_compute in Hfetch. injection Hfetch as <- _.
  vm_compute in Htickets. injection Htickets as <-. reflexivity.
Defined.

(* ===================================================================== *)
(** ** The order of the queue *)

Section Order.

Variable localeCompare : string -> string -> Z.
Hypothesis collation :
  forall a b, In a ShipyardPriority -> In b ShipyardPriority ->
              (localeCompare a b ?= 0)%Z = String.compare a b.

Lemma sort_items (items : list QueueItem.t) :
  Forall (fun q => declaredPriority (QueueItem.priority q)) items ->
  exists queue,
    sort (compareItems localeCompare) items = Normal queue
    /\ Permutation items queue
    /\ StronglySorted (ascending itemKey keyLe) queue
    /\ (forall k, filter (withKey itemKey keyEq k) queue
                  = filter (withKey itemKey keyEq k) items).
Proof.
  apply (sort_sorted (compareItems localeCompare) itemKey keyLe keyEq
           (fun q => declaredPriority (QueueItem.priority q))).
  - intros a b Ha Hb. now apply compareQueue_key.
  - apply keyLe_total.
  - apply keyLe_trans.
  - apply keyEq_eq.
Qed.

Lemma sort_tickets (tickets : list Ticket.t) :
  Forall (fun t => declaredPriority (Ticket.priority t)) tickets ->
  exists ready,
    sort (compareTickets localeCompare) tickets = Normal ready
    /\ Permutation tickets ready
    /\ StronglySorted (ascending ticketKey keyLe) ready
    /\ (forall k, filter (withKey ticketKey keyEq k) ready
                  = filter (withKey ticketKey keyEq k) tickets).
Proof.
  apply (sort_sorted (compareTickets localeCompare) ticketKey keyLe keyEq
           (fun t => declaredPriority (Ticket.priority t))).
  - intros a b Ha Hb. now apply compareQueue_key.
  - apply keyLe_total.
  - apply keyLe_trans.
  - apply keyEq_eq.
Qed.

Lemma Forall_filter {X} (P : X -> Prop) (f : X -> bool) (l : list X) :
  Forall P l -> Forall P (filter f l).
Proof.
  rewrite !Forall_forall. intros H x Hx. apply filter_In in Hx. now apply H.
Qed.

End Order.

(** C1. Take the tickets extracted from the pages fetched, in the order
    of the remote listing, each with a priority that is absent or one of
    P0 .. P4, and a host whose collation orders these tags as their code
    units do.  Then [syncState] returns, and its queue holds the active
    tickets in ascending order of the pair (has a dependency, priority
    with absent read as "P4"), unblocked first and priorities compared
    lexicographically; tickets with the same pair keep the order of the
    listing.  The same holds of the tickets [fetchReadyTickets]
    returns. *)
Theorem queue_sorted_stable :
  forall (AI_SQUAD_ID DB_ID : string) (localeCompare : string -> string -> Z)
         (w w1 : World) (pages : list value) (tickets : list Ticket.t),
    (forall a b, In a ShipyardPriority -> In b ShipyardPriority ->
                 (localeCompare a b ?= 0)%Z = String.compare a b) ->
    fetchAllShipyardPages DB_ID w = (Normal pages, w1) ->
    traverse (extractTicket AI_SQUAD_ID) pages = Normal tickets ->
    Forall (fun t => declaredPriority (Ticket.priority t)) tickets ->
    (exists st w',
        syncState AI_SQUAD_ID DB_ID localeCompare w = (Normal st, w')
        /\ Permutation (map toQueueItem (filter isActive tickets))
             (HumanizeState.queue st)
        /\ StronglySorted (ascending itemKey keyLe) (HumanizeState.queue st)
        /\ (forall k,
               filter (withKey itemKey keyEq k) (HumanizeState.queue st)
               = filter (withKey itemKey keyEq k)
                   (map toQueueItem (filter isActive tickets))))
    /\ (exists ready,
          fetchReadyTickets AI_SQUAD_ID DB_ID localeCompare w = (Normal ready, w1)
          /\ Permutation (filter isReady tickets) ready
          /\ StronglySorted (ascending ticketKey keyLe) ready
          /\ (forall k,
                 filter (withKey ticketKey keyEq k) ready
                 = filter (withKey ticketKey keyEq k) (filter isReady tickets))).
Proof.
  intros AI DB lc w w1 pages tickets Hcollation Hfetch Htickets Hdeclared.
  split.
  - destruct (sort_items lc Hcollation (map toQueueItem (filter isActive tickets)))
      as (queue & Hsort & Hperm & Hsorted & Hstable).
    { apply Forall_map. now apply Forall_filter. }
    rewrite syncState_run, Hfetch, collectQueue_traverse, Htickets.
    cbn [Js.bind]. rewrite Hsort.
    eexists; eexists. split; [reflexivity|]. cbn [HumanizeState.queue].
    repeat split; assumption.
  - destruct (sort_tickets lc Hcollation (filter isReady tickets))
      as (ready & Hsort & Hperm & Hsorted & Hstable).
    { now apply Forall_filter. }
    rewrite fetchReadyTickets_run, Hfetch, collectReady_traverse, Htickets.
    cbn [Js.bind]. rewrite Hsort.
    exists ready. repeat split; assumption.
Qed.

Lemma byCodeUnit_collation (a b : string) :
  (byCodeUnit a b ?= 0)%Z = String.compare a b.
Proof. unfold byCodeUnit. now destruct (String.compare a b). Qed.

Ltac declared :=
  repeat (constructor;
          [first [ left; reflexivity
                 | right; eexists; split; [|reflexivity]; simpl; tauto ]|]);
  try constructor.

Lemma queue_sorted_stable_witness :
  exists st w' ready,
    syncState "" "db" byCodeUnit (world_ready mixed_listing None) = (Normal st, w')
    /\ map QueueItem.ticket_id (HumanizeState.queue st)
       = [Str "e"; Str "a"; Str "d"; Str "c"; Str "b"]
    /\ StronglySorted (ascending itemKey keyLe) (HumanizeState.queue st)
    /\ fst (fetchReadyTickets "" "db" byCodeUnit (world_ready mixed_listing None))
       = Normal ready
    /\ map Ticket.id ready = [Str "a"; Str "d"; Str "b"]
    /\ StronglySorted (ascending ticketKey keyLe) ready.
Proof.
  run (fetchAllShipyardPages "db" (world_ready mixed_listing None)) as pages w1.
  evaluate (traverse (extractTicket "") pages) as tickets.
  assert (Hfetch : fetchAllShipyardPages "db" (world_ready mixed_listing None)
                   = (Normal pages, w1)) by (vm_compute; reflexivity).
  assert (Htickets : traverse (extractTicket "") pages = Normal tickets)
    by (vm_compute; reflexivity).
  assert (Hdeclared : Forall (fun t => declaredPriority (Ticket.priority t)) tickets)
    by (unfold tickets; declared).
  destruct (queue_sorted_stable "" "db" byCodeUnit (world_ready mixed_listing None)
              w1 pages tickets (fun a b _ _ => byCodeUnit_collation a b)
              Hfetch Htickets Hdeclared)
    as ((st & w' & Hrun & _ & Hsorted & _) & (ready & Hready & _ & Hrsorted & _)).
  exists st, w', ready.
  split; [exact Hrun|].
  split; [|split; [exact Hsorted|split; [now rewrite Hready|split; [|exact Hrsorted]]]].
  - vm_compute in Hrun. injection Hrun. intros. subst. reflexivity.
  - vm_compute in Hready. injection Hready. intros. subst. reflexivity.
Defined.

(* ===================================================================== *)
(** ** The other writes *)

Lemma checkedWrite_once pageId body what :
  writesOnce (checkedWrite pageId body what) pageId body what.
Proof.
  intros w. unfold writeAt, checkedWrite, notionFetch, rejectError, bindM, emit, lift,
    sleep, emit, throw, ret, served, patch, isError. simpl.
  destruct (remote w) as [|data rest]; [reflexivity|]. simpl. split.
  - intros Hn He.
    destruct data; simpl in *; try discriminate; try rewrite He; simpl;
      rewrite <- app_assoc; reflexivity.
  - intros msg Ho Hm. rewrite Ho. simpl. rewrite Hm. reflexivity.
Qed.

(** Setting the branch, the commit, the type or the feature of a
    ticket, and archiving it, is one PATCH of the page with the one field
    in its body.  An answer that is not an error object is followed by
    the 350 ms pause and a normal return; an error object ends the call
    with the function's own label and the remote's message, with no
    pause.  The snapshot file and the resolved data source are left as
    they were. *)
Theorem field_updates_write_once :
  forall pageId text : string,
    writesOnce (updateTicketBranch pageId text) pageId
      (properties [("Branch", richTextOf text)]) "Branch update failed"
    /\ writesOnce (updateTicketCommit pageId text) pageId
         (properties [("Commit", richTextOf text)]) "Commit update failed"
    /\ writesOnce (updateTicketType pageId text) pageId
         (properties [("Type", selectOf text)]) "Type update failed"
    /\ writesOnce (updateTicketFeature pageId text) pageId
         (properties [("Feature", selectOf text)]) "Feature update failed"
    /\ writesOnce (deleteTicket pageId) pageId
         (Obj [("archived", Bool true)]) "Delete failed".
Proof.
  intros pageId text. repeat split; apply checkedWrite_once.
Qed.

Lemma field_updates_write_once_witness :
  updateTicketBranch "page-1" "feature/x" (world_ready [page_ok] None)
  = (Normal tt,
     served (world_ready [page_ok] None) []
       [patch "page-1" (properties [("Branch", richTextOf "feature/x")]);
        Sleep RATE_LIMIT_DELAY])
  /\ deleteTicket "page-1" (world_ready [errorObject "archived already"] None)
     = (Throw (Error "Delete failed: archived already"),
        served (world_ready [errorObject "archived already"] None) []
          [patch "page-1" (Obj [("archived", Bool true)])]).
Proof.
  destruct (field_updates_write_once "page-1" "feature/x") as (Hb & _ & _ & _ & Hd).
  split.
  - apply (Hb (world_ready [page_ok] None)); reflexivity.
  - apply (Hd (world_ready [errorObject "archived already"] None)); reflexivity.
Defined.

(** A relation left out of [updateTicketDependencies] is left out of the
    write, and with both left out nothing is sent at all: the call
    returns at once, without request or pause.  A relation that is given
    is written whole, the empty list included, which clears it; the two
    relations go in one PATCH. *)
Theorem updateTicketDependencies_partial :
  forall pageId : string,
    (forall w, updateTicketDependencies pageId None None w = (Normal tt, w))
    /\ (forall blockedBy blocks,
          writesOnce (updateTicketDependencies pageId (Some blockedBy) (Some blocks)) pageId
            (properties [("Dependency", relationOf blockedBy); ("Blocks ", relationOf blocks)])
            "Dependency update failed")
    /\ (forall blockedBy,
          writesOnce (updateTicketDependencies pageId (Some blockedBy) None) pageId
            (properties [("Dependency", relationOf blockedBy)])
            "Dependency update failed")
    /\ (forall blocks,
          writesOnce (updateTicketDependencies pageId None (Some blocks)) pageId
            (properties [("Blocks ", relationOf blocks)])
            "Dependency update failed").
Proof.
  intros pageId. repeat split; intros; apply checkedWrite_once.
Qed.

Lemma updateTicketDependencies_partial_witness :
  updateTicketDependencies "page-1" (Some []) None (world_ready [page_ok] None)
  = (Normal tt,
     served (world_ready [page_ok] None) []
       [patch "page-1" (properties [("Dependency", Obj [("relation", Arr [])])]);
        Sleep RATE_LIMIT_DELAY]).
Proof.
  destruct (updateTicketDependencies_partial "page-1") as (_ & _ & H & _).
  apply (H [] (world_ready [page_ok] None)); reflexivity.
Defined.

(** [updateTicketCompletion] sends nothing when no option is given, an
    empty string counting as not given.  Otherwise it is one PATCH that
    carries, for each option given, what the single-field function for
    it writes: the status with its "Resolved At" date for "Done" and
    "Review AI Fix", the commit, the feature. *)
Theorem updateTicketCompletion_one_write :
  forall (pageId : string) (options : Completion.t) (w : World),
    let status := given (Completion.status options) in
    let commit := given (Completion.commit options) in
    let feature := given (Completion.feature options) in
    (status = None /\ commit = None /\ feature = None /\
     updateTicketCompletion pageId options w = (Normal tt, w))
    \/ (exists fields,
          writeAt w (updateTicketCompletion pageId options) pageId (properties fields)
            "Ticket completion update failed"
          /\ sentStatus (properties fields) = option_map Str status
          /\ sentResolvedAt (properties fields)
             = match status with
               | Some s =>
                   if String.eqb s "Done" || String.eqb s "Review AI Fix"
                   then Some (Obj [("date", Obj [("start", Str (now w))])])
                   else None
               | None => None
               end
          /\ own fields "Commit" = option_map richTextOf commit
          /\ own fields "Feature" = option_map selectOf feature
          /\ (status <> None \/ commit <> None \/ feature <> None)).
Proof.
  intros pageId [st co fe] w. simpl.
  unfold updateTicketCompletion; simpl.
  destruct (given st) as [s|] eqn:Hs.
  - right.
    destruct (String.eqb s "Done" || String.eqb s "Review AI Fix") eqn:Hstamp.
    + eexists. split.
      * unfold bindM at 1. unfold bindM at 1. unfold currentTime, ret.
        cbn [List.length app Nat.eqb].
        apply (checkedWrite_once pageId _ "Ticket completion update failed" w).
      * unfold sentStatus, sentResolvedAt, sentProperties, properties.
        destruct (given co), (given fe); simpl;
          repeat split; try reflexivity; left; discriminate.
    + eexists. split.
      * unfold bindM at 1. unfold bindM at 1. unfold ret.
        cbn [List.length app Nat.eqb].
        apply (checkedWrite_once pageId _ "Ticket completion update failed" w).
      * unfold sentStatus, sentResolvedAt, sentProperties, properties.
        destruct (given co), (given fe); simpl;
          repeat split; try reflexivity; left; discriminate.
  - destruct (given co) as [c|] eqn:Hc; [right|destruct (given fe) as [f|] eqn:Hf; [right|left]].
    + eexists. split.
      * unfold bindM at 1. unfold ret. cbn [List.length app Nat.eqb].
        apply (checkedWrite_once pageId _ "Ticket completion update failed" w).
      * unfold sentStatus, sentResolvedAt, sentProperties, properties.
        destruct (given fe); simpl; repeat split; try reflexivity; right; left; discriminate.
    + eexists. split.
      * unfold bindM at 1. unfold ret. cbn [List.length app Nat.eqb].
        apply (checkedWrite_once pageId _ "Ticket completion update failed" w).
      * unfold sentStatus, sentResolvedAt, sentProperties, properties.
        simpl; repeat split; try reflexivity; right; right; discriminate.
    + repeat split; reflexivity.
Qed.

(** Completing with a status alone is the status update: the same
    request, the same pause, the same result, whenever the remote does
    not answer with an error object.  An absent or empty status is where
    the two part: the completion sends nothing, the status update writes
    the empty name. *)
Theorem updateTicketCompletion_status_alone :
  forall (pageId status : string) (w : World),
    (status <> "" ->
     (forall data rest, remote w = data :: rest -> isError data = false) ->
     updateTicketCompletion pageId (Completion.make (Some status) None None) w
     = updateTicketStatus pageId status w)
    /\ requests (trace (snd (updateTicketCompletion pageId
                               (Completion.make (Some "") None None) w)))
       = requests (trace w)
    /\ exists body,
         requests (trace (snd (updateTicketStatus pageId "" w)))
         = (requests (trace w) ++ [patch pageId body])%list
         /\ sentStatus body = Some (Str "").
Proof.
  intros pageId status w. split; [|split].
  - intros Hne Hok.
    unfold updateTicketCompletion, updateTicketStatus, given; simpl.
    destruct (String.eqb_spec status "") as [E|_]; [contradiction|].
    unfold bindM, currentTime, ret, notionFetch, rejectError, bindM, emit, lift, sleep,
      emit, throw.
    destruct (String.eqb status "Done" || String.eqb status "Review AI Fix"); simpl.
    all: destruct (remote w) as [|data rest] eqn:Hr; simpl; [reflexivity|].
    all: specialize (Hok data rest eq_refl); unfold isError in Hok.
    all: destruct (get data "object") as [o|e]; simpl; [|reflexivity].
    all: rewrite Hok; reflexivity.
  - reflexivity.
  - eexists. unfold updateTicketStatus, bindM, currentTime, ret, notionFetch, bindM, emit,
      lift, sleep, emit, throw, requests, patch. simpl.
    destruct (remote w) as [|data rest]; simpl.
    + rewrite filter_app. simpl. split; reflexivity.
    + destruct (get data "object") as [o|e]; simpl.
      * destruct (is_str o "error"); simpl.
        -- destruct (get data "message") as [m|e]; simpl;
             [destruct (toString m); simpl|]; rewrite filter_app; simpl; split; reflexivity.
        -- rewrite !filter_app. simpl. rewrite app_nil_r. split; reflexivity.
      * rewrite filter_app. simpl. split; reflexivity.
Qed.

Lemma updateTicketCompletion_status_alone_witness :
  updateTicketCompletion "page-1" (Completion.make (Some "Done") None None)
    (world_ready [page_ok] None)
  = updateTicketStatus "page-1" "Done" (world_ready [page_ok] None).
Proof.
  apply (updateTicketCompletion_status_alone "page-1" "Done" (world_ready [page_ok] None)).
  - discriminate.
  - intros data rest E. injection E as <- _. reflexivity.
Defined.

Lemma lookup_absent (table : list (string * string)) (k : string) :
  ~ In k (map fst table) -> lookup table k = None.
Proof.
  induction table as [|[k' v] rest IH]; [reflexivity|].
  cbn [map fst In lookup]. intros H.
  destruct (String.eqb_spec k' k) as [E|_]; [exfalso; apply H; now left|].
  apply IH. intros Hin. apply H. now right.
Qed.

(** [updateTicketAssignee] with a name that is neither a team member
    nor a member of every object is refused before anything is sent; the
    message quotes the name and lists the team.  A team member is
    assigned by one PATCH carrying that member's id.  A name every
    object answers to ("constructor", "toString", ...) passes the check
    and is written as a person without an id. *)
Theorem updateTicketAssignee_known_names :
  forall pageId name : string,
    (~ In name (map fst TEAM_USERS) -> ~ In name inherited ->
     forall w,
       updateTicketAssignee pageId name w
       = (Throw (Error ("Unknown team member " ++ quote ++ name ++ quote
                        ++ ". Known: Marco Lanzi, Davide Bolognini, Mara Pescione")),
          w))
    /\ (forall userId, In (name, userId) TEAM_USERS ->
          writesOnce (updateTicketAssignee pageId name) pageId
            (properties [("Assignee", people userId)]) "Assignee update failed")
    /\ (In name inherited -> name <> "__proto__" ->
          writesOnce (updateTicketAssignee pageId name) pageId
            (properties [("Assignee", Obj [("people", Arr [Obj []])])])
            "Assignee update failed").
Proof.
  intros pageId name. split; [|split].
  - intros Hteam Hin w. unfold updateTicketAssignee, personOf.
    rewrite (lookup_absent _ _ Hteam).
    assert (Hp : name <> "__proto__") by (intros ->; apply Hin; simpl; tauto).
    destruct (String.eqb_spec name "__proto__") as [E|_]; [contradiction|].
    assert (He : existsb (String.eqb name) inherited = false).
    { destruct (existsb (String.eqb name) inherited) eqn:Hex; [|reflexivity].
      apply existsb_exists in Hex. destruct Hex as (x & Hx & E).
      apply String.eqb_eq in E. subst x. contradiction. }
    rewrite He. reflexivity.
  - intros userId Hin. unfold updateTicketAssignee, personOf.
    simpl in Hin.
    destruct Hin as [E|[E|[E|[]]]]; injection E as <- <-; simpl;
      apply checkedWrite_once.
  - intros Hin Hp. unfold updateTicketAssignee, personOf.
    simpl in Hin.
    repeat (destruct Hin as [<-|Hin]; [simpl; try apply checkedWrite_once; try congruence|]).
    destruct Hin.
Qed.

Lemma updateTicketAssignee_known_names_witness :
  updateTicketAssignee "page-1" "Ada" (world_ready [page_ok] None)
  = (Throw (Error ("Unknown team member " ++ quote ++ "Ada" ++ quote
                   ++ ". Known: Marco Lanzi, Davide Bolognini, Mara Pescione")),
     world_ready [page_ok] None)
  /\ updateTicketAssignee "page-1" "Marco Lanzi" (world_ready [page_ok] None)
     = (Normal tt,
        served (world_ready [page_ok] None) []
          [patch "page-1"
             (properties [("Assignee", people "72881aba-e6de-4b18-8673-4f51f5de1eec")]);
           Sleep RATE_LIMIT_DELAY])
  /\ updateTicketAssignee "page-1" "constructor" (world_ready [page_ok] None)
     = (Normal tt,
        served (world_ready [page_ok] None) []
          [patch "page-1" (properties [("Assignee", Obj [("people", Arr [Obj []])])]);
           Sleep RATE_LIMIT_DELAY]).
Proof.
  split; [|split].
  - apply (updateTicketAssignee_known_names "page-1" "Ada").
    + simpl. intros [E|[E|[E|[]]]]; discriminate.
    + simpl. intuition discriminate.
  - destruct (updateTicketAssignee_known_names "page-1" "Marco Lanzi") as (_ & H & _).
    apply (H "72881aba-e6de-4b18-8673-4f51f5de1eec" (or_introl eq_refl)
             (world_ready [page_ok] None)); reflexivity.
  - destruct (updateTicketAssignee_known_names "page-1" "constructor") as (_ & _ & H).
    apply (H (or_introl eq_refl) ltac:(discriminate) (world_ready [page_ok] None));
      reflexivity.
Defined.

(* ===================================================================== *)
(** ** fetchTicketDetails *)

Section DetailFacts.

Variable AI_SQUAD_ID : string.

Lemma rejectError_passes what data w :
  nullish data = false -> isError data = false ->
  rejectError what data w = (Normal tt, w).
Proof.
  intros Hn He. unfold rejectError, bindM, lift, ret, isError in *.
  destruct (get data "object") as [o|e] eqn:Ho.
  - rewrite He. reflexivity.
  - destruct data; discriminate.
Qed.

Lemma rejectError_throws what data msg w :
  get data "object" = Normal (Str "error") ->
  get data "message" = Normal (Str msg) ->
  rejectError what data w = (Throw (Error (what ++ ": " ++ msg)), w).
Proof.
  intros Ho Hm. unfold rejectError, bindM, lift, throw. rewrite Ho. simpl.
  rewrite Hm. reflexivity.
Qed.

(** A ticket's details are read with two requests, the page and then its
    blocks, with the pause between them.  An error object in answer to
    the first ends the call before the second is sent; the ticket is the
    extraction of the first answer, the description the trimmed lines of
    the blocks of the second. *)
Theorem fetchTicketDetails_two_reads :
  forall (pageId : string) (w : World) (page : value) (rest : list value),
    remote w = page :: rest ->
    (forall msg,
       get page "object" = Normal (Str "error") ->
       get page "message" = Normal (Str msg) ->
       fetchTicketDetails AI_SQUAD_ID pageId w
       = (Throw (Error ("Failed to fetch ticket: " ++ msg)),
          served w rest [pageRequest pageId]))
    /\ (forall ticket content rest',
          nullish page = false -> isError page = false ->
          extractTicket AI_SQUAD_ID page = Normal ticket ->
          rest = content :: rest' ->
          let events := [pageRequest pageId; Sleep RATE_LIMIT_DELAY; blocksRequest pageId] in
          (forall msg,
             get content "object" = Normal (Str "error") ->
             get content "message" = Normal (Str msg) ->
             fetchTicketDetails AI_SQUAD_ID pageId w
             = (Throw (Error ("Failed to fetch ticket content: " ++ msg)),
                served w rest' events))
          /\ (forall blocks textParts,
                nullish content = false -> isError content = false ->
                resultsOf content = Normal blocks ->
                collectText blocks [] = Normal textParts ->
                fetchTicketDetails AI_SQUAD_ID pageId w
                = (Normal {| Details.ticket := ticket;
                             Details.description :=
                               trim (String.concat newline textParts) |},
                   served w rest' events))).
Proof.
  intros pageId w page rest Hr. split.
  - intros msg Ho Hm. unfold fetchTicketDetails.
    unfold bindM at 1. unfold notionFetch at 1, bindM at 1, emit at 1. simpl. rewrite Hr.
    unfold bindM at 1. rewrite (rejectError_throws _ _ msg _ Ho Hm). reflexivity.
  - intros ticket content rest' Hn He Ht -> events. split.
    + intros msg Ho Hm. unfold fetchTicketDetails.
      unfold bindM at 1. unfold notionFetch at 1, bindM at 1, emit at 1. simpl. rewrite Hr.
      unfold bindM at 1. rewrite (rejectError_passes _ _ _ Hn He).
      unfold bindM at 1, lift at 1. rewrite Ht.
      unfold bindM at 1, sleep at 1, emit at 1.
      unfold bindM at 1. unfold notionFetch at 1, bindM at 1, emit at 1. simpl.
      unfold bindM at 1. rewrite (rejectError_throws _ _ msg _ Ho Hm).
      unfold served, events. simpl. rewrite <- !app_assoc. reflexivity.
    + intros blocks textParts Hn' He' Hb Hc. unfold fetchTicketDetails.
      unfold bindM at 1. unfold notionFetch at 1, bindM at 1, emit at 1. simpl. rewrite Hr.
      unfold bindM at 1. rewrite (rejectError_passes _ _ _ Hn He).
      unfold bindM at 1, lift at 1. rewrite Ht.
      unfold bindM at 1, sleep at 1, emit at 1.
      unfold bindM at 1. unfold notionFetch at 1, bindM at 1, emit at 1. simpl.
      unfold bindM at 1. rewrite (rejectError_passes _ _ _ Hn' He').
      unfold resultsOf in Hb.
      unfold bindM at 1, lift at 1. rewrite Hb.
      unfold bindM at 1, lift at 1. rewrite Hc.
      unfold ret, served, events. simpl. rewrite <- !app_assoc. reflexivity.
Qed.

End DetailFacts.

Section DescriptionFacts.

Lemma collectText_app (before after : list value) (textParts : list string) :
  collectText (before ++ after) textParts
  = (collected <- collectText before textParts ;; collectText after collected).
Proof.
  revert textParts. induction before as [|block before IH]; intros textParts;
    [reflexivity|].
  cbn [app collectText].
  destruct (renderFrom rendered block textParts) as [pushed|e]; [|reflexivity].
  cbn [bind]. apply IH.
Qed.

Lemma collectText_passedOver (junk : list value) (textParts : list string) :
  Forall passedOver junk -> collectText junk textParts = Normal textParts.
Proof.
  induction 1 as [|block junk Hb _ IH]; [reflexivity|].
  cbn [collectText]. rewrite Hb. exact IH.
Qed.

Lemma plainTextOf_span (text : string) :
  plainTextOf (Arr [span text]) = Normal text.
Proof. reflexivity. Qed.

Lemma renderFrom_textBlock (kind text : string) (line : nat -> string -> string)
      (textParts : list string) :
  In (kind, line) rendered ->
  renderFrom rendered (textBlock kind text) textParts
  = Normal (if blank text then textParts
            else (textParts ++ [line (List.length textParts) text])%list).
Proof.
  intros Hin. unfold rendered in Hin. cbn [In] in Hin.
  repeat (destruct Hin as [E|Hin]; [injection E as <- <-; reflexivity|]).
  destruct Hin.
Qed.

(** The number in front of a numbered list item is one more than the
    count of the lines collected before it, of whatever kind they are:
    paragraphs, headings and bullets count, and an item whose text is
    blank is not counted.  It is not the item's rank in its list. *)
Theorem numbered_item_counts_lines :
  forall (before : list value) (text : string) (textParts : list string),
    collectText before [] = Normal textParts ->
    blank text = false ->
    collectText (before ++ [textBlock "numbered_list_item" text]) []
    = Normal (textParts
              ++ [(decimal (List.length textParts + 1) ++ ". " ++ text)%string])%list.
Proof.
  intros before text textParts Hb Hn.
  rewrite collectText_app, Hb. cbn [bind collectText].
  rewrite (renderFrom_textBlock "numbered_list_item" text
             (fun count t => decimal (count + 1) ++ ". " ++ t)).
  - rewrite Hn. reflexivity.
  - unfold rendered. cbn [In]. tauto.
Qed.

Lemma numbered_item_counts_lines_witness :
  collectText [textBlock "paragraph" "Steps:";
               textBlock "numbered_list_item" "   ";
               textBlock "numbered_list_item" "Install"] []
  = Normal ["Steps:"; "2. Install"].
Proof.
  apply (numbered_item_counts_lines
           [textBlock "paragraph" "Steps:"; textBlock "numbered_list_item" "   "]
           "Install" ["Steps:"]); reflexivity.
Defined.

(** A block adds at most one line and removes none. *)
Lemma renderFrom_grows (arms : list (string * (nat -> string -> string)))
      (block : value) (textParts pushed : list string) :
  renderFrom arms block textParts = Normal pushed ->
  pushed = textParts \/ exists line, pushed = (textParts ++ [line])%list.
Proof.
  induction arms as [|[kind line] others IH]; cbn [renderFrom].
  - intros E. injection E as <-. now left.
  - destruct (get block "type") as [type|e]; [|discriminate]. cbn [bind].
    destruct (is_str type kind); [|exact IH].
    destruct (get block kind) as [holder|e]; [|discriminate]. cbn [bind].
    destruct (opt_get holder "rich_text") as [rich|e]; [|discriminate]. cbn [bind].
    destruct (truthy rich); [|exact IH].
    destruct (plainTextOf rich) as [text|e]; [|discriminate]. cbn [bind].
    intros E. injection E as <-.
    destruct (String.eqb (trim text) ""); [now left|right; eauto].
Qed.

(** A block is passed over when its type is none of the six rendered, and
    when it is of a rendered type with blank text.  Blocks passed over
    leave no mark: dropping them from the page changes no line, no
    number and so not the description. *)
Theorem unrendered_blocks_leave_no_mark :
  (forall fields type,
     own fields "type" = Some type ->
     existsb (is_str type) (map fst rendered) = false ->
     passedOver (Obj fields))
  /\ (forall kind line text,
        In (kind, line) rendered -> blank text = true -> passedOver (textBlock kind text))
  /\ (forall before junk after textParts,
        Forall passedOver junk ->
        collectText (before ++ junk ++ after) textParts
        = collectText (before ++ after) textParts)
  /\ (forall blocks textParts collected,
        collectText blocks textParts = Normal collected ->
        exists added,
          collected = (textParts ++ added)%list
          /\ List.length added <= List.length blocks).
Proof.
  split; [|split; [|split]].
  - intros fields type Hown Hnone textParts.
    unfold rendered in *. cbn [map fst existsb] in Hnone.
    repeat (apply orb_false_elim in Hnone; destruct Hnone as [? Hnone]).
    cbn [renderFrom get]. rewrite Hown. cbn [bind].
    repeat match goal with
           | H : is_str type _ = false |- _ => rewrite H; clear H
           end.
    reflexivity.
  - intros kind line text Hin Hb textParts.
    rewrite (renderFrom_textBlock kind text line _ Hin), Hb. reflexivity.
  - intros before junk after textParts Hj.
    rewrite !collectText_app.
    destruct (collectText before textParts) as [collected|e]; [|reflexivity].
    cbn [bind]. rewrite collectText_app, (collectText_passedOver junk collected Hj).
    reflexivity.
  - intros blocks. induction blocks as [|block blocks IH]; intros textParts collected.
    + intros E. injection E as <-. exists []. now rewrite app_nil_r.
    + cbn [collectText].
      destruct (renderFrom rendered block textParts) as [pushed|e] eqn:Hp; [|discriminate].
      cbn [bind]. intros Hc. destruct (IH _ _ Hc) as (added & -> & Hlen).
      destruct (renderFrom_grows _ _ _ _ Hp) as [->|[line ->]].
      * exists added. split; [reflexivity|]. cbn [List.length]. lia.
      * exists (line :: added). rewrite <- app_assoc. split; [reflexivity|].
        cbn [List.length]. lia.
Qed.

Lemma unrendered_blocks_leave_no_mark_witness :
  collectText ([textBlock "paragraph" "One"]
               ++ [Obj [("type", Str "divider")]; textBlock "heading_1" "  "]
               ++ [textBlock "numbered_list_item" "Two"]) []
  = collectText ([textBlock "paragraph" "One"]
                 ++ [textBlock "numbered_list_item" "Two"]) [].
Proof.
  destruct unrendered_blocks_leave_no_mark as (Hother & Hblank & Hdrop & _).
  apply Hdrop. apply Forall_cons; [|apply Forall_cons; [|apply Forall_nil]].
  - apply (Hother _ (Str "divider")); reflexivity.
  - apply (Hblank "heading_1" (fun _ text => newline ++ "# " ++ text ++ newline));
      [unfold rendered; cbn [In]; tauto | reflexivity].
Defined.

End DescriptionFacts.

Section TrimFacts.

Lemma trimStart_first (s : string) (c : ascii) :
  firstChar (trimStart s) = Some c -> is_space c = false.
Proof.
  induction s as [|d rest IH]; cbn [trimStart]; [discriminate|].
  destruct (is_space d) eqn:Hd; [exact IH|].
  cbn [firstChar]. intros E. injection E as <-. exact Hd.
Qed.

Lemma trimEnd_last (s : string) (c : ascii) :
  lastChar (trimEnd s) = Some c -> is_space c = false.
Proof.
  induction s as [|d rest IH]; cbn [trimEnd]; [discriminate|].
  destruct (is_space d && String.eqb (trimEnd rest) "") eqn:Hd; [discriminate|].
  cbn [lastChar]. destruct (lastChar (trimEnd rest)) as [e|] eqn:Hl.
  - intros E. injection E as <-. apply IH. reflexivity.
  - intros E. injection E as <-.
    destruct (trimEnd rest); [|cbn [lastChar] in Hl; destruct (lastChar s); discriminate].
    rewrite andb_true_r in Hd. exact Hd.
Qed.

Lemma trimEnd_first (s : string) (c : ascii) :
  firstChar (trimEnd s) = Some c -> firstChar s = Some c.
Proof.
  destruct s as [|d rest]; cbn [trimEnd]; [discriminate|].
  destruct (is_space d && String.eqb (trimEnd rest) ""); [discriminate|].
  exact (fun E => E).
Qed.

Lemma trim_trimmed (s : string) : trimmed (trim s).
Proof.
  split; intros c H.
  - apply (trimStart_first s). apply trimEnd_first. exact H.
  - apply (trimEnd_last (trimStart s)). exact H.
Qed.

Variable AI_SQUAD_ID : string.

(** The description [fetchTicketDetails] returns has no white space at
    either end, whatever the blocks hold: the line feeds a heading puts
    around its text are cut off where the heading comes first or last. *)
Theorem fetchTicketDetails_description_trimmed :
  forall (pageId : string) (w : World) (details : Details.t),
    fst (fetchTicketDetails AI_SQUAD_ID pageId w) = Normal details ->
    trimmed (Details.description details).
Proof.
  intros pageId w details. unfold fetchTicketDetails.
  repeat (unfold bindM at 1;
          match goal with
          | |- context [match ?m w with _ => _ end] =>
              destruct (m w) as [[?|?] ?]; [|discriminate]
          | |- fst (let (_, _) := ?m ?w' in _) = _ -> _ =>
              destruct (m w') as [[?|?] ?]; [|discriminate]
          | |- fst match ?m ?w' with _ => _ end = _ -> _ =>
              destruct (m w') as [[?|?] ?]; [|discriminate]
          end).
  unfold ret. cbn [fst]. intros E. injection E as <-. cbn [Details.description].
  apply trim_trimmed.
Qed.

End TrimFacts.

Lemma fetchTicketDetails_two_reads_witness :
  exists ticket,
    extractTicket "" (open_ticket_page TARGET_APP) = Normal ticket
    /\ fetchTicketDetails "" "page-1"
         (world_ready [open_ticket_page TARGET_APP;
                       blockList [textBlock "paragraph" "Users cannot log in."]] None)
       = (Normal {| Details.ticket := ticket;
                    Details.description := "Users cannot log in." |},
          served (world_ready [open_ticket_page TARGET_APP;
                               blockList [textBlock "paragraph" "Users cannot log in."]]
                    None) []
            [pageRequest "page-1"; Sleep RATE_LIMIT_DELAY; blocksRequest "page-1"]).
Proof.
  evaluate (extractTicket "" (open_ticket_page TARGET_APP)) as ticket.
  exists ticket. split; [reflexivity|].
  destruct (fetchTicketDetails_two_reads "" "page-1"
              (world_ready [open_ticket_page TARGET_APP;
                            blockList [textBlock "paragraph" "Users cannot log in."]] None)
              (open_ticket_page TARGET_APP)
              [blockList [textBlock "paragraph" "Users cannot log in."]] eq_refl)
    as (_ & H).
  destruct (H ticket (blockList [textBlock "paragraph" "Users cannot log in."]) []
              eq_refl eq_refl eq_refl eq_refl) as (_ & Hok).
  apply (Hok [textBlock "paragraph" "Users cannot log in."] ["Users cannot log in."]);
    reflexivity.
Defined.

Lemma fetchTicketDetails_description_trimmed_witness :
  exists details w',
    fetchTicketDetails "" "page-1"
      (world_ready [open_ticket_page TARGET_APP;
                    blockList [textBlock "heading_1" "Goal";
                               textBlock "paragraph" " Make it work ";
                               textBlock "heading_2" "Notes"]] None)
    = (Normal details, w')
    /\ Details.description details
       = "# Goal" ++ newline ++ newline ++ " Make it work " ++ newline ++ newline
         ++ "## Notes"
    /\ trimmed (Details.description details).
Proof.
  run (fetchTicketDetails "" "page-1"
         (world_ready [open_ticket_page TARGET_APP;
                       blockList [textBlock "heading_1" "Goal";
                                  textBlock "paragraph" " Make it work ";
                                  textBlock "heading_2" "Notes"]] None)) as details w'.
  exists details, w'.
  assert (Hrun : fetchTicketDetails "" "page-1"
                   (world_ready [open_ticket_page TARGET_APP;
                                 blockList [textBlock "heading_1" "Goal";
                                            textBlock "paragraph" " Make it work ";
                                            textBlock "heading_2" "Notes"]] None)
                 = (Normal details, w')) by (vm_compute; reflexivity).
  split; [exact Hrun|]. split; [vm_compute; reflexivity|].
  apply (fetchTicketDetails_description_trimmed "" "page-1"
           (world_ready [open_ticket_page TARGET_APP;
                         blockList [textBlock "heading_1" "Goal";
                                    textBlock "paragraph" " Make it work ";
                                    textBlock "heading_2" "Notes"]] None)).
  rewrite Hrun. reflexivity.
Defined.

(* ===================================================================== *)
(** ** The data source *)

Section DataSource.

Variable DB_ID : string.

Lemma of_nat_succ (n : nat) : is_zero (of_nat (S n)) = false.
Proof.
  unfold is_zero, of_nat.
  destruct (String.eqb_spec (NilEmpty.string_of_uint (Nat.to_uint (S n))) "0") as [E|];
    [|reflexivity].
  exfalso.
  assert (H : NilEmpty.uint_of_string (NilEmpty.string_of_uint (Nat.to_uint (S n)))
              = Some (Nat.to_uint (S n))) by apply NilEmpty.usu.
  rewrite E in H.
  change (NilEmpty.uint_of_string "0") with (Some (Decimal.D0 Decimal.Nil)) in H.
  injection H as H.
  apply (f_equal Nat.of_uint) in H. rewrite DecimalNat.Unsigned.of_to in H.
  discriminate.
Qed.

Lemma find_tickets (sources : list (string * string)) :
  find_first (fun s => name <- get s "name" ;; includes_method name "Tickets")
    (map dataSource sources)
  = Normal match List.find (fun source => str_includes (fst source) "Tickets") sources with
           | Some source => dataSource source
           | None => Undefined
           end.
Proof.
  induction sources as [|[name id] rest IH]; [reflexivity|].
  cbn [map find_first List.find fst]. unfold dataSource at 1. cbn.
  destruct (str_includes name "Tickets"); [reflexivity|exact IH].
Qed.

Lemma resolveDataSourceId_cold (w : World) (sources : list (string * string))
      (rest : list value) :
  truthy (dataSourceId w) = false ->
  remote w = database sources :: rest ->
  resolveDataSourceId DB_ID w
  = match chosenSource sources with
    | Some id =>
        (Normal (Str id),
         mkWorld rest (Str id) (stateFile w) (now w)
           (trace w ++ [databaseRequest DB_ID]))
    | None =>
        (Throw (Error "No data sources found on Shipyard database"),
         served w rest [databaseRequest DB_ID])
    end.
Proof.
  intros Hcold Hremote.
  unfold resolveDataSourceId. rewrite Hcold.
  unfold bindM, notionFetch, bindM, emit, lift, throw, ret, setDataSourceId.
  cbn [remote]. rewrite Hremote. unfold database at 1 2.
  cbn -[find_method of_nat is_zero List.length map].
  unfold chosenSource, served, databaseRequest.
  destruct sources as [|source more]; [reflexivity|].
  cbn [map List.length]. rewrite of_nat_succ.
  change (dataSource source :: map dataSource more)
    with (map dataSource (source :: more)).
  unfold find_method. rewrite find_tickets.
  destruct (List.find _ (source :: more)) as [[name id]|]; reflexivity.
Qed.

(** The data source is looked up once.  With the id in hand no request
    is made; the first call asks the remote for the database and takes
    the first data source whose name contains "Tickets", or the first of
    all when there is none; any call after one that returned a usable id
    returns the same id without a request.  A database without data
    sources and an error object end the call, and nothing is kept. *)
Theorem resolveDataSourceId_once :
  (forall w id w1,
      resolveDataSourceId DB_ID w = (Normal id, w1) -> truthy id = true ->
      resolveDataSourceId DB_ID w1 = (Normal id, w1))
  /\ (forall w sources rest,
        truthy (dataSourceId w) = false ->
        remote w = database sources :: rest ->
        resolveDataSourceId DB_ID w
        = match chosenSource sources with
          | Some id =>
              (Normal (Str id),
               mkWorld rest (Str id) (stateFile w) (now w)
                 (trace w ++ [databaseRequest DB_ID]))
          | None =>
              (Throw (Error "No data sources found on Shipyard database"),
               served w rest [databaseRequest DB_ID])
          end)
  /\ (forall w data rest msg,
        truthy (dataSourceId w) = false ->
        remote w = data :: rest ->
        get data "object" = Normal (Str "error") ->
        get data "message" = Normal (Str msg) ->
        resolveDataSourceId DB_ID w
        = (Throw (Error ("Failed to resolve data sources: " ++ msg)),
           served w rest [databaseRequest DB_ID])).
Proof.
  split; [|split].
  - intros w id w1 Hrun Hid.
    assert (Hcached : dataSourceId w1 = id).
    { revert Hrun. unfold resolveDataSourceId.
      destruct (truthy (dataSourceId w)) eqn:Hw.
      - intros E. injection E as <- <-. reflexivity.
      - unfold bindM, notionFetch, bindM, emit, lift, throw, ret, setDataSourceId.
        cbn [remote]. destruct (remote w) as [|data left]; [discriminate|].
        cbn [fst snd]. destruct (get data "object") as [o|]; [|discriminate].
        destruct (is_str o "error").
        { destruct (Js.bind (get data "message") _); discriminate. }
        destruct (get data "data_sources") as [found|]; [|discriminate].
        destruct (get (coalesce found (Arr [])) "length") as [len|]; [|discriminate].
        destruct (is_zero len); [discriminate|].
        destruct (find_method _ _) as [tickets|]; [|discriminate].
        destruct (opt_get tickets "id") as [picked|]; [|discriminate].
        destruct (nullish picked).
        + destruct (Js.bind (item0 _) _); [|discriminate].
          intros E. injection E as <- <-. reflexivity.
        + intros E. injection E as <- <-. reflexivity. }
    unfold resolveDataSourceId. rewrite Hcached, Hid. reflexivity.
  - exact resolveDataSourceId_cold.
  - intros w data rest msg Hcold Hremote Ho Hm.
    unfold resolveDataSourceId. rewrite Hcold.
    unfold bindM, notionFetch, bindM, emit, lift, throw.
    cbn [remote]. rewrite Hremote. cbn [fst snd]. rewrite Ho. cbn. rewrite Hm.
    reflexivity.
Qed.

End DataSource.

Lemma resolveDataSourceId_once_witness :
  resolveDataSourceId "db"
    (mkWorld [database [("Roadmap", "ds-0"); ("Capabl OS Tickets", "ds-1")]] Null None
       "2026-01-01T00:00:00.000Z" [])
  = (Normal (Str "ds-1"),
     mkWorld [] (Str "ds-1") None "2026-01-01T00:00:00.000Z" [databaseRequest "db"])
  /\ resolveDataSourceId "db"
       (mkWorld [] (Str "ds-1") None "2026-01-01T00:00:00.000Z" [databaseRequest "db"])
     = (Normal (Str "ds-1"),
        mkWorld [] (Str "ds-1") None "2026-01-01T00:00:00.000Z" [databaseRequest "db"]).
Proof.
  destruct (resolveDataSourceId_once "db") as (Hagain & Hfirst & _).
  assert (H : resolveDataSourceId "db"
                (mkWorld [database [("Roadmap", "ds-0"); ("Capabl OS Tickets", "ds-1")]]
                   Null None "2026-01-01T00:00:00.000Z" [])
              = (Normal (Str "ds-1"),
                 mkWorld [] (Str "ds-1") None "2026-01-01T00:00:00.000Z"
                   [databaseRequest "db"])).
  { exact (Hfirst (mkWorld [database [("Roadmap", "ds-0"); ("Capabl OS Tickets", "ds-1")]]
                     Null None "2026-01-01T00:00:00.000Z" [])
             [("Roadmap", "ds-0"); ("Capabl OS Tickets", "ds-1")] []
             eq_refl eq_refl). }
  split; [exact H|]. exact (Hagain _ _ _ H eq_refl).
Defined.

(* ===================================================================== *)
(** ** A ticket created, read back *)

Section CreatedTicket.

Variable AI_SQUAD_ID DB_ID : string.
Variable JSON_stringify : value -> string.

Lemma resolveDataSourceId_warm (w : World) :
  truthy (dataSourceId w) = true ->
  resolveDataSourceId DB_ID w = (Normal (dataSourceId w), w).
Proof. intros H. unfold resolveDataSourceId. now rewrite H. Qed.

Lemma truthy_Str (s : string) : s <> "" -> truthy (Str s) = true.
Proof. intros H. cbn. now destruct (String.eqb_spec s ""). Qed.

Lemma assigneeProperty_cases (team : list (string * string)) (assignee : option string) :
  assigneeProperty AI_SQUAD_ID team assignee = []
  \/ (exists userId, assigneeProperty AI_SQUAD_ID team assignee
                     = [("Assignee", people userId)])
  \/ assigneeProperty AI_SQUAD_ID team assignee
     = [("Assignee", Obj [("people", Arr [Obj [("id", Obj [])]])])]
  \/ assigneeProperty AI_SQUAD_ID team assignee
     = [("Assignee", Obj [("people", Arr [Obj []])])].
Proof.
  unfold assigneeProperty, personOf, people.
  destruct assignee as [name|]; [destruct (String.eqb name "")|];
    try destruct (lookup team name) as [userId|];
    try destruct (String.eqb userId "");
    try destruct (String.eqb name "__proto__");
    try destruct (existsb (String.eqb name) inherited);
    destruct (String.eqb AI_SQUAD_ID ""); eauto.
Qed.

End CreatedTicket.

(** What [createTicket] writes is, once returned by the remote under the
    types of its properties, a ticket both selections take: its status is
    "Open", its application the target application, its area, type and
    priority those asked for, with "Task" and "P0" when none is given.
    Created without an assignee it belongs to the AI squad, so it is
    ready and in the active queue; created for a team member other than
    the AI squad it is in neither.  Created for a name that is no team
    member but a member every object inherits, "constructor" for one, it
    is assigned to a person without a usable id, not to the AI squad, and
    is in neither. *)
Theorem created_ticket_is_selected :
  forall (AI_SQUAD_ID DB_ID : string) (JSON_stringify : value -> string)
         (title area : string) (body priority assignee type : option string)
         (w : World) (id : string) (rest : list value),
    truthy (dataSourceId w) = true ->
    id <> "" ->
    remote w = echoed id (creationFields AI_SQUAD_ID area priority assignee type) :: rest ->
    exists payload ticket,
      createTicket AI_SQUAD_ID DB_ID JSON_stringify title area body priority assignee type w
      = (Normal ticket,
         served w rest [Request "POST" "/pages" payload; Sleep RATE_LIMIT_DELAY])
      /\ sentProperties payload
         = ("Ticket",
            Obj [("title",
                  Arr [Obj [("text", Obj [("content", Str (String.substring 0 200 title))])]])])
           :: creationFields AI_SQUAD_ID area priority assignee type
      /\ Ticket.id ticket = Str id
      /\ Ticket.status ticket = Str "Open"
      /\ Ticket.application ticket = Str TARGET_APP
      /\ Ticket.area ticket = Str area
      /\ Ticket.type ticket = Str (or_default type "Task")
      /\ Ticket.priority ticket = Str (or_default priority "P0")
      /\ (assignee = None -> isReady ticket = true /\ isActive ticket = true)
      /\ (forall name userId,
            assignee = Some name -> In (name, userId) TEAM_USERS ->
            AI_SQUAD_ID <> "" -> userId <> AI_SQUAD_ID ->
            isReady ticket = false /\ isActive ticket = false)
      /\ (forall name,
            assignee = Some name -> In name inherited ->
            own (sentProperties payload) "Assignee"
            = Some (Obj [("people",
                          Arr [if String.eqb name "__proto__"
                               then Obj [("id", Obj [])] else Obj []])])
            /\ (AI_SQUAD_ID <> "" -> isReady ticket = false /\ isActive ticket = false)).
Proof.
  intros AI DB stringify title area body priority assignee type w id rest Hwarm Hid Hremote.
  unfold createTicket. unfold bindM at 1.
  rewrite (resolveDataSourceId_warm DB w Hwarm).
  unfold bindM at 1. unfold notionFetch at 1. unfold bindM at 1, emit at 1.
  cbn [remote]. rewrite Hremote. cbn [fst snd].
  unfold bindM at 1, lift at 1. unfold echoed at 1. cbn [get own String.eqb Ascii.eqb Bool.eqb].
  rewrite (truthy_Str id Hid). cbn [negb].
  unfold bindM at 1, sleep at 1, emit at 1. unfold lift.
  fold (creationFields AI area priority assignee type).
  assert (Hteam : forall name userId,
             assignee = Some name -> In (name, userId) TEAM_USERS ->
             assigneeProperty AI TEAM_USERS assignee = [("Assignee", people userId)]).
  { intros name userId -> Hin. unfold assigneeProperty.
    cbn [In TEAM_USERS] in Hin.
    destruct Hin as [E|[E|[E|[]]]]; injection E as <- <-; reflexivity. }
  assert (Hnone : assignee = None ->
                  assigneeProperty AI TEAM_USERS assignee
                  = if String.eqb AI "" then [] else [("Assignee", people AI)]).
  { intros ->. reflexivity. }
  assert (Hforeign : forall name,
             assignee = Some name -> In name inherited ->
             assigneeProperty AI TEAM_USERS assignee
             = [("Assignee",
                 Obj [("people",
                       Arr [if String.eqb name "__proto__"
                            then Obj [("id", Obj [])] else Obj []])])]).
  { intros name -> Hin. unfold assigneeProperty.
    cbn [In inherited] in Hin.
    repeat (destruct Hin as [<-|Hin]; [reflexivity|]). destruct Hin. }
  destruct (assigneeProperty_cases AI TEAM_USERS assignee)
    as [Hf|[[assigned Hf]|[Hf|Hf]]];
    unfold echoed, creationFields; rewrite Hf in *;
    cbn -[String.substring chunksFrom TARGET_APP String.eqb TEAM_USERS In inherited
          isAssignedToAISquad];
    unfold isAssignedToAISquad;
    destruct (String.eqb_spec AI "") as [Hai|Hai];
    cbn -[String.substring chunksFrom TARGET_APP String.eqb TEAM_USERS In inherited];
    (eexists; eexists; split;
     [unfold served; cbn [remote dataSourceId stateFile now trace];
      rewrite <- app_assoc; reflexivity|]);
    cbn -[String.substring chunksFrom TARGET_APP String.eqb TEAM_USERS In inherited];
    repeat (split; [reflexivity|]);
    unfold isReady, isActive;
    cbn -[String.substring chunksFrom TARGET_APP String.eqb TEAM_USERS In inherited];
    rewrite ?String.eqb_refl;
    (split; [intros Hn|split; [intros name userId Ha Hin Hsquad Hne|intros name Ha Hin]]).
  all: try contradiction.
  all: try (specialize (Hnone Hn)); try (specialize (Hteam name userId Ha Hin));
    try (specialize (Hforeign name Ha Hin)).
  all: try discriminate.
  all: try (split; reflexivity).
  all: try (injection Hnone as ->; unfold value_eq_str; cbn [is_str coalesce nullish];
            rewrite !String.eqb_refl; split; reflexivity).
  all: try (injection Hteam as ->; unfold value_eq_str; cbn [is_str coalesce nullish];
            destruct (String.eqb_spec userId AI) as [E|_]; [contradiction|];
            rewrite !String.eqb_refl; split; reflexivity).
  all: try (unfold people in Hforeign; revert Hforeign;
            destruct (String.eqb name "__proto__"); intros Hforeign;
            first [discriminate Hforeign
                  |split; [reflexivity
                          |intros Hset; try contradiction; split; reflexivity]]).
Qed.

Lemma created_ticket_is_selected_witness :
  (exists payload ticket w',
     createTicket "squad-1" "db" (fun _ => "{}") "Fix the login page" "Backend"
       (Some "Users cannot log in.") None None None
       (world_ready [echoed "page-9" (creationFields "squad-1" "Backend" None None None)]
          None)
     = (Normal ticket, w')
     /\ trace w' = [Request "POST" "/pages" payload; Sleep RATE_LIMIT_DELAY]
     /\ Ticket.priority ticket = Str "P0"
     /\ isReady ticket = true
     /\ isActive ticket = true)
  /\ (exists payload ticket w',
        createTicket "squad-1" "db" (fun _ => "{}") "Fix the login page" "Backend"
          None None (Some "constructor") None
          (world_ready [echoed "page-9"
                          (creationFields "squad-1" "Backend" None (Some "constructor")
                             None)] None)
        = (Normal ticket, w')
        /\ trace w' = [Request "POST" "/pages" payload; Sleep RATE_LIMIT_DELAY]
        /\ own (sentProperties payload) "Assignee"
           = Some (Obj [("people", Arr [Obj []])])
        /\ isReady ticket = false
        /\ isActive ticket = false).
Proof.
  split.
  - destruct (created_ticket_is_selected "squad-1" "db" (fun _ => "{}")
                "Fix the login page" "Backend" (Some "Users cannot log in.") None None None
                (world_ready [echoed "page-9"
                                (creationFields "squad-1" "Backend" None None None)] None)
                "page-9" [] eq_refl ltac:(discriminate) eq_refl)
      as (payload & ticket & Hrun & _ & _ & _ & _ & _ & _ & Hp & Hnone & _).
    exists payload, ticket. eexists.
    split; [exact Hrun|]. split; [reflexivity|]. split; [exact Hp|].
    exact (Hnone eq_refl).
  - destruct (created_ticket_is_selected "squad-1" "db" (fun _ => "{}")
                "Fix the login page" "Backend" None None (Some "constructor") None
                (world_ready [echoed "page-9"
                                (creationFields "squad-1" "Backend" None
                                   (Some "constructor") None)] None)
                "page-9" [] eq_refl ltac:(discriminate) eq_refl)
      as (payload & ticket & Hrun & _ & _ & _ & _ & _ & _ & _ & _ & _ & Hforeign).
    destruct (Hforeign "constructor" eq_refl ltac:(cbn; tauto)) as [Hsent Hout].
    exists payload, ticket. eexists.
    split; [exact Hrun|]. split; [reflexivity|]. split; [exact Hsent|].
    exact (Hout ltac:(discriminate)).
Defined.

(* ===================================================================== *)
(** ** A creation that fails *)

(** [createTicket] takes an answer without a usable id for a failed
    creation: it throws with the answer's text and does not pause.  When
    the answer has an id the page exists; if reading the answer then
    fails, the call throws all the same, after the pause, and its caller
    never learns the id. *)
Theorem createTicket_failures :
  forall (AI_SQUAD_ID DB_ID : string) (JSON_stringify : value -> string)
         (title area : string) (body priority assignee type : option string)
         (w w1 : World) (dsId data : value) (rest : list value),
    resolveDataSourceId DB_ID w = (Normal dsId, w1) ->
    remote w1 = data :: rest ->
    exists payload,
      (forall id,
          get data "id" = Normal id -> truthy id = false ->
          createTicket AI_SQUAD_ID DB_ID JSON_stringify title area body priority assignee
            type w
          = (Throw (Error ("Ticket creation failed: " ++ JSON_stringify data)),
             served w1 rest [Request "POST" "/pages" payload]))
      /\ (forall id e,
            get data "id" = Normal id -> truthy id = true ->
            extractTicket AI_SQUAD_ID data = Throw e ->
            createTicket AI_SQUAD_ID DB_ID JSON_stringify title area body priority assignee
              type w
            = (Throw e,
               served w1 rest [Request "POST" "/pages" payload; Sleep RATE_LIMIT_DELAY])).
Proof.
  intros AI DB stringify title area body priority assignee type w w1 dsId data rest
    Hres Hremote.
  eexists. split.
  - intros id Hid Hfalsy.
    unfold createTicket. unfold bindM at 1. rewrite Hres.
    unfold bindM at 1. unfold notionFetch at 1. unfold bindM at 1, emit at 1.
    cbn [remote]. rewrite Hremote. cbn [fst snd].
    unfold bindM, lift, throw. rewrite Hid, Hfalsy. reflexivity.
  - intros id e Hid Htruthy Hextract.
    unfold createTicket. unfold bindM at 1. rewrite Hres.
    unfold bindM at 1. unfold notionFetch at 1. unfold bindM at 1, emit at 1.
    cbn [remote]. rewrite Hremote. cbn [fst snd].
    unfold bindM, lift, sleep, emit. rewrite Hid, Htruthy, Hextract.
    unfold served. cbn. rewrite <- app_assoc. reflexivity.
Qed.

Lemma createTicket_failures_witness :
  exists payload,
    createTicket "" "db" (fun _ => "{...}") "Fix the login page" "Backend" None None None
      None (world_ready [errorObject "validation_error"] None)
    = (Throw (Error "Ticket creation failed: {...}"),
       served (world_ready [errorObject "validation_error"] None) []
         [Request "POST" "/pages" payload])
    /\ createTicket "" "db" (fun _ => "{...}") "Fix the login page" "Backend" None None
         None None
         (world_ready [Obj [("id", Str "page-9");
                            ("properties", Obj [("Ticket", Obj [("type", Str "title");
                                                               ("title", Str "text")])])]]
            None)
       = (Throw TypeError,
          served (world_ready [Obj [("id", Str "page-9");
                                    ("properties",
                                     Obj [("Ticket", Obj [("type", Str "title");
                                                          ("title", Str "text")])])]]
                    None) []
            [Request "POST" "/pages" payload; Sleep RATE_LIMIT_DELAY]).
Proof.
  destruct (createTicket_failures "" "db" (fun _ => "{...}") "Fix the login page" "Backend"
              None None None None
              (world_ready [errorObject "validation_error"] None)
              (world_ready [errorObject "validation_error"] None)
              (Str "ds-1") (errorObject "validation_error") [] eq_refl eq_refl)
    as (payload & Hnoid & _).
  exists payload. split.
  - exact (Hnoid Undefined eq_refl eq_refl).
  - specialize (Hnoid Undefined eq_refl eq_refl).
    vm_compute in Hnoid. injection Hnoid as <-. vm_compute. reflexivity.
Defined.

(** In the environment-configured copy a creation with no application,
    neither passed nor configured, is refused before the page is written.
    The data source is looked up first: with the id in hand nothing at
    all is sent, without it the database is asked before the refusal. *)
Theorem createTicket_env_refused :
  forall (TEAM_USERS : list (string * string)) (AI_SQUAD_ID DB_ID : string)
         (JSON_stringify : value -> string)
         (title area : string) (body priority assignee : option string),
    let create :=
      EnvConfigured.createTicket "" TEAM_USERS AI_SQUAD_ID DB_ID JSON_stringify
        title area body priority assignee None in
    let refusal := Error "TARGET_APP is not set and no application was provided" in
    (forall w, truthy (dataSourceId w) = true -> create w = (Throw refusal, w))
    /\ (forall w dsId w1,
          resolveDataSourceId DB_ID w = (Normal dsId, w1) ->
          create w = (Throw refusal, w1))
    /\ (forall w sources rest id,
          truthy (dataSourceId w) = false ->
          remote w = database sources :: rest ->
          chosenSource sources = Some id ->
          create w
          = (Throw refusal,
             mkWorld rest (Str id) (stateFile w) (now w)
               (trace w ++ [databaseRequest DB_ID]))).
Proof.
  intros TEAM AI DB stringify title area body priority assignee create refusal.
  assert (H : forall w dsId w1,
             resolveDataSourceId DB w = (Normal dsId, w1) ->
             create w = (Throw refusal, w1)).
  { intros w dsId w1 Hres. unfold create, EnvConfigured.createTicket.
    unfold bindM at 1. rewrite Hres. reflexivity. }
  split; [|split; [exact H|]].
  - intros w Hwarm. apply (H w (dataSourceId w)).
    unfold resolveDataSourceId. now rewrite Hwarm.
  - intros w sources rest id Hcold Hremote Hchosen.
    apply (H w (Str id)).
    rewrite (resolveDataSourceId_cold DB w sources rest Hcold Hremote), Hchosen.
    reflexivity.
Qed.

Lemma createTicket_env_refused_witness :
  EnvConfigured.createTicket "" [] "" "db" (fun _ => "{}") "Fix the login page" "Backend"
    None None None None
    (mkWorld [database [("Capabl OS Tickets", "ds-1")]] Null None
       "2026-01-01T00:00:00.000Z" [])
  = (Throw (Error "TARGET_APP is not set and no application was provided"),
     mkWorld [] (Str "ds-1") None "2026-01-01T00:00:00.000Z" [databaseRequest "db"]).
Proof.
  destruct (createTicket_env_refused [] "" "db" (fun _ => "{}") "Fix the login page"
              "Backend" None None None) as (_ & _ & H).
  exact (H (mkWorld [database [("Capabl OS Tickets", "ds-1")]] Null None
              "2026-01-01T00:00:00.000Z" [])
           [("Capabl OS Tickets", "ds-1")] [] "ds-1" eq_refl eq_refl eq_refl).
Defined.

(* ===================================================================== *)
(** ** The two selections side by side *)

Section SortFilter.

Context {A K : Type}.
Variable cmp : A -> A -> completion Z.
Variable key : A -> K.
Variable kle : K -> K -> bool.
Variable known : A -> Prop.
Variable keep : A -> bool.

Hypothesis cmp_key :
  forall a b, known a -> known b ->
              exists z, cmp a b = Normal z /\ (z <=? 0)%Z = kle (key a) (key b).
Hypothesis kle_total : forall j k, kle j k = true \/ kle k j = true.
Hypothesis kle_trans :
  forall i j k, kle i j = true -> kle j k = true -> kle i k = true.

Local Abbreviation ascending := (ascending key kle).

Lemma insert_front (x : A) (l : list A) :
  known x -> Forall known l -> Forall (ascending x) l ->
  insert cmp x l = Normal (x :: l).
Proof.
  intros Hx Hl Hle. destruct l as [|y l]; [reflexivity|].
  apply Forall_cons_iff in Hl as [Hy _]. apply Forall_cons_iff in Hle as [Hxy _].
  destruct (cmp_key x y Hx Hy) as (z & Ez & Hz).
  cbn [insert]. rewrite Ez. cbn [Js.bind]. rewrite Hz, Hxy. reflexivity.
Qed.

Lemma insert_filter (x : A) (l r : list A) :
  known x -> Forall known l -> StronglySorted ascending l ->
  insert cmp x l = Normal r ->
  if keep x then insert cmp x (filter keep l) = Normal (filter keep r)
  else filter keep r = filter keep l.
Proof.
  intros Hx Hl Hsorted. revert r.
  induction Hsorted as [|y l Hsorted IH Hy]; intros r.
  - cbn [insert filter]. intros E. injection E as <-. cbn [filter].
    destruct (keep x); reflexivity.
  - apply Forall_cons_iff in Hl as [Hky Hl].
    destruct (cmp_key x y Hx Hky) as (z & Ez & Hz).
    cbn [insert]. rewrite Ez. cbn [Js.bind]. rewrite Hz.
    destruct (kle (key x) (key y)) eqn:Hxy.
    + intros E. injection E as <-. cbn [filter].
      destruct (keep x) eqn:Hkx; [|reflexivity].
      change (if keep y then y :: filter keep l else filter keep l)
        with (filter keep (y :: l)).
      apply insert_front; [exact Hx| |].
      * apply Forall_filter. now constructor.
      * apply Forall_filter. constructor; [exact Hxy|].
        eapply Forall_impl; [|exact Hy]. intros a Ha.
        unfold ascending in *. now apply (kle_trans _ (key y)).
    + destruct (insert cmp x l) as [r0|e] eqn:Er0; cbn [Js.bind]; [|discriminate].
      intros E. injection E as <-. specialize (IH Hl r0 eq_refl).
      cbn [filter]. destruct (keep x) eqn:Hkx.
      * destruct (keep y) eqn:Hk; [|exact IH].
        cbn [insert]. rewrite Ez. cbn [Js.bind]. rewrite Hz, IH. reflexivity.
      * rewrite IH. reflexivity.
Qed.

Lemma insert_ascending (x : A) (l r : list A) :
  known x -> Forall known l -> StronglySorted ascending l ->
  insert cmp x l = Normal r -> StronglySorted ascending r.
Proof.
  intros Hx Hl Hsorted. revert r.
  induction Hsorted as [|y l Hsorted IH Hy]; intros r.
  - cbn [insert]. intros E. injection E as <-. repeat constructor.
  - apply Forall_cons_iff in Hl as [Hky Hl].
    destruct (cmp_key x y Hx Hky) as (z & Ez & Hz).
    cbn [insert]. rewrite Ez. cbn [Js.bind]. rewrite Hz.
    destruct (kle (key x) (key y)) eqn:Hxy.
    + intros E. injection E as <-.
      constructor; [now constructor|].
      constructor; [exact Hxy|].
      eapply Forall_impl; [|exact Hy]. intros a Ha.
      unfold ascending in *. now apply (kle_trans _ (key y)).
    + destruct (insert cmp x l) as [r0|e] eqn:Er0; cbn [Js.bind]; [|discriminate].
      intros E. injection E as <-.
      constructor; [now apply IH|].
      apply (Permutation_Forall (insert_permutation cmp x l r0 Er0)).
      constructor; [|exact Hy].
      unfold ascending. destruct (kle_total (key x) (key y)); congruence.
Qed.

(** Sorting what a filter keeps is keeping what the filter keeps of the
    sorted list. *)
Lemma sort_filter (l s : list A) :
  Forall known l ->
  sort cmp l = Normal s ->
  StronglySorted ascending s /\ sort cmp (filter keep l) = Normal (filter keep s).
Proof.
  revert s. induction l as [|x l IH]; intros s Hl.
  - cbn [sort filter]. intros E. injection E as <-. split; [constructor|reflexivity].
  - apply Forall_cons_iff in Hl as [Hx Hl].
    cbn [sort]. destruct (sort cmp l) as [s0|e] eqn:Es0; cbn [Js.bind]; [|discriminate].
    intros Hins. destruct (IH s0 Hl eq_refl) as [Hsorted Hf].
    assert (Hs0 : Forall known s0).
    { apply (Permutation_Forall (sort_permutation cmp l s0 Es0)). exact Hl. }
    split.
    + exact (insert_ascending x s0 s Hx Hs0 Hsorted Hins).
    + pose proof (insert_filter x s0 s Hx Hs0 Hsorted Hins) as H.
      cbn [filter]. destruct (keep x).
      * cbn [sort]. rewrite Hf. cbn [Js.bind]. exact H.
      * rewrite Hf, H. reflexivity.
Qed.

End SortFilter.

Section SortMap.

Context {A B : Type}.
Variable cmpA : A -> A -> completion Z.
Variable cmpB : B -> B -> completion Z.
Variable f : A -> B.
Hypothesis cmp_map : forall a b, cmpB (f a) (f b) = cmpA a b.

Lemma insert_map (x : A) (l : list A) :
  insert cmpB (f x) (map f l) = (r <- insert cmpA x l ;; Normal (map f r)).
Proof.
  induction l as [|y l IH]; [reflexivity|].
  cbn [map insert]. rewrite cmp_map.
  destruct (cmpA x y) as [c|e]; [|reflexivity]. cbn [Js.bind].
  destruct (c <=? 0)%Z; [reflexivity|].
  rewrite IH. destruct (insert cmpA x l); reflexivity.
Qed.

Lemma sort_map (l : list A) :
  sort cmpB (map f l) = (s <- sort cmpA l ;; Normal (map f s)).
Proof.
  induction l as [|x l IH]; [reflexivity|].
  cbn [map sort]. rewrite IH.
  destruct (sort cmpA l) as [s|e]; [|reflexivity]. cbn [Js.bind].
  apply insert_map.
Qed.

End SortMap.

Section ReadyAndQueue.

Variable AI_SQUAD_ID DB_ID : string.
Variable localeCompare : string -> string -> Z.
Hypothesis collation :
  forall a b, In a ShipyardPriority -> In b ShipyardPriority ->
              (localeCompare a b ?= 0)%Z = String.compare a b.

Lemma isReady_isActive (t : Ticket.t) :
  isReady t = isActive t && is_str (Ticket.status t) "Open".
Proof.
  unfold isReady, isActive.
  destruct (is_str (Ticket.status t) "Open") eqn:Hopen.
  - apply is_str_eq in Hopen. rewrite Hopen.
    change (includes_value excluded (Str "Open")) with false.
    cbn [negb andb]. now rewrite !andb_true_r.
  - now rewrite !andb_false_r.
Qed.

Lemma filter_filter {X} (f g : X -> bool) (l : list X) :
  filter g (filter f l) = filter (fun x => f x && g x) l.
Proof.
  induction l as [|x l IH]; [reflexivity|].
  cbn [filter]. destruct (f x); cbn [filter andb]; [destruct (g x)|]; congruence.
Qed.

Lemma filter_map_comm {X Y} (f : X -> Y) (g : Y -> bool) (l : list X) :
  filter g (map f l) = map f (filter (fun x => g (f x)) l).
Proof.
  induction l as [|x l IH]; [reflexivity|].
  cbn [map filter]. destruct (g (f x)); cbn [map]; congruence.
Qed.

End ReadyAndQueue.

(** The tickets [fetchReadyTickets] returns are the items of status
    "Open" of the queue [syncState] builds from the same listing, one for
    one and in the same order: polling shows a part of the queue, never a
    ticket the queue lacks nor another order. *)
Theorem ready_tickets_are_the_open_queue :
  forall (AI_SQUAD_ID DB_ID : string) (localeCompare : string -> string -> Z)
         (w w1 : World) (pages : list value) (tickets : list Ticket.t),
    (forall a b, In a ShipyardPriority -> In b ShipyardPriority ->
                 (localeCompare a b ?= 0)%Z = String.compare a b) ->
    fetchAllShipyardPages DB_ID w = (Normal pages, w1) ->
    traverse (extractTicket AI_SQUAD_ID) pages = Normal tickets ->
    Forall (fun t => declaredPriority (Ticket.priority t)) tickets ->
    exists st w' ready,
      syncState AI_SQUAD_ID DB_ID localeCompare w = (Normal st, w')
      /\ fetchReadyTickets AI_SQUAD_ID DB_ID localeCompare w = (Normal ready, w1)
      /\ map toQueueItem ready
         = filter (fun q => is_str (QueueItem.status q) "Open") (HumanizeState.queue st).
Proof.
  intros AI DB lc w w1 pages tickets Hcollation Hfetch Htickets Hdeclared.
  set (open := fun q => is_str (QueueItem.status q) "Open").
  set (items := map toQueueItem (filter isActive tickets)).
  assert (Hitems : Forall (fun q => declaredPriority (QueueItem.priority q)) items).
  { apply Forall_map. now apply Forall_filter. }
  destruct (sort_items lc Hcollation items Hitems) as (queue & Hsort & _).
  destruct (sort_filter (compareItems lc) itemKey keyLe
              (fun q => declaredPriority (QueueItem.priority q)) open
              (fun a b Ha Hb => compareQueue_key lc Hcollation _ _ _ _ Ha Hb)
              keyLe_total keyLe_trans items queue Hitems Hsort) as [_ Hopen].
  assert (Hready : filter open items = map toQueueItem (filter isReady tickets)).
  { unfold items, open. rewrite filter_map_comm, filter_filter.
    f_equal. apply filter_ext. intros t. symmetry. apply isReady_isActive. }
  rewrite Hready in Hopen.
  rewrite (sort_map (compareTickets lc) (compareItems lc) toQueueItem
             (fun a b => eq_refl)) in Hopen.
  destruct (sort (compareTickets lc) (filter isReady tickets)) as [ready|e] eqn:Hr;
    [|discriminate].
  cbn [Js.bind] in Hopen. injection Hopen as Hopen.
  rewrite syncState_run, fetchReadyTickets_run, Hfetch, collectQueue_traverse,
    collectReady_traverse, Htickets.
  cbn [Js.bind]. fold items. rewrite Hsort, Hr.
  eexists; eexists; exists ready.
  split; [reflexivity|]. split; [reflexivity|]. exact Hopen.
Qed.

Lemma ready_tickets_are_the_open_queue_witness :
  exists st w' ready,
    syncState "" "db" byCodeUnit (world_ready mixed_listing None) = (Normal st, w')
    /\ fst (fetchReadyTickets "" "db" byCodeUnit (world_ready mixed_listing None))
       = Normal ready
    /\ map QueueItem.ticket_id (HumanizeState.queue st)
       = [Str "e"; Str "a"; Str "d"; Str "c"; Str "b"]
    /\ map Ticket.id ready = [Str "a"; Str "d"; Str "b"]
    /\ map toQueueItem ready
       = filter (fun q => is_str (QueueItem.status q) "Open") (HumanizeState.queue st).
Proof.
  run (fetchAllShipyardPages "db" (world_ready mixed_listing None)) as pages w1.
  evaluate (traverse (extractTicket "") pages) as tickets.
  assert (Hfetch : fetchAllShipyardPages "db" (world_ready mixed_listing None)
                   = (Normal pages, w1)) by (vm_compute; reflexivity).
  assert (Htickets : traverse (extractTicket "") pages = Normal tickets)
    by (vm_compute; reflexivity).
  assert (Hdeclared : Forall (fun t => declaredPriority (Ticket.priority t)) tickets)
    by (unfold tickets; declared).
  destruct (ready_tickets_are_the_open_queue "" "db" byCodeUnit
              (world_ready mixed_listing None)
              w1 pages tickets (fun a b _ _ => byCodeUnit_collation a b)
              Hfetch Htickets Hdeclared)
    as (st & w' & ready & Hrun & Hready & Hopen).
  exists st, w', ready.
  split; [exact Hrun|]. split; [now rewrite Hready|].
  split; [|split; [|exact Hopen]].
  - vm_compute in Hrun. injection Hrun. intros. subst. reflexivity.
  - vm_compute in Hready. injection Hready. intros. subst. reflexivity.
Defined.

(* ===================================================================== *)
(** ** The history from one sync to the next *)

Section HistoryFacts.

Variable AI_SQUAD_ID DB_ID : string.
Variable localeCompare : string -> string -> Z.




End HistoryFacts.



(* ===================================================================== *)
(** ** The command line: arguments and short ids *)

Section Arguments.

Lemma getArg_skip (before rest : list string) (flag : string) :
  ~ In flag before -> getArg (before ++ rest) flag = getArg rest flag.
Proof.
  induction before as [|arg before IH]; intros Hnot; [reflexivity|].
  cbn [app getArg].
  destruct (String.eqb_spec arg flag) as [E|_]; [exfalso; apply Hnot; now left|].
  apply IH. intros Hin. apply Hnot. now right.
Qed.

Lemma hasFlag_In (argv : list string) (flag : string) :
  hasFlag argv flag = true <-> In flag argv.
Proof.
  unfold hasFlag. rewrite existsb_exists. split.
  - intros (x & Hx & E). apply String.eqb_eq in E. now subst.
  - intros H. exists flag. split; [exact H|apply String.eqb_refl].
Qed.

End Arguments.

(** An option's value is the argument that follows the first occurrence
    of its flag, whatever that argument is, another flag included; a flag
    in last position has no value, nor has a flag that is absent.  A
    command is chosen by the presence of its flag anywhere among the
    arguments, a value position included. *)
Theorem getArg_reads_what_follows :
  forall (flag : string) (before : list string),
    ~ In flag before ->
    (forall value after, getArg (before ++ flag :: value :: after) flag = Some value)
    /\ getArg (before ++ [flag]) flag = None
    /\ getArg before flag = None
    /\ hasFlag before flag = false
    /\ (forall after, hasFlag (before ++ flag :: after) flag = true).
Proof.
  intros flag before Hnot. repeat split.
  - intros value after. rewrite (getArg_skip _ _ _ Hnot). cbn [getArg].
    now rewrite String.eqb_refl.
  - rewrite (getArg_skip _ _ _ Hnot). cbn [getArg]. now rewrite String.eqb_refl.
  - rewrite <- (app_nil_r before). now rewrite (getArg_skip _ _ _ Hnot).
  - destruct (hasFlag before flag) eqn:H; [|reflexivity].
    apply hasFlag_In in H. contradiction.
  - intros after. apply hasFlag_In. apply in_or_app. right. now left.
Qed.

Lemma getArg_reads_what_follows_witness :
  getArg ["node"; "humanize.ts"; "--create"; "--area"; "Backend"] "--create"
  = Some "--area"
  /\ getArg ["node"; "humanize.ts"; "--create"; "--area"; "Backend"] "--area"
     = Some "Backend"
  /\ getArg ["node"; "humanize.ts"; "--done"] "--done" = None
  /\ hasFlag ["node"; "humanize.ts"; "--create"; "--poll"] "--poll" = true.
Proof.
  assert (H0 : ~ In "--create" ["node"; "humanize.ts"])
    by (simpl; intuition discriminate).
  assert (H1 : ~ In "--area" ["node"; "humanize.ts"; "--create"])
    by (simpl; intuition discriminate).
  assert (H2 : ~ In "--done" ["node"; "humanize.ts"])
    by (simpl; intuition discriminate).
  assert (H3 : ~ In "--poll" ["node"; "humanize.ts"; "--create"])
    by (simpl; intuition discriminate).
  split; [|split; [|split]].
  - destruct (getArg_reads_what_follows "--create" _ H0) as (H & _). exact (H "--area" ["Backend"]).
  - destruct (getArg_reads_what_follows "--area" _ H1) as (H & _). exact (H "Backend" []).
  - destruct (getArg_reads_what_follows "--done" _ H2) as (_ & H & _). exact H.
  - destruct (getArg_reads_what_follows "--poll" _ H3) as (_ & _ & _ & _ & H). exact (H []).
Defined.

Section ShortIds.

Lemma withoutDashes_characters (s : string) :
  ~ In dash (characters (withoutDashes s)).
Proof.
  unfold characters, dash. induction s as [|c s IH]; cbn [withoutDashes].
  - intros [].
  - destruct (Ascii.eqb_spec c "-"%char) as [E|Hne]; [exact IH|].
    cbn [list_ascii_of_string In]. intros [E|H]; [now apply Hne|now apply IH].
Qed.

Lemma substring_characters (s : string) (n : nat) (c : ascii) :
  In c (characters (String.substring 0 n s)) -> In c (characters s).
Proof.
  unfold characters. revert n. induction s as [|d s IH]; intros [|n]; cbn; try tauto.
  intros [E|H]; [now left|right; now apply (IH n)].
Qed.

Lemma withoutDashes_fixed (s : string) :
  ~ In dash (characters s) -> withoutDashes s = s.
Proof.
  unfold characters, dash. induction s as [|c s IH]; [reflexivity|].
  cbn [list_ascii_of_string In withoutDashes]. intros H.
  destruct (Ascii.eqb_spec c "-"%char) as [E|_]; [exfalso; apply H; now left|].
  rewrite IH; [reflexivity|]. intros Hin. apply H. now right.
Qed.

Lemma withoutDashes_app (s t : string) :
  withoutDashes (s ++ t) = withoutDashes s ++ withoutDashes t.
Proof.
  induction s as [|c s IH]; [reflexivity|].
  cbn [String.append withoutDashes]. destruct (Ascii.eqb c "-"%char); [exact IH|].
  cbn [String.append]. now rewrite IH.
Qed.

Lemma substring_app_head (s t : string) :
  String.substring 0 (String.length s) (s ++ t) = s.
Proof.
  induction s as [|c s IH]; cbn.
  - now destruct t.
  - now rewrite IH.
Qed.

End ShortIds.

(** A short id has at most 8 characters and no dash; it is the first 8
    characters of the id written without its dashes, so for an id that
    starts with 8 characters other than a dash, as a UUID does, it is
    those 8 characters.  Shortening a short id changes nothing. *)
Theorem shortId_is_a_prefix :
  forall id : string,
    String.length (shortId id) <= 8
    /\ ~ In dash (characters (shortId id))
    /\ shortId (shortId id) = shortId id
    /\ (forall head tail,
          id = head ++ tail -> String.length head = 8 -> ~ In dash (characters head) ->
          shortId id = head).
Proof.
  intros id. unfold shortId. split; [|split; [|split]].
  - rewrite substring_length. lia.
  - intros H. apply substring_characters in H.
    exact (withoutDashes_characters id H).
  - rewrite withoutDashes_fixed.
    + apply substring_all. rewrite substring_length. lia.
    + intros H. apply substring_characters in H.
      exact (withoutDashes_characters id H).
  - intros head tail -> Hlen Hfree.
    rewrite withoutDashes_app, (withoutDashes_fixed head Hfree), <- Hlen.
    apply substring_app_head.
Qed.

Lemma shortId_is_a_prefix_witness :
  shortId "2bed872b-594c-8136-8470-0002b1b2076b" = "2bed872b"
  /\ shortId "ab-cd-ef-0123456789" = "abcdef01".
Proof.
  split.
  - destruct (shortId_is_a_prefix "2bed872b-594c-8136-8470-0002b1b2076b")
      as (_ & _ & _ & H).
    apply (H "2bed872b" "-594c-8136-8470-0002b1b2076b"); [reflexivity|reflexivity|].
    unfold characters, dash. simpl. intuition discriminate.
  - destruct (shortId_is_a_prefix "ab-cd-ef-0123456789") as (_ & _ & H & _).
    reflexivity.
Defined.


(* ===================================================================== *)
(** ** The commands *)

Section StatusUpdate.

Lemma updateTicketStatus_accepted (pageId status : string) (w : World)
      (data : value) (rest : list value) :
  remote w = data :: rest -> nullish data = false -> isError data = false ->
  updateTicketStatus pageId status w
  = (Normal tt,
     served w rest [statusWrite pageId status (now w); Sleep RATE_LIMIT_DELAY]).
Proof.
  intros Hr Hn He. unfold updateTicketStatus, statusWrite, patch, properties.
  unfold bindM, currentTime, ret, notionFetch, bindM, emit, lift, sleep, emit, throw,
    served, isError in *.
  destruct (String.eqb status "Done" || String.eqb status "Review AI Fix");
    cbn [fst snd remote dataSourceId stateFile now trace]; rewrite Hr;
    (destruct (get data "object") as [o|e] eqn:Ho;
     [rewrite He; cbn; rewrite <- app_assoc; reflexivity
     |destruct data; discriminate]).
Qed.

Lemma updateTicketStatus_rejected (pageId status msg : string) (w : World)
      (data : value) (rest : list value) :
  remote w = data :: rest ->
  get data "object" = Normal (Str "error") ->
  get data "message" = Normal (Str msg) ->
  updateTicketStatus pageId status w
  = (Throw (Error ("Status update failed: " ++ msg)),
     served w rest [statusWrite pageId status (now w)]).
Proof.
  intros Hr Ho Hm. unfold updateTicketStatus, statusWrite, patch, properties.
  unfold bindM, currentTime, ret, notionFetch, bindM, emit, lift, sleep, emit, throw,
    served.
  destruct (String.eqb status "Done" || String.eqb status "Review AI Fix");
    cbn [fst snd remote dataSourceId stateFile now trace]; rewrite Hr, Ho; cbn;
    rewrite Hm; reflexivity.
Qed.

Lemma getArg_hasFlag (argv : list string) (flag value : string) :
  getArg argv flag = Some value -> hasFlag argv flag = true.
Proof.
  induction argv as [|arg argv IH]; cbn [getArg hasFlag existsb]; [discriminate|].
  rewrite (String.eqb_sym flag arg).
  destruct (String.eqb arg flag); [reflexivity|]. exact IH.
Qed.

Lemma appendHistory_file (item : HistoryItem.t) (w : World) :
  remote (snd (appendHistory item w)) = remote w
  /\ dataSourceId (snd (appendHistory item w)) = dataSourceId w
  /\ now (snd (appendHistory item w)) = now w
  /\ trace (snd (appendHistory item w)) = trace w
  /\ fst (appendHistory item w) = Normal tt
  /\ stateFile (snd (appendHistory item w))
     = match stateFile w with
       | Some f =>
           match appendToFile f item with
           | Normal written => Some written
           | Throw _ => Some f
           end
       | None => None
       end.
Proof.
  unfold appendHistory, bindM, readStateFile, writeStateFile, ret.
  destruct (stateFile w) as [f|] eqn:Hf; cbn.
  - destruct (appendToFile f item); cbn; rewrite ?Hf; repeat split; reflexivity.
  - rewrite Hf. repeat split; reflexivity.
Qed.

End StatusUpdate.



(** [--start <id>] marks the ticket "In Progress", tries to create the
    branch [feature/shipyard-<short id>] and, failing that, to switch to
    it, then writes the branch name to the ticket, records the action
    and syncs.  The branch name is written and the command ends with
    code 0 whatever git answered: when both git commands fail a line
    says so and the run goes on.  When the remote refuses the status, no
    git command is run; when it refuses the branch name, the ticket
    stays "In Progress" and git has already been run.  The clock is read
    twice, for the entry and for the sync.  The script is run without
    [--test]. *)
Theorem start_writes_the_branch_whatever_git_does :
  forall (AI_SQUAD_ID DB_ID : string) (localeCompare : string -> string -> Z)
         (JSON_stringify : value -> string) (git : string -> option string)
         (clock : nat -> string) (argv : list string) (ticketId : string) (p : Process),
    hasFlag argv "--test" = false ->
    hasFlag argv "--poll" = false ->
    hasFlag argv "--create" = false ->
    getArg argv "--start" = Some ticketId ->
    ticketId <> "" ->
    let run := humanize AI_SQUAD_ID DB_ID localeCompare JSON_stringify argv git clock p in
    let branch := branchOf ticketId in
    let create := "git checkout -b " ++ branch in
    let switch := "git checkout " ++ branch in
    let commands := match git create with
                    | None => [create]
                    | Some _ => [create; switch]
                    end in
    let answer := match git create, git switch with
                  | None, _ => Out ("  + Branch created: " ++ branch)
                  | Some _, None => Out ("  + Switched to existing branch: " ++ branch)
                  | Some _, Some message =>
                      Err ("  ! Could not create/switch branch: " ++ message)
                  end in
    let status := statusWrite ticketId "In Progress" (now (world p)) in
    let written := patch ticketId (properties [("Branch", richTextOf branch)]) in
    let announced := Out ("> Starting ticket " ++ shortId ticketId ++ "...") in
    (forall data rest msg,
        remote (world p) = data :: rest ->
        get data "object" = Normal (Str "error") ->
        get data "message" = Normal (Str msg) ->
        run = Some (1, mkProcess (served (world p) rest [status])
                         (console p
                          ++ [announced;
                              Failure "Humanize error:"
                                (Error ("Status update failed: " ++ msg))])
                         (executed p)))
    /\ (forall first second rest,
          remote (world p) = first :: second :: rest ->
          nullish first = false -> isError first = false ->
          (forall msg,
              get second "object" = Normal (Str "error") ->
              get second "message" = Normal (Str msg) ->
              run = Some (1, mkProcess
                               (served (world p) rest
                                  [status; Sleep RATE_LIMIT_DELAY; written])
                               (console p
                                ++ [announced; Out "  + Status -> In Progress"; answer;
                                    Failure "Humanize error:"
                                      (Error ("Branch update failed: " ++ msg))])
                               (executed p ++ commands)))
          /\ (forall st w3,
                nullish second = false -> isError second = false ->
                syncState AI_SQUAD_ID DB_ID localeCompare
                  (atTime (clock 0)
                     (snd (appendHistory (startedEntry ticketId (now (world p)))
                             (served (world p) rest
                                [status; Sleep RATE_LIMIT_DELAY;
                                 written; Sleep RATE_LIMIT_DELAY]))))
                = (Normal st, w3) ->
                run = Some (0, mkProcess w3
                                 (console p
                                  ++ [announced; Out "  + Status -> In Progress"; answer;
                                      Out "  + Branch synced to Notion";
                                      Out (newline ++ "+ Ticket started. You're on branch: "
                                           ++ branch)])
                                 (executed p ++ commands)))).
Proof.
  intros AI DB lc stringify git clock argv ticketId p Htest Hpoll Hcreate Harg Hid
    run branch create switch commands answer status written announced.
  assert (Hstart : hasFlag argv "--start" = true) by exact (getArg_hasFlag _ _ _ Harg).
  assert (Hmissing : missing (Some ticketId) = false).
  { cbn. now destruct (String.eqb_spec ticketId ""). }
  assert (Hmain : main AI DB lc stringify argv git clock
                  = cmdStart AI DB lc argv git clock).
  { unfold main. now rewrite Hpoll, Hcreate, Hstart. }
  split.
  - intros data rest msg Hr Ho Hm.
    unfold run, humanize. rewrite Htest, Hmain. unfold cmdStart. rewrite Harg, Hmissing.
    cbn [or_default].
    unfold bindC at 1. unfold log at 1, print at 1.
    unfold bindC at 1. unfold await at 1. cbn [world console executed].
    rewrite (updateTicketStatus_rejected ticketId "In Progress" msg _ data rest Hr Ho Hm).
    unfold settle. cbn [world console executed]. rewrite <- app_assoc. reflexivity.
  - intros first second rest Hr Hn He.
    pose proof (checkedWrite_once ticketId (properties [("Branch", richTextOf branch)])
                  "Branch update failed"
                  (served (world p) (second :: rest) [status; Sleep RATE_LIMIT_DELAY]))
      as Hwrite.
    unfold writeAt in Hwrite. cbn [served remote] in Hwrite.
    destruct Hwrite as [Haccepted Hrejected].
    change (checkedWrite ticketId (properties [("Branch", richTextOf branch)])
              "Branch update failed")
      with (updateTicketBranch ticketId branch) in Haccepted, Hrejected.
    assert (Hprefix :
              forall (k : Cli unit),
                (_ <== log ("> Starting ticket " ++ shortId ticketId ++ "...") ;;
                 _ <== await (updateTicketStatus ticketId "In Progress") ;;
                 _ <== log "  + Status -> In Progress" ;;
                 created <== execSync git ("git checkout -b " ++ branch) ;;
                 _ <== match created with
                       | None => log ("  + Branch created: " ++ branch)
                       | Some _ =>
                           switched <== execSync git ("git checkout " ++ branch) ;;
                           match switched with
                           | None => log ("  + Switched to existing branch: " ++ branch)
                           | Some message =>
                               logError ("  ! Could not create/switch branch: " ++ message)
                           end
                       end ;;
                 k) p
                = k (mkProcess
                       (served (world p) (second :: rest) [status; Sleep RATE_LIMIT_DELAY])
                       (console p ++ [announced; Out "  + Status -> In Progress"; answer])
                       (executed p ++ commands))).
    { intros k.
      unfold bindC at 1. unfold log at 1, print at 1.
      unfold bindC at 1. unfold await at 1. cbn [world console executed].
      rewrite (updateTicketStatus_accepted ticketId "In Progress" _ first (second :: rest)
                 Hr Hn He).
      unfold bindC at 1. unfold log at 1, print at 1. cbn [world console executed].
      unfold bindC at 1. unfold execSync at 1. cbn [world console executed].
      unfold answer, commands, create, switch.
      destruct (git ("git checkout -b " ++ branch)) as [failure|].
      - unfold bindC at 1. unfold bindC at 1. unfold execSync at 1.
        cbn [world console executed].
        destruct (git ("git checkout " ++ branch)) as [message|];
          unfold logError, log, print; cbn [world console executed];
          rewrite <- !app_assoc; reflexivity.
      - unfold bindC at 1. unfold log, print. cbn [world console executed].
        rewrite <- !app_assoc. reflexivity. }
    split.
    + intros msg Ho Hm.
      unfold run, humanize. rewrite Htest, Hmain. unfold cmdStart. rewrite Harg, Hmissing.
      cbn [or_default]. fold (branchOf ticketId). fold branch.
      rewrite Hprefix.
      unfold bindC at 1. unfold await at 1. cbn [world console executed].
      rewrite (Hrejected msg Ho Hm).
      unfold settle. cbn [world console executed]. unfold served.
      cbn [remote dataSourceId stateFile now trace].
      rewrite <- !app_assoc. reflexivity.
    + intros st w3 Hn2 He2 Hsync.
      pose proof (appendHistory_file (startedEntry ticketId (now (world p)))
                    (served (world p) rest
                       [status; Sleep RATE_LIMIT_DELAY; written; Sleep RATE_LIMIT_DELAY]))
        as (_ & _ & _ & _ & Hret & _).
      unfold run, humanize. rewrite Htest, Hmain. unfold cmdStart. rewrite Harg, Hmissing.
      cbn [or_default]. fold (branchOf ticketId). fold branch.
      rewrite Hprefix.
      unfold bindC at 1. unfold await at 1. cbn [world console executed].
      rewrite (Haccepted Hn2 He2).
      unfold bindC at 1. unfold log at 1, print at 1. cbn [world console executed].
      unfold bindC at 1. unfold await at 1, currentTime at 1. cbn [world console executed].
      unfold bindC at 1. unfold await at 1. cbn [world console executed].
      replace (served (served (world p) (second :: rest) [status; Sleep RATE_LIMIT_DELAY])
                 rest [patch ticketId (properties [("Branch", richTextOf branch)]);
                       Sleep RATE_LIMIT_DELAY])
        with (served (world p) rest
                [status; Sleep RATE_LIMIT_DELAY; written; Sleep RATE_LIMIT_DELAY])
        by (unfold served; cbn [remote dataSourceId stateFile now trace];
            rewrite <- !app_assoc; reflexivity).
      change (now (served (world p) rest
                     [status; Sleep RATE_LIMIT_DELAY; written; Sleep RATE_LIMIT_DELAY]))
        with (now (world p)).
      fold (startedEntry ticketId (now (world p))).
      destruct (appendHistory (startedEntry ticketId (now (world p)))
                  (served (world p) rest
                     [status; Sleep RATE_LIMIT_DELAY; written; Sleep RATE_LIMIT_DELAY]))
        as [r w2] eqn:Happend.
      cbn [fst snd] in Hret, Hsync. subst r.
      unfold bindC at 1. unfold advance at 1. cbn [world console executed].
      fold (atTime (clock 0) w2).
      unfold bindC at 1. unfold await at 1. cbn [world console executed].
      rewrite Hsync. unfold log, print, settle. cbn [world console executed].
      rewrite <- !app_assoc. reflexivity.
Qed.

Lemma start_writes_the_branch_whatever_git_does_witness :
  exists st w3 lines,
    humanize "" "db" byCodeUnit (fun _ => "{}")
      ["node"; "humanize.ts"; "--start"; "2bed872b-594c-8136-8470-0002b1b2076b"]
      git_broken hourly
      (fresh (world_ready [page_ok; page_ok; listPage [] Null] (Some earlier_snapshot)))
    = Some (0, mkProcess w3 lines
                 ["git checkout -b feature/shipyard-2bed872b";
                  "git checkout feature/shipyard-2bed872b"])
    /\ In (Err "  ! Could not create/switch branch: not a git repository") lines
    /\ In (patch "2bed872b-594c-8136-8470-0002b1b2076b"
             (properties [("Branch", richTextOf "feature/shipyard-2bed872b")]))
          (trace w3)
    /\ stateFile w3 = Some (Json (state_json st))
    /\ HumanizeState.last_synced st = "2026-01-01T01:00:00.000Z"
    /\ historyOnDisk w3
       = Some (Arr [historyItem_json done_entry;
                    historyItem_json
                      (startedEntry "2bed872b-594c-8136-8470-0002b1b2076b"
                         "2026-01-01T00:00:00.000Z")]).
Proof.
  run (syncState "" "db" byCodeUnit
         (atTime (hourly 0) (snd (appendHistory
                 (startedEntry "2bed872b-594c-8136-8470-0002b1b2076b"
                    "2026-01-01T00:00:00.000Z")
                 (served (world_ready [page_ok; page_ok; listPage [] Null]
                            (Some earlier_snapshot))
                    [listPage [] Null]
                    [statusWrite "2bed872b-594c-8136-8470-0002b1b2076b" "In Progress"
                       "2026-01-01T00:00:00.000Z";
                     Sleep RATE_LIMIT_DELAY;
                     patch "2bed872b-594c-8136-8470-0002b1b2076b"
                       (properties [("Branch", richTextOf "feature/shipyard-2bed872b")]);
                     Sleep RATE_LIMIT_DELAY]))))) as st w3.
  assert (Hsync :
            syncState "" "db" byCodeUnit
              (atTime (hourly 0) (snd (appendHistory
                      (startedEntry "2bed872b-594c-8136-8470-0002b1b2076b"
                         "2026-01-01T00:00:00.000Z")
                      (served (world_ready [page_ok; page_ok; listPage [] Null]
                                 (Some earlier_snapshot))
                         [listPage [] Null]
                         [statusWrite "2bed872b-594c-8136-8470-0002b1b2076b" "In Progress"
                            "2026-01-01T00:00:00.000Z";
                          Sleep RATE_LIMIT_DELAY;
                          patch "2bed872b-594c-8136-8470-0002b1b2076b"
                            (properties
                               [("Branch", richTextOf "feature/shipyard-2bed872b")]);
                          Sleep RATE_LIMIT_DELAY]))))
            = (Normal st, w3)) by (vm_compute; reflexivity).
  destruct (start_writes_the_branch_whatever_git_does "" "db" byCodeUnit (fun _ => "{}")
              git_broken hourly
              ["node"; "humanize.ts"; "--start"; "2bed872b-594c-8136-8470-0002b1b2076b"]
              "2bed872b-594c-8136-8470-0002b1b2076b"
              (fresh (world_ready [page_ok; page_ok; listPage [] Null]
                        (Some earlier_snapshot)))
              eq_refl eq_refl eq_refl eq_refl ltac:(discriminate))
    as (_ & Hok).
  destruct (Hok page_ok page_ok [listPage [] Null] eq_refl eq_refl eq_refl) as (_ & Hrun).
  specialize (Hrun st w3 eq_refl eq_refl Hsync).
  exists st, w3. eexists. split; [exact Hrun|].
  split; [cbn; tauto|]. split; [vm_compute; tauto|].
  split; [reflexivity|]. split; reflexivity.
Defined.

Section CreateCommand.

Variable AI_SQUAD_ID DB_ID : string.
Variable JSON_stringify : value -> string.

Lemma createTicket_fields
      (title area : string) (body priority assignee type : option string)
      (w w1 : World) (dsId : value) :
  resolveDataSourceId DB_ID w = (Normal dsId, w1) ->
  exists payload rest,
    trace (snd (createTicket AI_SQUAD_ID DB_ID JSON_stringify
                  title area body priority assignee type w))
    = (trace w1 ++ Request "POST" "/pages" payload :: rest)%list
    /\ requests rest = []
    /\ sentTitle payload = Some (String.substring 0 200 title)
    /\ sentProperties payload
       = ("Ticket",
          Obj [("title",
                Arr [Obj [("text", Obj [("content", Str (String.substring 0 200 title))])]])])
         :: creationFields AI_SQUAD_ID area priority assignee type.
Proof.
  intros Hres. unfold createTicket, bindM at 1. rewrite Hres.
  eexists. unfold notionFetch, bindM, emit, lift, sleep, emit, throw; simpl.
  destruct (remote w1) as [|data more]; simpl.
  - exists []. repeat split; reflexivity.
  - destruct (get data "id") as [id|e]; simpl.
    + destruct (truthy id); simpl.
      * exists [Sleep RATE_LIMIT_DELAY]. split; [|repeat split; reflexivity].
        destruct (extractTicket AI_SQUAD_ID data); simpl; now rewrite <- app_assoc.
      * exists []. repeat split; reflexivity.
    + exists []. repeat split; reflexivity.
Qed.

Lemma appendEntry_trace (entry : value) (w : World) :
  trace (snd (appendEntry entry w)) = trace w
  /\ fst (appendEntry entry w) = Normal tt.
Proof.
  unfold appendEntry, bindM, readStateFile, writeStateFile, ret.
  destruct (stateFile w) as [f|]; [destruct (pushEntry f entry)|]; split; reflexivity.
Qed.

(** The part of [cmdCreate] that follows the checks. *)
Lemma cmdCreate_tail (label title area : string) (body assignee : option string)
      (priority type : string) (p : Process) (dsId : value) (w1 : World) :
  resolveDataSourceId DB_ID (world p) = (Normal dsId, w1) ->
  exists payload rest,
    trace (world (snd
      (settle ((_ <== log label ;;
             ticket <== await (createTicket AI_SQUAD_ID DB_ID JSON_stringify
                                 title area body (Some priority) assignee (Some type)) ;;
             stamp <== await currentTime ;;
             _ <== await (appendEntry (Obj [("ticket_id", Ticket.id ticket);
                                            ("title", Ticket.title ticket);
                                            ("action", Str "created");
                                            ("timestamp", Str stamp)])) ;;
             short <== liftC (shortIdOf (Ticket.id ticket)) ;;
             _ <== log ("+ Created: " ++ short) ;;
             id <== liftC (toString (Ticket.id ticket)) ;;
             _ <== log ("  ID: " ++ id) ;;
             status <== liftC (toString (Ticket.status ticket)) ;;
             log ("  Status: " ++ status)) p))))
    = (trace w1 ++ Request "POST" "/pages" payload :: rest)%list
    /\ requests rest = []
    /\ sentTitle payload = Some (String.substring 0 200 title)
    /\ sentProperties payload
       = ("Ticket",
          Obj [("title",
                Arr [Obj [("text", Obj [("content", Str (String.substring 0 200 title))])]])])
         :: creationFields AI_SQUAD_ID area (Some priority) assignee (Some type).
Proof.
  intros Hres.
  destruct (createTicket_fields title area body (Some priority) assignee (Some type)
              (world p) w1 dsId Hres) as (payload & rest & Htrace & Hrest).
  exists payload, rest. split; [|exact Hrest]. rewrite <- Htrace. clear Htrace Hrest.
  unfold settle.
  unfold bindC at 1. unfold log at 1, print at 1.
  unfold bindC at 1. unfold await at 1. cbn [world console executed].
  destruct (createTicket AI_SQUAD_ID DB_ID JSON_stringify title area body (Some priority)
              assignee (Some type) (world p)) as [[ticket|e] w2]; [|reflexivity].
  unfold bindC at 1. unfold await at 1, currentTime at 1. cbn [world console executed].
  unfold bindC at 1. unfold await at 1. cbn [world console executed].
  match goal with
  | |- context [appendEntry ?entry w2] =>
      pose proof (appendEntry_trace entry w2) as [Ht Hr];
      destruct (appendEntry entry w2) as [r w3]
  end.
  cbn [fst snd] in Ht, Hr. subst r. cbn [snd]. rewrite <- Ht.
  unfold bindC, liftC, log, print.
  destruct (shortIdOf (Ticket.id ticket)); [|reflexivity].
  cbn [world console executed].
  destruct (toString (Ticket.id ticket)); [|reflexivity].
  cbn [world console executed].
  destruct (toString (Ticket.status ticket)); reflexivity.
Qed.

End CreateCommand.

(** [--create] checks its arguments before anything is sent: a missing
    or empty title, an area that is not one of the five, a priority or a
    type that is given and not one of those allowed end the command with
    code 1, one line of explanation, no request and the snapshot as it
    was.  Arguments that pass are written by the one creation request:
    the title cut to 200 characters, the area, the priority with "P0"
    when none is given, and the type with "Story" when none is given.
    The script is run without [--test]. *)
Theorem create_checks_then_writes :
  forall (AI_SQUAD_ID DB_ID : string) (localeCompare : string -> string -> Z)
         (JSON_stringify : value -> string) (git : string -> option string)
         (clock : nat -> string) (argv : list string) (p : Process),
    hasFlag argv "--test" = false ->
    hasFlag argv "--poll" = false ->
    hasFlag argv "--create" = true ->
    let run := humanize AI_SQUAD_ID DB_ID localeCompare JSON_stringify argv git clock p in
    (validCreate argv = false ->
     exists line,
       run = Some (1, mkProcess (world p) (console p ++ [Err line]) (executed p)))
    /\ (validCreate argv = true ->
        forall dsId w1,
          resolveDataSourceId DB_ID (world p) = (Normal dsId, w1) ->
          exists code after payload rest,
            run = Some (code, after)
            /\ trace (world after)
               = (trace w1 ++ Request "POST" "/pages" payload :: rest)%list
            /\ requests rest = []
            /\ sentTitle payload
               = Some (String.substring 0 200 (or_default (getArg argv "--create") ""))
            /\ own (sentProperties payload) "Area"
               = Some (Obj [("multi_select",
                             Arr [Obj [("name",
                                        Str (or_default (getArg argv "--area") ""))]])])
            /\ own (sentProperties payload) "Priority"
               = Some (selectOf (or_default (getArg argv "--priority") "P0"))
            /\ own (sentProperties payload) "Type"
               = Some (selectOf (or_default (getArg argv "--type") "Story"))).
Proof.
  intros AI DB lc stringify git clock argv p Htest Hpoll Hcreate run.
  assert (Hmain : main AI DB lc stringify argv git clock = cmdCreate AI DB stringify argv).
  { unfold main. now rewrite Hpoll, Hcreate. }
  unfold run, humanize. rewrite Htest, Hmain. unfold cmdCreate, validCreate.
  destruct (missing (getArg argv "--create")) eqn:Htitle.
  { split; [intros _|discriminate]. eexists. reflexivity. }
  cbn [negb andb].
  destruct (missing (getArg argv "--area") || negb (includes VALID_AREAS (getArg argv "--area")))
    eqn:Harea.
  { split; [intros _; eexists; reflexivity|].
    intros H. exfalso.
    destruct (includes VALID_AREAS (getArg argv "--area")) eqn:Hinc; [|discriminate].
    rewrite orb_false_r in Harea.
    destruct (getArg argv "--area") as [a|]; [|discriminate].
    cbn in Harea. apply String.eqb_eq in Harea. subst a. discriminate. }
  apply orb_false_elim in Harea as [_ Hinc]. apply negb_false_iff in Hinc. rewrite Hinc.
  cbn [andb].
  assert (Htail :
            forall dsId w1,
              resolveDataSourceId DB (world p) = (Normal dsId, w1) ->
              exists code after payload rest,
                Some
                  (settle
                     ((let title := or_default (getArg argv "--create") "" in
                         let areaName := or_default (getArg argv "--area") "" in
                         let priority := or_default (getArg argv "--priority") "P0" in
                         let ticketType := or_default (getArg argv "--type") "Story" in
                         let assigneeLabel :=
                           if missing (getArg argv "--assignee") then ""
                           else " -> " ++ or_default (getArg argv "--assignee") "" in
                         _ <== log ("> Creating ticket: " ++ quote ++ title ++ quote ++ " ["
                                    ++ areaName ++ "] " ++ priority ++ " " ++ ticketType
                                    ++ assigneeLabel) ;;
                         ticket <== await (createTicket AI DB stringify title areaName
                                             (getArg argv "--body") (Some priority)
                                             (getArg argv "--assignee") (Some ticketType)) ;;
                         stamp <== await currentTime ;;
                         _ <== await (appendEntry (Obj [("ticket_id", Ticket.id ticket);
                                                        ("title", Ticket.title ticket);
                                                        ("action", Str "created");
                                                        ("timestamp", Str stamp)])) ;;
                         short <== liftC (shortIdOf (Ticket.id ticket)) ;;
                         _ <== log ("+ Created: " ++ short) ;;
                         id <== liftC (toString (Ticket.id ticket)) ;;
                         _ <== log ("  ID: " ++ id) ;;
                         status <== liftC (toString (Ticket.status ticket)) ;;
                         log ("  Status: " ++ status)) p))
                = Some (code, after)
                /\ trace (world after)
                   = (trace w1 ++ Request "POST" "/pages" payload :: rest)%list
                /\ requests rest = []
                /\ sentTitle payload
                   = Some (String.substring 0 200 (or_default (getArg argv "--create") ""))
                /\ own (sentProperties payload) "Area"
                   = Some (Obj [("multi_select",
                                 Arr [Obj [("name",
                                            Str (or_default (getArg argv "--area") ""))]])])
                /\ own (sentProperties payload) "Priority"
                   = Some (selectOf (or_default (getArg argv "--priority") "P0"))
                /\ own (sentProperties payload) "Type"
                   = Some (selectOf (or_default (getArg argv "--type") "Story"))).
  { intros dsId w1 Hres. cbv zeta.
    match goal with
    | |- context [log ?label] =>
        destruct (cmdCreate_tail AI DB stringify label
                    (or_default (getArg argv "--create") "")
                    (or_default (getArg argv "--area") "")
                    (getArg argv "--body") (getArg argv "--assignee")
                    (or_default (getArg argv "--priority") "P0")
                    (or_default (getArg argv "--type") "Story") p dsId w1 Hres)
          as (payload & rest & Htrace & Hrest & Hsent & Hprops)
    end.
    eexists. eexists. exists payload, rest.
    split; [rewrite <- surjective_pairing; reflexivity|].
    split; [exact Htrace|]. split; [exact Hrest|].
    split; [exact Hsent|]. rewrite Hprops. repeat split; reflexivity. }
  destruct (missing (getArg argv "--priority")) eqn:Hp; cbn [negb andb orb].
  - destruct (missing (getArg argv "--type")) eqn:Ht; cbn [negb andb orb].
    + split; [discriminate|intros _; exact Htail].
    + destruct (includes VALID_TYPES (getArg argv "--type")) eqn:Hti; cbn [negb].
      * split; [discriminate|intros _; exact Htail].
      * split; [intros _; eexists; reflexivity|discriminate].
  - destruct (includes VALID_PRIORITIES (getArg argv "--priority")) eqn:Hpi; cbn [negb].
    + destruct (missing (getArg argv "--type")) eqn:Ht; cbn [negb andb orb].
      * split; [discriminate|intros _; exact Htail].
      * destruct (includes VALID_TYPES (getArg argv "--type")) eqn:Hti; cbn [negb].
        -- split; [discriminate|intros _; exact Htail].
        -- split; [intros _; eexists; reflexivity|discriminate].
    + split; [intros _; eexists; reflexivity|discriminate].
Qed.

Lemma create_checks_then_writes_witness :
  (exists line,
     humanize "" "db" byCodeUnit (fun _ => "{}")
       ["node"; "humanize.ts"; "--create"; "Fix the login page"; "--area"; "UI"] git_ok
       hourly (fresh (world_ready [created_page] None))
     = Some (1, mkProcess (world_ready [created_page] None) [Err line] []))
  /\ (exists code after payload rest,
        humanize "" "db" byCodeUnit (fun _ => "{}")
          ["node"; "humanize.ts"; "--create"; "Fix the login page"; "--area"; "Backend"]
          git_ok hourly (fresh (world_ready [created_page] None))
        = Some (code, after)
        /\ trace (world after) = Request "POST" "/pages" payload :: rest
        /\ own (sentProperties payload) "Type" = Some (selectOf "Story")
        /\ own (sentProperties payload) "Priority" = Some (selectOf "P0")).
Proof.
  split.
  - destruct (create_checks_then_writes "" "db" byCodeUnit (fun _ => "{}") git_ok hourly
                ["node"; "humanize.ts"; "--create"; "Fix the login page"; "--area"; "UI"]
                (fresh (world_ready [created_page] None)) eq_refl eq_refl eq_refl)
      as (Hbad & _).
    exact (Hbad eq_refl).
  - destruct (create_checks_then_writes "" "db" byCodeUnit (fun _ => "{}") git_ok hourly
                ["node"; "humanize.ts"; "--create"; "Fix the login page";
                 "--area"; "Backend"]
                (fresh (world_ready [created_page] None)) eq_refl eq_refl eq_refl)
      as (_ & Hgood).
    destruct (Hgood eq_refl (Str "ds-1") (world_ready [created_page] None) eq_refl)
      as (code & after & payload & rest & Hrun & Htrace & _ & _ & _ & Hpriority & Htype).
    exists code, after, payload, rest. split; [exact Hrun|].
    split; [exact Htrace|]. split; [exact Htype|exact Hpriority].
Defined.

Section SyncCommand.

Variable AI_SQUAD_ID DB_ID : string.
Variable localeCompare : string -> string -> Z.

Lemma queue_excludes (w w' : World) (st : HumanizeState.t) :
  syncState AI_SQUAD_ID DB_ID localeCompare w = (Normal st, w') ->
  Forall (fun q => includes_value excluded (QueueItem.status q) = false)
    (HumanizeState.queue st).
Proof.
  rewrite syncState_run.
  destruct (fetchAllShipyardPages DB_ID w) as [[pages|e] w1]; [|discriminate].
  rewrite collectQueue_traverse.
  destruct (traverse (extractTicket AI_SQUAD_ID) pages) as [tickets|e];
    cbn [Js.bind]; [|discriminate].
  destruct (sort (compareItems localeCompare) (map toQueueItem (filter isActive tickets)))
    as [queue|e] eqn:Hsort; [|discriminate].
  cbv zeta. intros E. injection E as <- _. cbn [HumanizeState.queue].
  apply (Permutation_Forall (sort_permutation _ _ _ Hsort)).
  apply Forall_map. apply Forall_forall. intros t Ht.
  apply filter_In in Ht as [_ Ht]. unfold isActive in Ht.
  apply andb_prop in Ht as [_ Ht]. apply negb_true_iff in Ht. exact Ht.
Qed.

Lemma grouped_excluded (queue : list QueueItem.t) (status : string) :
  Forall (fun q => includes_value excluded (QueueItem.status q) = false) queue ->
  In status excluded ->
  grouped queue status = [].
Proof.
  intros Hq Hin. unfold grouped.
  induction Hq as [|q queue Hq _ IH]; [reflexivity|].
  cbn [filter]. rewrite IH.
  destruct (is_str (QueueItem.status q) status) eqn:E; [|reflexivity].
  exfalso. apply is_str_eq in E.
  assert (H : includes_value excluded (QueueItem.status q) = true).
  { apply includes_value_In. rewrite E. now apply in_map. }
  congruence.
Qed.

Lemma forEach_lines {A} (render : A -> completion string) (items : list A)
      (lines : list string) (p : Process) :
  traverse render items = Normal lines ->
  forEach items (fun item => line <== liftC (render item) ;; log line) p
  = (Returned tt, mkProcess (world p) (console p ++ map Out lines) (executed p)).
Proof.
  revert lines p. induction items as [|item items IH]; intros lines p.
  - cbn. intros E. injection E as <-. cbn. rewrite app_nil_r. now destruct p.
  - cbn [traverse]. destruct (render item) as [line|e] eqn:Hl; [|discriminate].
    cbn [Js.bind]. destruct (traverse render items) as [more|e]; [|discriminate].
    cbn [Js.bind]. intros E. injection E as <-.
    cbn [forEach]. unfold bindC at 1. unfold bindC at 1. unfold liftC at 1. rewrite Hl.
    unfold log at 1, print at 1.
    rewrite (IH more _ eq_refl). cbn [world console executed map].
    rewrite <- app_assoc. reflexivity.
Qed.

Lemma traverse_length {A B} (f : A -> completion B) (l : list A) (r : list B) :
  traverse f l = Normal r -> List.length r = List.length l.
Proof.
  revert r. induction l as [|x l IH]; intros r; cbn [traverse].
  - intros E. now injection E as <-.
  - destruct (f x); [|discriminate]. cbn [Js.bind].
    destruct (traverse f l) as [ys|]; [|discriminate]. cbn [Js.bind].
    intros E. injection E as <-. cbn. now rewrite (IH ys eq_refl).
Qed.

Lemma group_printed (queue : list QueueItem.t) (status : string) (lines : list string)
      (p : Process) :
  traverse queueLine (grouped queue status) = Normal lines ->
  (let items := grouped queue status in
   if (List.length items =? 0)%nat then retC tt else
   _ <== log ("  > " ++ status ++ " (" ++ decimal (List.length items) ++ ")") ;;
   _ <== forEach items (fun item => line <== liftC (queueLine item) ;; log line) ;;
   log "") p
  = (Returned tt,
     mkProcess (world p) (console p ++ groupLines status lines) (executed p)).
Proof.
  intros Hlines. cbv zeta. pose proof (traverse_length _ _ _ Hlines) as Hlen.
  destruct (grouped queue status) as [|item items] eqn:Hitems.
  - cbn in Hlines. injection Hlines as <-. cbn. rewrite app_nil_r. now destruct p.
  - destruct lines as [|line lines]; [discriminate|].
    cbn [List.length Nat.eqb].
    unfold bindC at 1. unfold log at 1, print at 1.
    unfold bindC at 1. rewrite (forEach_lines queueLine _ _ _ Hlines).
    unfold log, print. cbn [world console executed groupLines List.length].
    cbn [List.length] in Hlen. injection Hlen as Hlen. rewrite Hlen.
    rewrite <- !app_assoc. reflexivity.
Qed.

End SyncCommand.

(** Run without a command, the script syncs and lists the queue under
    three headings, "In Progress", "In Review" and "Open", in that
    order, each with its items in queue order and left out when it has
    none.  The count it announces is that of the whole queue: an item of
    another status, "Review AI Fix" for one, is counted and not listed.
    The headings "On hold" and "Blocked by human" never appear, the sync
    keeping no item of these statuses.  The script is run without
    [--test]. *)
Theorem sync_lists_three_groups :
  forall (AI_SQUAD_ID DB_ID : string) (localeCompare : string -> string -> Z)
         (JSON_stringify : value -> string) (git : string -> option string)
         (clock : nat -> string) (argv : list string) (p : Process)
         (st : HumanizeState.t) (w' : World) (progress review open : list string),
    hasFlag argv "--test" = false ->
    noCommand argv ->
    syncState AI_SQUAD_ID DB_ID localeCompare (world p) = (Normal st, w') ->
    traverse queueLine (grouped (HumanizeState.queue st) "In Progress") = Normal progress ->
    traverse queueLine (grouped (HumanizeState.queue st) "In Review") = Normal review ->
    traverse queueLine (grouped (HumanizeState.queue st) "Open") = Normal open ->
    HumanizeState.queue st <> [] ->
    humanize AI_SQUAD_ID DB_ID localeCompare JSON_stringify argv git clock p
    = Some (0, mkProcess w'
                 (console p
                  ++ [Out ("~ Syncing Shipyard state..." ++ newline);
                      Out ("  " ++ decimal (List.length (HumanizeState.queue st))
                           ++ " active ticket(s):" ++ newline)]
                  ++ groupLines "In Progress" progress
                  ++ groupLines "In Review" review
                  ++ groupLines "Open" open
                  ++ [Out ("  Last synced: " ++ HumanizeState.last_synced st)])
                 (executed p))
    /\ grouped (HumanizeState.queue st) "On hold" = []
    /\ grouped (HumanizeState.queue st) "Blocked by human" = [].
Proof.
  intros AI DB lc stringify git clock argv p st w' progress review open Htest
    (Hpoll & Hcreate & Hstart & Hdone & Hget) Hsync Hprogress Hreview Hopen Hqueue.
  pose proof (queue_excludes AI DB lc _ _ _ Hsync) as Hexcl.
  assert (Hhold : grouped (HumanizeState.queue st) "On hold" = []).
  { apply grouped_excluded; [exact Hexcl|]. unfold excluded. cbn. tauto. }
  assert (Hblocked : grouped (HumanizeState.queue st) "Blocked by human" = []).
  { apply grouped_excluded; [exact Hexcl|]. unfold excluded. cbn. tauto. }
  split; [|split; assumption].
  unfold humanize, main. rewrite Htest, Hpoll, Hcreate, Hstart, Hdone, Hget.
  unfold cmdSync, settle. f_equal.
  unfold bindC at 1. unfold log at 1, print at 1.
  unfold bindC at 1. unfold await at 1. cbn [world console executed]. rewrite Hsync.
  cbv zeta.
  destruct (HumanizeState.queue st) as [|item queue] eqn:Hq; [contradiction|].
  cbn [List.length Nat.eqb].
  unfold bindC at 1. unfold log at 1, print at 1. cbn [world console executed].
  unfold bindC at 1. unfold statusOrder. cbn [forEach].
  unfold bindC at 1. rewrite (group_printed _ "In Progress" progress _ Hprogress).
  unfold bindC at 1. rewrite (group_printed _ "In Review" review _ Hreview).
  unfold bindC at 1. rewrite (group_printed _ "Open" open _ Hopen).
  unfold bindC at 1. rewrite (group_printed _ "On hold" [] _);
    [|rewrite Hhold; reflexivity].
  unfold bindC at 1. rewrite (group_printed _ "Blocked by human" [] _);
    [|rewrite Hblocked; reflexivity].
  unfold retC, log, print. cbn [world console executed groupLines].
  rewrite !app_nil_r, <- !app_assoc. reflexivity.
Qed.

Lemma sync_lists_three_groups_witness :
  exists st w',
    humanize "" "db" byCodeUnit (fun _ => "{}") ["node"; "humanize.ts"] git_ok hourly
      (fresh (world_ready review_listing None))
    = Some (0, mkProcess w'
                 [Out ("~ Syncing Shipyard state..." ++ newline);
                  Out ("  3 active ticket(s):" ++ newline);
                  Out "  > In Progress (1)";
                  Out "    P4 2c6d872b  (untitled)";
                  Out "";
                  Out "  > Open (1)";
                  Out "    P1 2bed872b  (untitled)";
                  Out "";
                  Out "  Last synced: 2026-01-01T00:00:00.000Z"] [])
    /\ map QueueItem.status (HumanizeState.queue st)
       = [Str "Review AI Fix"; Str "Open"; Str "In Progress"]
    /\ stateFile w' = Some (Json (state_json st)).
Proof.
  run (syncState "" "db" byCodeUnit (world_ready review_listing None)) as st w'.
  assert (Hsync : syncState "" "db" byCodeUnit (world_ready review_listing None)
                  = (Normal st, w')) by (vm_compute; reflexivity).
  exists st, w'.
  destruct (sync_lists_three_groups "" "db" byCodeUnit (fun _ => "{}") git_ok hourly
              ["node"; "humanize.ts"] (fresh (world_ready review_listing None)) st w'
              ["    P4 2c6d872b  (untitled)"] [] ["    P1 2bed872b  (untitled)"])
    as (Hrun & _).
  - reflexivity.
  - repeat split; reflexivity.
  - exact Hsync.
  - vm_compute. reflexivity.
  - vm_compute. reflexivity.
  - vm_compute. reflexivity.
  - discriminate.
  - split; [exact Hrun|]. split; reflexivity.
Defined.

(* ===================================================================== *)
(** ** What is written, read back *)

(** The extractors read what the writes send, once the remote returns
    it under the type of the property: the ids of a relation in the order
    written, duplicates kept; the name of a status, a type or a feature;
    the date of "Resolved At"; the id of the person assigned.  Text is
    the exception: a branch or a commit is written as [text.content] and
    read as [plain_text], which the remote has to add. *)
Theorem written_fields_read_back :
  (forall ids : list string,
     extractRelationIds (echoProperty (relationOf ids)) = Normal (map Str ids))
  /\ (forall name : string,
        extractSelect (echoProperty (selectOf name)) = Normal (Str name))
  /\ (forall (pageId status stamp : string) (body : value),
        statusWrite pageId status stamp = patch pageId body ->
        (forall written,
            own (sentProperties body) "Status" = Some written ->
            extractSelect (echoProperty written) = Normal (Str status))
        /\ (forall written,
              own (sentProperties body) "Resolved At" = Some written ->
              extractDate (echoProperty written) = Normal (Str stamp)))
  /\ (forall userId : string,
        extractAssigneeIds (echoProperty (people userId)) = Normal [Str userId])
  /\ (forall text : string,
        extractPlainText (echoProperty (richTextOf text)) = Normal Null).
Proof.
  split; [|split; [|split; [|split]]].
  - intros ids. unfold extractRelationIds, relationOf, echoProperty.
    cbn [truthy negb get own String.eqb Ascii.eqb Bool.eqb Js.bind is_str coalesce nullish
         map_method].
    induction ids as [|id ids IH]; [reflexivity|].
    cbn [map traverse get own String.eqb Ascii.eqb Bool.eqb Js.bind].
    rewrite IH. reflexivity.
  - reflexivity.
  - intros pageId status stamp body E. unfold statusWrite, patch in E.
    injection E as <-. unfold sentProperties, properties.
    cbn [get own String.eqb Ascii.eqb Bool.eqb]. split.
    + intros written E. injection E as <-. reflexivity.
    + intros written.
      destruct (String.eqb status "Done" || String.eqb status "Review AI Fix").
      * cbn [own String.eqb Ascii.eqb Bool.eqb]. intros E. injection E as <-. reflexivity.
      * cbn [own]. discriminate.
  - reflexivity.
  - reflexivity.
Qed.

Lemma written_fields_read_back_witness :
  (forall written,
      own (sentProperties (properties
             [("Status", Obj [("status", Obj [("name", Str "Done")])]);
              ("Resolved At", Obj [("date", Obj [("start", Str "2026-01-01T00:00:00.000Z")])])]))
        "Resolved At" = Some written ->
      extractDate (echoProperty written) = Normal (Str "2026-01-01T00:00:00.000Z"))
  /\ extractRelationIds (echoProperty (relationOf ["a"; "b"; "a"]))
     = Normal [Str "a"; Str "b"; Str "a"].
Proof.
  destruct written_fields_read_back as (Hrel & _ & Hstatus & _).
  split.
  - exact (proj2 (Hstatus "page-1" "Done" "2026-01-01T00:00:00.000Z" _ eq_refl)).
  - exact (Hrel ["a"; "b"; "a"]).
Defined.

(* ===================================================================== *)
(** ** The commands that only read *)

Section PrintsOnly.

Lemma printsOnly_ret {A} (a : A) : printsOnly (retC a).
Proof. intros p. split; reflexivity. Qed.

Lemma printsOnly_print (line : Line) : printsOnly (print line).
Proof. intros p. split; reflexivity. Qed.

Lemma printsOnly_liftC {A} (c : completion A) : printsOnly (liftC c).
Proof. intros p. unfold liftC. destruct c; split; reflexivity. Qed.

Lemma printsOnly_exit {A} (code : nat) : printsOnly (@exit A code).
Proof. intros p. split; reflexivity. Qed.

Lemma printsOnly_bind {A B} (m : Cli A) (k : A -> Cli B) :
  printsOnly m -> (forall a, printsOnly (k a)) -> printsOnly (bindC m k).
Proof.
  intros Hm Hk p. unfold bindC. specialize (Hm p).
  destruct (m p) as [[a|code|e] p']; cbn [snd] in *; [|exact Hm|exact Hm].
  destruct (Hk a p') as [Hw He]. destruct Hm as [Hw' He']. split; congruence.
Qed.

Lemma printsOnly_forEach {A} (l : list A) (body : A -> Cli unit) :
  (forall x, printsOnly (body x)) -> printsOnly (forEach l body).
Proof.
  intros Hb. induction l as [|x l IH]; cbn [forEach].
  - apply printsOnly_ret.
  - apply printsOnly_bind; [apply Hb|intros _; exact IH].
Qed.

Lemma printsOnly_logIfSet (label : string) (v : value) : printsOnly (logIfSet label v).
Proof.
  unfold logIfSet. destruct (truthy v); [|apply printsOnly_ret].
  apply printsOnly_bind; [apply printsOnly_liftC|intros s; apply printsOnly_print].
Qed.

Lemma await_then {A B} (m : M A) (k : A -> Cli B) (p : Process) :
  (forall a, printsOnly (k a)) ->
  world (snd (bindC (await m) k p)) = snd (m (world p))
  /\ executed (snd (bindC (await m) k p)) = executed p.
Proof.
  intros Hk. unfold bindC, await.
  destruct (m (world p)) as [[a|e] w]; cbn [snd]; [|split; reflexivity].
  destruct (Hk a (mkProcess w (console p) (executed p))) as [Hw He].
  split; [exact Hw|exact He].
Qed.

Lemma settle_world (ending : Ending unit * Process) :
  world (snd (settle ending)) = world (snd ending)
  /\ executed (snd (settle ending)) = executed (snd ending).
Proof.
  unfold settle. destruct ending as [[a|code|e] p']; split; reflexivity.
Qed.

Ltac prints_only :=
  repeat first
    [ apply printsOnly_ret
    | apply printsOnly_print
    | apply printsOnly_liftC
    | apply printsOnly_exit
    | apply printsOnly_logIfSet
    | apply printsOnly_forEach; intros ?
    | apply printsOnly_bind; [|intros ?]
    | match goal with
      | |- printsOnly (if ?b then _ else _) => destruct b
      | |- printsOnly (log _) => apply printsOnly_print
      | |- printsOnly (logError _) => apply printsOnly_print
      end ].

Variable AI_SQUAD_ID DB_ID : string.
Variable localeCompare : string -> string -> Z.

Lemma cmdPoll_world (p : Process) :
  world (snd (cmdPoll AI_SQUAD_ID DB_ID localeCompare p))
  = snd (fetchReadyTickets AI_SQUAD_ID DB_ID localeCompare (world p))
  /\ executed (snd (cmdPoll AI_SQUAD_ID DB_ID localeCompare p)) = executed p.
Proof.
  unfold cmdPoll. unfold bindC at 1. unfold log at 1, print at 1.
  match goal with
  | |- context [bindC (await ?m) ?k ?q] =>
      change (world q) with (world p) || idtac;
      pose proof (await_then m k q) as H
  end.
  cbn [world executed] in H. apply H. intros tickets. prints_only.
Qed.

Lemma cmdGet_world (argv : list string) (p : Process) :
  (world (snd (cmdGet AI_SQUAD_ID argv p)) = world p
   \/ exists ticketId,
        world (snd (cmdGet AI_SQUAD_ID argv p))
        = snd (fetchTicketDetails AI_SQUAD_ID ticketId (world p)))
  /\ executed (snd (cmdGet AI_SQUAD_ID argv p)) = executed p.
Proof.
  unfold cmdGet. destruct (missing (getArg argv "--get")).
  - split; [left|]; reflexivity.
  - unfold bindC at 1. unfold log at 1, print at 1.
    match goal with
    | |- context [bindC (await ?m) ?k ?q] => pose proof (await_then m k q) as H
    end.
    cbn [world executed] in H.
    destruct H as [Hw He]; [intros details; cbv zeta; prints_only|].
    split; [right; eexists; exact Hw|exact He].
Qed.

Ltac split_result :=
  match goal with
  | |- context [match ?c with _ => _ end] =>
      lazymatch type of c with
      | completion _ => destruct c as [?|?]
      | list _ => destruct c as [|? ?]
      | bool => destruct c
      end;
      cbn [remote dataSourceId stateFile now trace fst snd Js.bind]
  end.

Lemma fetchTicketDetails_reads (pageId : string) (w : World) :
  stateFile (snd (fetchTicketDetails AI_SQUAD_ID pageId w)) = stateFile w
  /\ exists events,
       trace (snd (fetchTicketDetails AI_SQUAD_ID pageId w)) = (trace w ++ events)%list
       /\ forallb reads events = true.
Proof.
  assert (Hread : forall path, reads (Request "GET" path Undefined) = true)
    by reflexivity.
  unfold fetchTicketDetails, bindM, notionFetch, rejectError, bindM, emit, lift, sleep,
    emit, throw, ret.
  cbn [remote dataSourceId stateFile now trace fst snd].
  repeat split_result.
  all: split; [reflexivity|].
  all: rewrite <- ?app_assoc; eexists; split; [reflexivity|].
  all: cbn [forallb app]; rewrite ?Hread; reflexivity.
Qed.

Lemma prefix_append (s t : string) : String.prefix s (s ++ t) = true.
Proof.
  induction s as [|c s IH]; cbn [String.append String.prefix]; [now destruct t|].
  destruct (ascii_dec c c) as [_|Hne]; [exact IH|now elim Hne].
Qed.

Lemma reads_query (ds : string) (body : value) :
  reads (Request "POST" ("/data_sources/" ++ ds ++ "/query") body) = true.
Proof.
  unfold reads. rewrite prefix_append. reflexivity.
Qed.

Lemma onlyReads_resolve : onlyReads (resolveDataSourceId DB_ID).
Proof.
  intros w. unfold resolveDataSourceId.
  destruct (truthy (dataSourceId w)).
  { split; [reflexivity|]. exists []. now rewrite app_nil_r. }
  unfold bindM, notionFetch, bindM, emit, lift, throw, ret, setDataSourceId.
  cbn [remote dataSourceId stateFile now trace fst snd].
  repeat split_result.
  all: split; [reflexivity|].
  all: eexists; split; [reflexivity|reflexivity].
Qed.

Lemma onlyReads_loop (dsId : value) :
  forall (fuel : nat) (cursor : value) (pages : list value),
    onlyReads (fetchPagesLoop fuel dsId cursor pages).
Proof.
  induction fuel as [|fuel IH]; intros cursor pages w.
  { split; [reflexivity|]. exists []. now rewrite app_nil_r. }
  cbn [fetchPagesLoop]. unfold bindM, lift, notionFetch, bindM, emit.
  destruct (toString dsId) as [ds|]; cbn [Js.bind];
    [|split; [reflexivity|exists []; now rewrite app_nil_r]].
  cbn [remote dataSourceId stateFile now trace fst snd].
  destruct (remote w) as [|data left];
    [split; [reflexivity|eexists; split; [reflexivity|]];
     cbn [forallb]; now rewrite reads_query|].
  destruct (get data "object") as [o|];
    [|split; [reflexivity|eexists; split; [reflexivity|]];
      cbn [forallb]; now rewrite reads_query].
  destruct (is_str o "error").
  { destruct (Js.bind (get data "message") _);
      (split; [reflexivity|eexists; split; [reflexivity|]]);
      cbn [forallb]; now rewrite reads_query. }
  destruct (Js.bind (get data "results") _) as [items|];
    [|split; [reflexivity|eexists; split; [reflexivity|]];
      cbn [forallb]; now rewrite reads_query].
  destruct (get data "has_more") as [more|];
    [|split; [reflexivity|eexists; split; [reflexivity|]];
      cbn [forallb]; now rewrite reads_query].
  assert (Hlast :
            forall r : completion (list value),
              stateFile w = stateFile w
              /\ exists events,
                   (trace w ++ [Request "POST" ("/data_sources/" ++ ds ++ "/query")
                                  (Obj (("page_size", Num "100")
                                        :: (if truthy cursor
                                            then [("start_cursor", cursor)] else [])))])%list
                   = (trace w ++ events)%list /\ forallb reads events = true).
  { intros _. split; [reflexivity|]. eexists. split; [reflexivity|].
    cbn [forallb]. now rewrite reads_query. }
  destruct (truthy more); unfold ret.
  - destruct (get data "next_cursor") as [next|]; [|exact (Hlast (Throw TypeError))].
    destruct (truthy next); [|exact (Hlast (Throw TypeError))].
    unfold sleep, emit.
    match goal with
    | |- context [fetchPagesLoop fuel dsId next ?ps ?w0] =>
        destruct (IH next ps w0) as (Hfile & events & Htrace & Hreads)
    end.
    cbn [remote dataSourceId stateFile now trace fst snd] in *.
    split; [exact Hfile|].
    eexists. split; [rewrite Htrace, <- !app_assoc; reflexivity|].
    cbn [app forallb]. rewrite reads_query. exact Hreads.
  - exact (Hlast (Throw TypeError)).
Qed.

Lemma onlyReads_fetchAll : onlyReads (fetchAllShipyardPages DB_ID).
Proof.
  intros w. unfold fetchAllShipyardPages, bindM.
  destruct (onlyReads_resolve w) as (Hfile & events & Htrace & Hreads).
  destruct (resolveDataSourceId DB_ID w) as [[dsId|e] w1]; cbn [snd] in *;
    [|split; [exact Hfile|exists events; split; assumption]].
  destruct (onlyReads_loop dsId (S (List.length (remote w1))) Undefined [] w1)
    as (Hfile' & events' & Htrace' & Hreads').
  split; [congruence|].
  exists (events ++ events')%list. split.
  - rewrite Htrace', Htrace, app_assoc. reflexivity.
  - rewrite forallb_app, Hreads, Hreads'. reflexivity.
Qed.

Lemma onlyReads_ready : onlyReads (fetchReadyTickets AI_SQUAD_ID DB_ID localeCompare).
Proof.
  intros w. rewrite fetchReadyTickets_run.
  pose proof (onlyReads_fetchAll w) as H.
  destruct (fetchAllShipyardPages DB_ID w) as [[pages|e] w1]; exact H.
Qed.

End PrintsOnly.

(** [--poll] and [--get] only read: whatever the remote answers and
    whether the command ends well or not, the snapshot file is left as it
    was, no git command is run, and every request sent is a GET or a
    query of the data source; no page is written.  The script is run
    without [--test]. *)
Theorem poll_and_get_only_read :
  forall (AI_SQUAD_ID DB_ID : string) (localeCompare : string -> string -> Z)
         (JSON_stringify : value -> string) (git : string -> option string)
         (clock : nat -> string) (argv : list string) (p : Process),
    hasFlag argv "--test" = false ->
    hasFlag argv "--poll" = true
    \/ (hasFlag argv "--create" = false /\ hasFlag argv "--start" = false
        /\ hasFlag argv "--done" = false /\ hasFlag argv "--get" = true) ->
    exists code after,
      humanize AI_SQUAD_ID DB_ID localeCompare JSON_stringify argv git clock p
      = Some (code, after)
      /\ stateFile (world after) = stateFile (world p)
      /\ executed after = executed p
      /\ exists events,
           trace (world after) = (trace (world p) ++ events)%list
           /\ forallb reads events = true.
Proof.
  intros AI DB lc stringify git clock argv p Htest Hflags.
  unfold humanize. rewrite Htest.
  exists (fst (settle (main AI DB lc stringify argv git clock p))),
         (snd (settle (main AI DB lc stringify argv git clock p))).
  split; [now rewrite <- surjective_pairing|].
  destruct (settle_world (main AI DB lc stringify argv git clock p)) as [Hw He].
  rewrite Hw, He. clear Hw He.
  assert (Hpoll : hasFlag argv "--poll" = true ->
                  main AI DB lc stringify argv git clock = cmdPoll AI DB lc).
  { intros H. unfold main. now rewrite H. }
  assert (Hget : hasFlag argv "--poll" = false ->
                 hasFlag argv "--create" = false -> hasFlag argv "--start" = false ->
                 hasFlag argv "--done" = false -> hasFlag argv "--get" = true ->
                 main AI DB lc stringify argv git clock = cmdGet AI argv).
  { intros H0 H1 H2 H3 H4. unfold main. now rewrite H0, H1, H2, H3, H4. }
  destruct (hasFlag argv "--poll") eqn:Hp.
  - rewrite (Hpoll eq_refl).
    destruct (cmdPoll_world AI DB lc p) as [Hw He]. rewrite Hw, He.
    destruct (onlyReads_ready AI DB lc (world p)) as (Hfile & Hevents).
    split; [exact Hfile|]. split; [reflexivity|exact Hevents].
  - destruct Hflags as [H|(H1 & H2 & H3 & H4)]; [discriminate|].
    rewrite (Hget eq_refl H1 H2 H3 H4).
    destruct (cmdGet_world AI argv p) as [[Hw|[ticketId Hw]] He]; rewrite Hw, He.
    + split; [reflexivity|]. split; [reflexivity|].
      exists []. now rewrite app_nil_r.
    + destruct (fetchTicketDetails_reads AI ticketId (world p)) as (Hfile & Hevents).
      split; [exact Hfile|]. split; [reflexivity|exact Hevents].
Qed.

Lemma poll_and_get_only_read_witness :
  exists code after events,
    humanize "" "db" byCodeUnit (fun _ => "{}") ["node"; "humanize.ts"; "--poll"] git_ok
      hourly (fresh (world_ready mixed_listing (Some earlier_snapshot)))
    = Some (code, after)
    /\ stateFile (world after) = Some earlier_snapshot
    /\ executed after = []
    /\ trace (world after) = events
    /\ List.length (requests events) = 2
    /\ forallb reads events = true.
Proof.
  destruct (poll_and_get_only_read "" "db" byCodeUnit (fun _ => "{}") git_ok hourly
              ["node"; "humanize.ts"; "--poll"]
              (fresh (world_ready mixed_listing (Some earlier_snapshot)))
              eq_refl (or_introl eq_refl))
    as (code & after & Hrun & Hfile & Hexecuted & events & Htrace & Hreads).
  exists code, after, events. split; [exact Hrun|].
  split; [exact Hfile|]. split; [exact Hexecuted|]. split; [exact Htrace|].
  split; [|exact Hreads].
  vm_compute in Hrun. injection Hrun as _ <-.
  vm_compute in Htrace. subst events. reflexivity.
Defined.

(* ===================================================================== *)
(** ** Tickets of several applications *)

Section FirstOption.

Lemma extractMultiSelect_names (names : list string) :
  extractMultiSelect (multiSelect names) = Normal (map Str names).
Proof.
  unfold extractMultiSelect, multiSelect.
  cbn [truthy negb get own String.eqb Ascii.eqb Bool.eqb Js.bind is_str coalesce nullish
       map_method].
  induction names as [|name names IH]; [reflexivity|].
  cbn [map traverse get own String.eqb Ascii.eqb Bool.eqb Js.bind].
  rewrite IH. reflexivity.
Qed.

End FirstOption.

(** Of the applications and of the areas a ticket is tagged with, the
    first alone is kept.  A ticket is therefore selected, by the queue
    and by the poll, only when the target application is the first of its
    applications: tagged with it in second place, the ticket is left out. *)
Theorem first_application_alone_counts :
  forall (AI_SQUAD_ID : string) (page : value) (t : Ticket.t)
         (applications areas : list string),
    extractTicket AI_SQUAD_ID page = Normal t ->
    pageProperty page "Application" = multiSelect applications ->
    pageProperty page "Area" = multiSelect areas ->
    Ticket.application t = match applications with
                           | [] => Null
                           | first :: _ => Str first
                           end
    /\ Ticket.area t = match areas with
                       | [] => Null
                       | first :: _ => Str first
                       end
    /\ (isActive t = true -> exists others, applications = TARGET_APP :: others)
    /\ (isReady t = true -> exists others, applications = TARGET_APP :: others).
Proof.
  intros AI page t applications areas Hextract Happ Harea.
  destruct (extractTicket_fields AI page t Hextract)
    as ((apps & Happs & Hta) & (ars & Hars & Htr) & _).
  rewrite Happ, extractMultiSelect_names in Happs. injection Happs as <-.
  rewrite Harea, extractMultiSelect_names in Hars. injection Hars as <-.
  assert (Ha : Ticket.application t = match applications with
                                      | [] => Null
                                      | first :: _ => Str first
                                      end).
  { rewrite Hta. now destruct applications. }
  split; [exact Ha|]. split; [rewrite Htr; now destruct areas|].
  assert (H : is_str (Ticket.application t) TARGET_APP = true ->
              exists others, applications = TARGET_APP :: others).
  { rewrite Ha. destruct applications as [|first others]; [discriminate|].
    intros E. apply is_str_eq in E. injection E as ->. now exists others. }
  split; intros Hsel; apply H.
  - unfold isActive in Hsel. apply andb_prop in Hsel as [Hsel _].
    apply andb_prop in Hsel as [Hsel _]. exact Hsel.
  - unfold isReady in Hsel. apply andb_prop in Hsel as [Hsel _].
    apply andb_prop in Hsel as [_ Hsel]. exact Hsel.
Qed.

Lemma first_application_alone_counts_witness :
  exists t,
    extractTicket "" shared_page = Normal t
    /\ Ticket.application t = Str "Capabl OS"
    /\ isActive t = false
    /\ isReady t = false.
Proof.
  evaluate (extractTicket "" shared_page) as t.
  exists t. split; [reflexivity|].
  destruct (first_application_alone_counts "" shared_page t ["Capabl OS"; TARGET_APP]
              ["Backend"; "Docs"] eq_refl eq_refl eq_refl) as (Happ & _).
  split; [exact Happ|]. split; reflexivity.
Defined.

(* ===================================================================== *)
(** ** The self-test *)

(** The self-test's write probe never fails the self-test.  When the
    creation throws, the exception is printed and the run goes on to its
    last line, "Self-test passed".  When the creation returns, the page
    is archived by one PATCH whose answer is not looked at: "Cleanup OK"
    is printed whatever the remote answered, an error object included,
    and there is no pause after it.  Without an API key the self-test
    ends with code 1 before anything is sent. *)
Theorem selfTest_passes_whatever_the_write_does :
  forall (API_KEY DB_ID AI_SQUAD_ID : string) (JSON_stringify : value -> string)
         (p : Process),
    let create := createTicket AI_SQUAD_ID DB_ID JSON_stringify
                    "_selftest_probe_" "Backend" None (Some "P4") None None in
    let probe := probeWrite DB_ID AI_SQUAD_ID JSON_stringify in
    (exists p', probe p = (Returned tt, p'))
    /\ (forall e w1,
          create (world p) = (Throw e, w1) ->
          probe p
          = (Returned tt,
             mkProcess w1 (console p ++ [Failure "x Write FAILED:" e]) (executed p)))
    /\ (forall ticket id w1 answer rest,
          create (world p) = (Normal ticket, w1) ->
          Ticket.id ticket = Str id ->
          remote w1 = answer :: rest ->
          probe p
          = (Returned tt,
             mkProcess (served w1 rest [patch id (Obj [("archived", Bool true)])])
               (console p ++ [Out ("+ Write OK — created " ++ String.substring 0 8 id);
                              Out "+ Cleanup OK — archived test page"])
               (executed p)))
    /\ (API_KEY = "" ->
        selfTest API_KEY DB_ID AI_SQUAD_ID JSON_stringify p
        = (Exited 1,
           mkProcess (world p)
             (console p ++ [Out ("Humanize Bridge — Self-test" ++ newline);
                            Err "x NOTION_SHIPYARD_API_KEY is not set"])
             (executed p))).
Proof.
  intros API DB AI stringify p create probe.
  split; [|split; [|split]].
  - unfold probe, probeWrite, tryCatch.
    unfold bindC at 1. unfold await at 1. fold create.
    destruct (create (world p)) as [[ticket|e] w1]; [|eexists; reflexivity].
    unfold bindC at 1. unfold liftC at 1.
    destruct (idPrefix (Ticket.id ticket)); [|eexists; reflexivity].
    unfold bindC at 1. unfold log at 1, print at 1.
    unfold bindC at 1. unfold liftC at 1.
    destruct (toString (Ticket.id ticket)); [|eexists; reflexivity].
    unfold bindC at 1. unfold await at 1. cbn [world console executed].
    match goal with
    | |- context [notionFetch ?path ?method ?body w1] =>
        destruct (notionFetch path method body w1) as [[answer|e] w2]
    end; eexists; reflexivity.
  - intros e w1 Hc. unfold probe, probeWrite, tryCatch.
    unfold bindC at 1. unfold await at 1. fold create. rewrite Hc. reflexivity.
  - intros ticket id w1 answer rest Hc Hid Hr. unfold probe, probeWrite, tryCatch.
    unfold bindC at 1. unfold await at 1. fold create. rewrite Hc.
    unfold bindC at 1. unfold liftC at 1. rewrite Hid. cbn [idPrefix].
    unfold bindC at 1. unfold log at 1, print at 1.
    unfold bindC at 1. unfold liftC at 1. cbn [toString].
    unfold bindC at 1. unfold await at 1. cbn [world console executed].
    unfold notionFetch, bindM, emit. cbn [remote dataSourceId stateFile now trace].
    rewrite Hr. unfold log, print, served, patch. cbn [world console executed].
    rewrite <- app_assoc. reflexivity.
  - intros ->. unfold selfTest. cbn [String.eqb].
    unfold bindC, log, logError, print, exit. cbn [world console executed].
    rewrite <- app_assoc. reflexivity.
Qed.

Lemma selfTest_passes_whatever_the_write_does_witness :
  (exists w1,
     probeWrite "db" "" (fun _ => "{...}")
       (fresh (world_ready [errorObject "validation_error"] None))
     = (Returned tt,
        mkProcess w1
          [Failure "x Write FAILED:" (Error "Ticket creation failed: {...}")] []))
  /\ (exists w1,
        probeWrite "db" "" (fun _ => "{...}")
          (fresh (world_ready [created_page; errorObject "archive refused"] None))
        = (Returned tt,
           mkProcess (served w1 [] [patch "page-1" (Obj [("archived", Bool true)])])
             [Out "+ Write OK — created page-1";
              Out "+ Cleanup OK — archived test page"] [])).
Proof.
  split.
  - destruct (selfTest_passes_whatever_the_write_does "secret" "db" "" (fun _ => "{...}")
                (fresh (world_ready [errorObject "validation_error"] None)))
      as (_ & Hthrown & _).
    eexists. apply Hthrown. vm_compute. reflexivity.
  - run (createTicket "" "db" (fun _ => "{...}") "_selftest_probe_" "Backend" None
           (Some "P4") None None
           (world_ready [created_page; errorObject "archive refused"] None)) as ticket w1.
    destruct (selfTest_passes_whatever_the_write_does "secret" "db" "" (fun _ => "{...}")
                (fresh (world_ready [created_page; errorObject "archive refused"] None)))
      as (_ & _ & Hcreated & _).
    exists w1.
    apply (Hcreated ticket "page-1" w1 (errorObject "archive refused") []);
      vm_compute; reflexivity.
Defined.

Section Counting.

Variable AI_SQUAD_ID : string.

Lemma bump_total (appCounts : list (value * nat)) (app : value) :
  list_sum (map snd (bump appCounts app)) = list_sum (map snd appCounts) + 1.
Proof.
  induction appCounts as [|[key count] rest IH]; [reflexivity|].
  cbn [bump]. unfold list_sum in *.
  destruct (sameValueZero key app); cbn [map snd fold_right] in *; lia.
Qed.

End Counting.

(** The self-test's counts by application add up to the number of pages
    listed: every page is counted once, under its first application or
    under "(none)". *)
Theorem application_counts_add_up :
  forall (AI_SQUAD_ID : string) (pages : list value) (appCounts : list (value * nat)),
    countByApplication AI_SQUAD_ID pages [] = Normal appCounts ->
    list_sum (map snd appCounts) = List.length pages
    /\ Forall (fun entry => 1 <= snd entry /\ nullish (fst entry) = false) appCounts.
Proof.
  intros AI pages appCounts.
  assert (H : forall acc counts,
             Forall (fun entry => 1 <= snd entry /\ nullish (fst entry) = false) acc ->
             countByApplication AI pages acc = Normal counts ->
             list_sum (map snd counts) = list_sum (map snd acc) + List.length pages
             /\ Forall (fun entry => 1 <= snd entry /\ nullish (fst entry) = false) counts).
  { induction pages as [|page pages IH]; intros acc counts Hacc.
    - cbn [countByApplication List.length]. intros E. injection E as <-.
      split; [now rewrite Nat.add_0_r|exact Hacc].
    - cbn [countByApplication].
      destruct (extractTicket AI page) as [t|e]; [|discriminate]. cbn [Js.bind].
      intros Hc. apply IH in Hc.
      + rewrite bump_total in Hc. cbn [List.length]. destruct Hc as [Hs Hf].
        split; [lia|exact Hf].
      + clear Hc IH. induction Hacc as [|[key count] rest [Hc Hk] Hrest IHacc].
        * cbn [bump]. constructor; [|constructor]. cbn [fst snd].
          split; [apply le_n|].
          unfold coalesce. now destruct (nullish (Ticket.application t)) eqn:E.
        * cbn [bump]. destruct (sameValueZero key _).
          -- constructor; [|exact Hrest]. cbn [fst snd] in *. split; [lia|exact Hk].
          -- constructor; [split; assumption|exact IHacc]. }
  intros Hc. destruct (H [] appCounts (Forall_nil _) Hc) as [Hs Hf].
  split; [exact Hs|exact Hf].
Qed.

Lemma application_counts_add_up_witness :
  exists appCounts,
    countByApplication ""
      [open_ticket_page TARGET_APP; shared_page; open_ticket_page TARGET_APP; sparse_page] []
    = Normal appCounts
    /\ appCounts = [(Str TARGET_APP, 2); (Str "Capabl OS", 1); (Str "(none)", 1)]
    /\ list_sum (map snd appCounts) = 4.
Proof.
  evaluate (countByApplication ""
              [open_ticket_page TARGET_APP; shared_page; open_ticket_page TARGET_APP;
               sparse_page] []) as appCounts.
  exists appCounts. split; [reflexivity|]. split; [reflexivity|].
  exact (proj1 (application_counts_add_up ""
                  [open_ticket_page TARGET_APP; shared_page; open_ticket_page TARGET_APP;
                   sparse_page] appCounts eq_refl)).
Defined.
